(** * Protocol dispatch core and read-only query gate of the schema server

    A shallow embedding of [src/mcp_server.py] (the JSON-RPC engine, the tool
    registry and the dispatcher) and of [src/tools/neo4j_query_tool.py] (the
    free-form query tool with its safety gate), followed by the properties
    the specification states about them.

    Python values are embedded as the inductive [pyval]; a [str] is the list
    of its code points; a [dict] is an association list in insertion order;
    raising is the [Raise] outcome of [result]; calls that leave the core
    (a tool's [execute], the driver's [session.run]) are recorded in a trace
    next to the outcome, so that "nothing ran" is a statement about data. *)

From Stdlib Require Import ZArith NArith List String Ascii Bool Lia.
From Stdlib Require Import Floats.SpecFloat DecimalString.
Import ListNotations.

Set Implicit Arguments.
Set Warnings "-register-all".

(** ** Python strings and values *)

Module Py.

(** A [str] is a sequence of Unicode code points. *)
Definition pystr := list N.

(** String literals of the source, written as Rocq strings. *)
Definition py (s : string) : pystr := map N_of_ascii (list_ascii_of_string s).

Definition str_eqb (a b : pystr) : bool :=
  if list_eq_dec N.eq_dec a b then true else false.

(** [s.startswith(p)] *)
Fixpoint startswith (p s : pystr) : bool :=
  match p, s with
  | [], _ => true
  | _ :: _, [] => false
  | a :: p', b :: s' => (a =? b)%N && startswith p' s'
  end.

(** [p in s] for two strings: [p] occurs in [s] as a contiguous run. *)
Fixpoint contains (p s : pystr) : bool :=
  startswith p s ||
  match s with
  | [] => false
  | _ :: s' => contains p s'
  end.

(** [str.isspace] of one code point (the interpreter's whitespace table):
    what [split()] and [strip()] without arguments treat as a separator. *)
Definition isspace (c : N) : bool :=
  ((9 <=? c) && (c <=? 13) || (28 <=? c) && (c <=? 32)
   || (c =? 133) || (c =? 160) || (c =? 5760)
   || (8192 <=? c) && (c <=? 8202)
   || (c =? 8232) || (c =? 8233) || (c =? 8239) || (c =? 8287)
   || (c =? 12288))%N.

(** [s.split()]: the maximal runs of non-whitespace; [cur] holds the run
    being read, last character first. *)
Fixpoint split_from (cur : pystr) (s : pystr) : list pystr :=
  match s with
  | [] => match cur with [] => [] | _ => [rev cur] end
  | c :: t =>
      if isspace c
      then match cur with [] => split_from [] t | _ => rev cur :: split_from [] t end
      else split_from (c :: cur) t
  end.

Definition split (s : pystr) : list pystr := split_from [] s.

(** [sep.join(parts)] *)
Fixpoint join (sep : pystr) (parts : list pystr) : pystr :=
  match parts with
  | [] => []
  | [w] => w
  | w :: rest => w ++ sep ++ join sep rest
  end.

Fixpoint dropwhile (f : N -> bool) (s : pystr) : pystr :=
  match s with
  | [] => []
  | c :: t => if f c then dropwhile f t else s
  end.

(** [s.rstrip(chars)] for a set of characters given as a predicate. *)
Definition rstrip_by (f : N -> bool) (s : pystr) : pystr :=
  rev (dropwhile f (rev s)).

(** [s.strip()] *)
Definition strip (s : pystr) : pystr :=
  rstrip_by isspace (dropwhile isspace s).

(** [str(n)] for an [int]. *)
Definition str_of_int (z : Z) : pystr := py (NilZero.string_of_int (Z.to_int z)).

Inductive pyval : Type :=
| VNone
| VBool (b : bool)
| VInt (z : Z)
| VFloat (f : spec_float)
| VStr (s : pystr)
| VList (l : list pyval)
| VDict (d : list (pystr * pyval)).

(** A [dict] with string keys, in insertion order. *)
Definition pydict := list (pystr * pyval).

(** Truth value of an object, as [if x:], [x and ...], [x or ...] test it. *)
Definition truthy (v : pyval) : bool :=
  match v with
  | VNone => false
  | VBool b => b
  | VInt z => negb (z =? 0)%Z
  | VFloat (S754_zero _) => false
  | VFloat _ => true
  | VStr s => match s with [] => false | _ => true end
  | VList l => match l with [] => false | _ => true end
  | VDict d => match d with [] => false | _ => true end
  end.

(** [x is None] *)
Definition is_none (v : pyval) : bool :=
  match v with VNone => true | _ => false end.

(** Whether the object can be a dictionary key: lists and dicts cannot. *)
Definition hashable (v : pyval) : bool :=
  match v with VList _ | VDict _ => false | _ => true end.

(** The type's name, as error messages of the interpreter print it. *)
Definition type_name (v : pyval) : pystr :=
  match v with
  | VNone => py "NoneType"
  | VBool _ => py "bool"
  | VInt _ => py "int"
  | VFloat _ => py "float"
  | VStr _ => py "str"
  | VList _ => py "list"
  | VDict _ => py "dict"
  end.

(** *** Dictionaries *)

(** Lookup, membership and assignment on a mapping with string keys kept in
    insertion order; [V] is [pyval] for a [dict] of the program's data and
    the tool type for the registry. *)
Fixpoint dict_lookup (V : Type) (k : pystr) (d : list (pystr * V)) : option V :=
  match d with
  | [] => None
  | (k', v) :: rest => if str_eqb k k' then Some v else dict_lookup k rest
  end.

(** [k in d] *)
Definition dict_has (V : Type) (k : pystr) (d : list (pystr * V)) : bool :=
  match dict_lookup k d with Some _ => true | None => false end.

(** [d[k] = v]: an existing key keeps its position, a new one goes last. *)
Fixpoint dict_set (V : Type) (k : pystr) (v : V) (d : list (pystr * V)) : list (pystr * V) :=
  match d with
  | [] => [(k, v)]
  | (k', v') :: rest =>
      if str_eqb k k' then (k, v) :: rest else (k', v') :: dict_set k v rest
  end.

(** *** Exceptions and outcomes *)

Inductive exn_class :=
| ValueError | RuntimeError | KeyError | TypeError | AttributeError
| JSONDecodeError | NotImplementedError | Exception_.

(** A raised exception: its class and [str(e)]. Every class above derives
    from [Exception], so [except Exception] catches each of them. *)
Record exn := mkExn { exn_cls : exn_class; exn_str : pystr }.

Inductive result (A : Type) : Type :=
| Ok (a : A)
| Raise (e : exn).
Arguments Ok {A} a.
Arguments Raise {A} e.

(** An effectful computation: the calls it made to the outside, in order,
    and how it ended. *)
Definition M (E A : Type) : Type := list E * result A.

Definition ret {E A} (a : A) : M E A := ([], Ok a).
Definition raise {E A} (c : exn_class) (msg : pystr) : M E A := ([], Raise (mkExn c msg)).
Definition lift {E A} (r : result A) : M E A := ([], r).
Definition emit {E} (e : E) : M E unit := ([e], Ok tt).

Definition bind {E A B} (m : M E A) (f : A -> M E B) : M E B :=
  match m with
  | (t, Ok a) => let (t', r) := f a in (t ++ t', r)
  | (t, Raise e) => (t, Raise e)
  end.

(** [try: m  except Exception as e: h e] *)
Definition try_except {E A} (m : M E A) (h : exn -> M E A) : M E A :=
  match m with
  | (t, Ok a) => (t, Ok a)
  | (t, Raise e) => let (t', r) := h e in (t ++ t', r)
  end.

Definition trace {E A} (m : M E A) : list E := fst m.
Definition outcome {E A} (m : M E A) : result A := snd m.

(** *** Attribute and item access on arbitrary objects *)

Definition no_attribute (v : pyval) (attr : string) : exn :=
  mkExn AttributeError
    (py "'" ++ type_name v ++ py "' object has no attribute '" ++ py attr ++ py "'").

(** [str(KeyError(k))] is the key's [repr]; the keys looked up here are
    plain literals, whose [repr] is the text between single quotes. *)
Definition key_error (k : pystr) : exn :=
  mkExn KeyError (py "'" ++ k ++ py "'").

(** [obj.get(k, default)] *)
Definition py_get (obj : pyval) (k : pystr) (default : pyval) : result pyval :=
  match obj with
  | VDict d => Ok (match dict_lookup k d with Some v => v | None => default end)
  | _ => Raise (no_attribute obj "get")
  end.

(** [obj[k]] for a string [k] *)
Definition py_subscript (obj : pyval) (k : pystr) : result pyval :=
  match obj with
  | VDict d => match dict_lookup k d with
               | Some v => Ok v
               | None => Raise (key_error k)
               end
  | VList _ => Raise (mkExn TypeError (py "list indices must be integers or slices, not str"))
  | VStr _ => Raise (mkExn TypeError (py "string indices must be integers, not 'str'"))
  | _ => Raise (mkExn TypeError (py "'" ++ type_name obj ++ py "' object is not subscriptable"))
  end.

(** [k in obj] for a string [k]: key membership on a dict, element
    membership on a list, substring test on a string. *)
Definition py_in (k : pystr) (obj : pyval) : result bool :=
  match obj with
  | VDict d => Ok (dict_has k d)
  | VList l => Ok (existsb (fun x => match x with VStr s => str_eqb k s | _ => false end) l)
  | VStr s => Ok (contains k s)
  | _ => Raise (mkExn TypeError
                  (py "argument of type '" ++ type_name obj ++ py "' is not iterable"))
  end.

Definition unhashable (v : pyval) : exn :=
  mkExn TypeError (py "unhashable type: '" ++ type_name v ++ py "'").

(** What the model takes from the interpreter and its libraries without
    looking inside. *)
Record runtime := {
  (** full uppercase mapping of a code point above 127 *)
  unicode_upper : N -> list N;
  (** [repr] of a float *)
  float_repr : spec_float -> pystr;
  (** [repr] of a list or a dict *)
  container_repr : pyval -> pystr;
  (** [json.loads] *)
  json_loads : pystr -> result pyval;
  (** [json.dumps(v, indent=2, default=str)] *)
  json_dumps : pyval -> result pystr
}.

Section WithRuntime.
Variable rt : runtime.

(** [s.upper()]: the uppercase mapping of each code point in turn. *)
Definition upper_cp (c : N) : list N :=
  if (c <? 128)%N
  then (if (97 <=? c)%N && (c <=? 122)%N then [(c - 32)%N] else [c])
  else unicode_upper rt c.

Definition upper (s : pystr) : pystr := flat_map upper_cp s.

(** [str(v)], which is what an f-string field [{v}] inserts. *)
Definition py_str (v : pyval) : pystr :=
  match v with
  | VNone => py "None"
  | VBool true => py "True"
  | VBool false => py "False"
  | VInt z => str_of_int z
  | VFloat f => float_repr rt f
  | VStr s => s
  | VList _ | VDict _ => container_repr rt v
  end.

End WithRuntime.

(** A runtime for evaluating the model on ASCII text and on requests that
    arrive already decoded: there none of the fields is consulted, except
    that the decoder rejects the texts it is given. *)
Definition ascii_runtime : runtime := {|
  unicode_upper := fun c => [c];
  float_repr := fun _ => py "nan";
  container_repr := fun _ => py "[...]";
  json_loads := fun _ =>
    Raise (mkExn JSONDecodeError (py "Expecting value: line 1 column 1 (char 0)"));
  json_dumps := fun _ => Ok (py "null")
|}.

End Py.

Import Py.

Declare Scope py_scope.
Delimit Scope py_scope with py.
Notation "x <- m ;; k" := (bind m (fun x => k))
  (at level 61, m at next level, right associativity) : py_scope.
Notation "m ;;; k" := (bind m (fun _ => k))
  (at level 61, right associativity) : py_scope.
Open Scope py_scope.

(** ** The free-form query tool ([tools/neo4j_query_tool.py]) *)

Module QueryTool.

(** The only call that leaves the tool: [session.run(query)]. *)
Inductive event := Ran (query : pystr).

(** [self.driver]: absent when the connection could not be made; otherwise
    what running a query text yields, the records' [data()] or the driver's
    exception. *)
Definition driver := option (pystr -> result (list pyval)).

(** *** The comment pattern ['//.*?\n|/\*.*?\*/'] with [re.DOTALL] *)

(** Where the first occurrence of [p] in [s] ends, counted from the start
    of [s]: how far a lazy [.*?] followed by the literal [p] reaches. *)
Fixpoint end_of_first (p s : pystr) : option nat :=
  if startswith p s then Some (List.length p)
  else match s with
       | [] => None
       | _ :: s' => option_map S (end_of_first p s')
       end.

(** Length of the match of the pattern at the start of [s], if it matches
    there: the first alternative is tried first, the second one only when
    the first fails. *)
Definition match_comment (s : pystr) : option nat :=
  match s with
  | 47%N :: 47%N :: rest =>
      match end_of_first [10%N] rest with
      | Some n => Some (2 + n)
      | None => None
      end
  | 47%N :: 42%N :: rest =>
      match end_of_first [42%N; 47%N] rest with
      | Some n => Some (2 + n)
      | None => None
      end
  | _ => None
  end.

(** [re.sub(pattern, '', s)]: scan left to right; a match is dropped and the
    scan resumes after it, a character where nothing matches is kept.
    [skip] counts the characters of the current match still to drop. *)
Fixpoint sub_comments_from (skip : nat) (s : pystr) : pystr :=
  match s with
  | [] => []
  | c :: t =>
      match skip with
      | S k => sub_comments_from k t
      | O => match match_comment s with
             | Some n => sub_comments_from (pred n) t
             | None => c :: sub_comments_from 0 t
             end
      end
  end.

Definition sub_comments (s : pystr) : pystr := sub_comments_from 0 s.

Definition dangerous_keywords : list pystr :=
  map py ["CREATE"; "DELETE"; "DETACH DELETE"; "REMOVE"; "SET"; "MERGE";
          "DROP"; "ALTER"; "CALL"; "LOAD CSV"; "IMPORT"; "EXPORT";
          "ADMIN"; "DBMS"; "TERMINATE"; "KILL"]%string.

Definition allowed_starts : list pystr :=
  map py ["MATCH"; "RETURN"; "SHOW"; "EXPLAIN"; "PROFILE"; "WITH"; "UNWIND";
          "OPTIONAL MATCH"]%string.

Definition dangerous_message (keyword : pystr) : pystr :=
  py "Query contains dangerous keyword: " ++ keyword
     ++ py ". Only read-only queries are allowed.".

Definition start_message : pystr :=
  py "Query must start with a read-only operation (MATCH, RETURN, SHOW, etc.)".

(** [for keyword in keywords: if keyword in clean_query: raise ValueError] *)
Fixpoint check_keywords (keywords : list pystr) (clean_query : pystr) : result unit :=
  match keywords with
  | [] => Ok tt
  | keyword :: more =>
      if contains keyword clean_query
      then Raise (mkExn ValueError (dangerous_message keyword))
      else check_keywords more clean_query
  end.

Section Tool.
Variable rt : runtime.
Variable self_driver : driver.

(** The text both checks of the gate look at. *)
Definition normalize (query : pystr) : pystr :=
  let clean_query := sub_comments query in
  upper rt (join (py " ") (split clean_query)).

Definition _validate_query (query : pystr) : result unit :=
  let clean_query := normalize query in
  match check_keywords dangerous_keywords clean_query with
  | Raise e => Raise e
  | Ok _ =>
      if negb (existsb (fun start => startswith start clean_query) allowed_starts)
      then Raise (mkExn ValueError start_message)
      else Ok tt
  end.

Definition not_connected_message : pystr :=
  py "Not connected to Neo4j database. Check if Neo4j is running and credentials are correct.".

(** The query text handed to the driver for [query] and [limit]. *)
Definition apply_limit (query : pystr) (limit : pyval) : pystr :=
  if truthy limit && negb (contains (py "LIMIT") (upper rt query))
  then rstrip_by (N.eqb 59) query ++ py " LIMIT " ++ py_str rt limit
  else query.

Definition _execute_query (query : pystr) (limit : pyval) : M event (list pyval) :=
  match self_driver with
  | None => raise RuntimeError not_connected_message
  | Some run =>
      let query := apply_limit query limit in
      emit (Ran query) ;;;
      match run query with
      | Ok records => ret records
      | Raise e => raise RuntimeError (py "Query execution failed: " ++ exn_str e)
      end
  end.

(** [isinstance(v, int)]: [bool] is a subclass of [int]. *)
Definition isinstance_int (v : pyval) : bool :=
  match v with VInt _ | VBool _ => true | _ => false end.

(** The number an [int] instance compares as. *)
Definition int_value (v : pyval) : Z :=
  match v with
  | VInt z => z
  | VBool true => 1
  | _ => 0
  end.

(** The test of the line "Validate limit". *)
Definition limit_rejected (limit : pyval) : bool :=
  truthy limit &&
  (negb (isinstance_int limit) || (int_value limit <=? 0)%Z || (1000 <? int_value limit)%Z).

Definition limit_message : pystr :=
  py "limit must be a positive integer between 1 and 1000".

Definition guidance : pyval :=
  VDict [(py "use_case", VStr (py "Explore PostgreSQL schema to generate SQL queries"));
         (py "entity_types", VStr (py "Table, Column, Constraint, Index"));
         (py "relationships",
          VStr (py "HAS_COLUMN, REFERENCES (FK), HAS_CONSTRAINT, HAS_INDEX, INDEXES"));
         (py "sql_generation_tip",
          VStr (py "Use table_name and column info to build SELECT, JOIN, WHERE clauses"))].

(** [s.strip()] on an arbitrary object. *)
Definition py_strip (v : pyval) : result pystr :=
  match v with
  | VStr s => Ok (strip s)
  | _ => Raise (no_attribute v "strip")
  end.

Definition execute (params : pyval) : M event pyval :=
  cypher_query <- lift (match py_get params (py "cypher_query") (VStr []) with
                        | Ok v => py_strip v
                        | Raise e => Raise e
                        end) ;;
  limit <- lift (py_get params (py "limit") (VInt 100)) ;;
  include_query_plan <- lift (py_get params (py "include_query_plan") (VBool false)) ;;
  if negb (truthy (VStr cypher_query))
  then raise ValueError (py "cypher_query parameter is required")
  else if limit_rejected limit
  then raise ValueError limit_message
  else
    try_except
      (lift (_validate_query cypher_query) ;;;
       results <- _execute_query cypher_query limit ;;
       let response : pydict :=
         [(py "database_type", VStr (py "PostgreSQL"));
          (py "storage_type", VStr (py "Neo4j"));
          (py "purpose", VStr (py "PostgreSQL schema exploration for SQL generation"));
          (py "query", VStr cypher_query);
          (py "result_count", VInt (Z.of_nat (List.length results)));
          (py "results", VList results);
          (py "guidance", guidance)] in
       response <-
         (if truthy include_query_plan
          then try_except
                 (let plan_query := py "EXPLAIN " ++ cypher_query in
                  plan_results <- _execute_query plan_query VNone ;;
                  ret (dict_set (py "query_plan") (VList plan_results) response))
                 (fun e => ret (dict_set (py "query_plan_error") (VStr (exn_str e)) response))
          else ret response) ;;
       ret (VDict response))
      (fun e => raise ValueError (py "Query execution failed: " ++ exn_str e)).

End Tool.

End QueryTool.

(** ** The schema exploration tool ([tools/neo4j_schema_tool.py]) *)

Module SchemaTool.
Import QueryTool.

(** A triple-quoted literal, given line by line. *)
Definition text (lines : list string) : pystr := join [10%N] (map py lines).

(** [len(v)] *)
Definition py_len (v : pyval) : result Z :=
  match v with
  | VStr s => Ok (Z.of_nat (List.length s))
  | VList l => Ok (Z.of_nat (List.length l))
  | VDict d => Ok (Z.of_nat (List.length d))
  | _ => Raise (mkExn TypeError
                  (py "object of type '" ++ type_name v ++ py "' has no len()"))
  end.

(** [v == s] for a string literal [s]: only an equal string compares equal. *)
Definition py_eq_str (v : pyval) (s : pystr) : bool :=
  match v with VStr x => str_eqb x s | _ => false end.

(** [key.split('_')[0]]: the part of [key] before its first underscore. *)
Fixpoint before_underscore (key : pystr) : pystr :=
  match key with
  | [] => []
  | c :: t => if (c =? 95)%N then [] else c :: before_underscore t
  end.

(** [result[0][field] if result else default] *)
Definition first_record_field (rows : list pyval) (field : pystr) (default : pyval)
  : result pyval :=
  match rows with
  | [] => Ok default
  | record :: _ => py_subscript record field
  end.

(** [[r['property'] for r in results]] *)
Fixpoint property_column (results : list pyval) : result (list pyval) :=
  match results with
  | [] => Ok []
  | r :: more =>
      match py_subscript r (py "property") with
      | Raise e => Raise e
      | Ok v => match property_column more with
                | Raise e => Raise e
                | Ok vs => Ok (v :: vs)
                end
      end
  end.

(** The queries of [_get_database_overview], in the order of the dict. *)
Definition overview_queries : list (pystr * pystr) :=
  [(py "node_count", py "MATCH (n) RETURN count(n) as count");
   (py "relationship_count", py "MATCH ()-[r]->() RETURN count(r) as count");
   (py "labels", py "CALL db.labels() YIELD label RETURN collect(label) as labels");
   (py "relationship_types",
    py "CALL db.relationshipTypes() YIELD relationshipType RETURN collect(relationshipType) as types")].

(** The three queries of [_get_node_labels]. *)
Definition labels_apoc_query : pystr :=
  text ["";
        "        CALL db.labels() YIELD label";
        "        CALL {";
        "            WITH label";
        "            CALL apoc.cypher.run('MATCH (n:' + label + ') RETURN count(n) as count', {}) ";
        "            YIELD value";
        "            RETURN value.count as count";
        "        }";
        "        RETURN label, count";
        "        ORDER BY count DESC";
        "        "]%string.

Definition labels_fallback_query : pystr :=
  text ["";
        "        CALL db.labels() YIELD label";
        "        CALL {";
        "            WITH label";
        "            MATCH (n) WHERE label IN labels(n)";
        "            RETURN count(n) as count";
        "        }";
        "        RETURN label, count";
        "        ORDER BY count DESC";
        "        "]%string.

Definition labels_simple_query : pystr :=
  text ["";
        "        CALL db.labels() YIELD label";
        "        RETURN label, 0 as count";
        "        ORDER BY label";
        "        "]%string.

(** The three queries of [_get_relationship_types]. *)
Definition types_apoc_query : pystr :=
  text ["";
        "        CALL db.relationshipTypes() YIELD relationshipType";
        "        CALL {";
        "            WITH relationshipType";
        "            CALL apoc.cypher.run('MATCH ()-[r:' + relationshipType + ']->() RETURN count(r) as count', {}) ";
        "            YIELD value";
        "            RETURN value.count as count";
        "        }";
        "        RETURN relationshipType, count";
        "        ORDER BY count DESC";
        "        "]%string.

Definition types_fallback_query : pystr :=
  text ["";
        "        CALL db.relationshipTypes() YIELD relationshipType";
        "        CALL {";
        "            WITH relationshipType";
        "            MATCH ()-[r]->() WHERE type(r) = relationshipType";
        "            RETURN count(r) as count";
        "        }";
        "        RETURN relationshipType, count";
        "        ORDER BY count DESC";
        "        "]%string.

Definition types_simple_query : pystr :=
  text ["";
        "        CALL db.relationshipTypes() YIELD relationshipType";
        "        RETURN relationshipType, 0 as count";
        "        ORDER BY relationshipType";
        "        "]%string.

(** The three queries of [_get_node_properties] without a label. *)
Definition properties_apoc_query : pystr :=
  text ["";
        "            CALL db.labels() YIELD label";
        "            CALL {";
        "                WITH label";
        "                CALL apoc.cypher.run('MATCH (n:' + label + ') WITH keys(n) as props UNWIND props as prop RETURN DISTINCT prop LIMIT 50', {}) ";
        "                YIELD value";
        "                RETURN value.prop as property";
        "            }";
        "            RETURN label, collect(property) as properties";
        "            ORDER BY label";
        "            "]%string.

Definition properties_fallback_query : pystr :=
  text ["";
        "            CALL db.labels() YIELD label";
        "            CALL {";
        "                WITH label";
        "                MATCH (n) WHERE label IN labels(n)";
        "                WITH DISTINCT keys(n) as props";
        "                UNWIND props as prop_list";
        "                UNWIND prop_list as prop";
        "                RETURN DISTINCT prop";
        "                LIMIT 50";
        "            }";
        "            RETURN label, collect(prop) as properties";
        "            ORDER BY label";
        "            "]%string.

Definition properties_simple_query : pystr :=
  text ["";
        "            CALL db.labels() YIELD label";
        "            RETURN label, [] as properties";
        "            ORDER BY label";
        "            "]%string.

Section Tool.
Variable rt : runtime.
(** [s.lower()] of a string with a code point above 127. *)
Variable unicode_lower : pystr -> pystr.
Variable self_driver : driver.

(** [s.lower()]: an ASCII string is lowered letter by letter. *)
Definition lower (s : pystr) : pystr :=
  if forallb (fun c => c <? 128)%N s
  then map (fun c => if (65 <=? c)%N && (c <=? 90)%N then (c + 32)%N else c) s
  else unicode_lower s.

(** [v.lower()] on an arbitrary object. *)
Definition py_lower (v : pyval) : result pystr :=
  match v with
  | VStr s => Ok (lower s)
  | _ => Raise (no_attribute v "lower")
  end.

Definition _execute_query (query : pystr) : M event (list pyval) :=
  match self_driver with
  | None => raise RuntimeError not_connected_message
  | Some run =>
      emit (Ran query) ;;;
      match run query with
      | Ok records => ret records
      | Raise e => raise RuntimeError (py "Query execution failed: " ++ exn_str e)
      end
  end.

(** The nested [try] of the three listings: the first query, on failure the
    second, on failure of that one the third. *)
Definition with_fallbacks (first second third : pystr) : M event (list pyval) :=
  try_except (_execute_query first)
    (fun e => try_except (_execute_query second)
                (fun e2 => _execute_query third)).

(** One turn of the loop of [_get_database_overview]. *)
Definition overview_step (results : pydict) (key query : pystr) : M event pydict :=
  try_except
    (result <- _execute_query query ;;
     if existsb (str_eqb key) [py "node_count"; py "relationship_count"]
     then v <- lift (first_record_field result (py "count") (VInt 0)) ;;
          ret (dict_set key v results)
     else v <- lift (first_record_field result (before_underscore key) (VList [])) ;;
          ret (dict_set key v results))
    (fun e => ret (dict_set key VNone results)).

Fixpoint overview_loop (queries : list (pystr * pystr)) (results : pydict)
  : M event pydict :=
  match queries with
  | [] => ret results
  | (key, query) :: more =>
      results <- overview_step results key query ;;
      overview_loop more results
  end.

(** [len(v) if v else 0] *)
Definition len_or_zero (v : pyval) : result pyval :=
  if truthy v
  then match py_len v with Ok n => Ok (VInt n) | Raise e => Raise e end
  else Ok (VInt 0).

Definition _get_database_overview : M event pyval :=
  results <- overview_loop overview_queries [] ;;
  node_count <- lift (py_subscript (VDict results) (py "node_count")) ;;
  relationship_count <- lift (py_subscript (VDict results) (py "relationship_count")) ;;
  labels <- lift (py_subscript (VDict results) (py "labels")) ;;
  relationship_types <- lift (py_subscript (VDict results) (py "relationship_types")) ;;
  entity_type_count <- lift (len_or_zero labels) ;;
  relationship_type_count <- lift (len_or_zero relationship_types) ;;
  ret (VDict
         [(py "database_type", VStr (py "PostgreSQL"));
          (py "storage_type", VStr (py "Neo4j"));
          (py "source_database", VStr (py "Pagila PostgreSQL Database"));
          (py "schema_type", VStr (py "overview"));
          (py "purpose", VStr (py "PostgreSQL SQL query generation"));
          (py "overview",
           VDict [(py "total_postgresql_entities", node_count);
                  (py "total_relationships", relationship_count);
                  (py "postgresql_entity_types", labels);
                  (py "relationship_types", relationship_types);
                  (py "entity_type_count", entity_type_count);
                  (py "relationship_type_count", relationship_type_count)])]).

Definition _get_node_labels : M event pyval :=
  results <- with_fallbacks labels_apoc_query labels_fallback_query labels_simple_query ;;
  ret (VDict
         [(py "database_type", VStr (py "PostgreSQL"));
          (py "storage_type", VStr (py "Neo4j"));
          (py "schema_type", VStr (py "nodes"));
          (py "purpose", VStr (py "Identify PostgreSQL entities for SQL generation"));
          (py "postgresql_entities", VList results)]).

Definition _get_relationship_types : M event pyval :=
  results <- with_fallbacks types_apoc_query types_fallback_query types_simple_query ;;
  ret (VDict
         [(py "database_type", VStr (py "PostgreSQL"));
          (py "storage_type", VStr (py "Neo4j"));
          (py "schema_type", VStr (py "relationships"));
          (py "purpose", VStr (py "Understand PostgreSQL relationships for JOIN operations"));
          (py "postgresql_relationships", VList results)]).

(** The query of [_get_node_properties] for a given label. *)
Definition label_properties_query (node_label : pyval) : pystr :=
  text ["";
        "            MATCH (n:"]%string
  ++ py_str rt node_label
  ++ text [")";
           "            WITH keys(n) as props";
           "            UNWIND props as prop";
           "            RETURN DISTINCT prop as property";
           "            ORDER BY prop";
           "            LIMIT 100";
           "            "]%string.

Definition _get_node_properties (node_label : pyval) : M event pyval :=
  if truthy node_label
  then
    results <- _execute_query (label_properties_query node_label) ;;
    properties <- lift (property_column results) ;;
    lowered <- lift (py_lower node_label) ;;
    ret (VDict
           [(py "database_type", VStr (py "PostgreSQL"));
            (py "storage_type", VStr (py "Neo4j"));
            (py "schema_type", VStr (py "properties"));
            (py "purpose",
             VStr (py "PostgreSQL " ++ lowered ++ py " properties for SQL generation"));
            (py "postgresql_entity_type", node_label);
            (py "properties", VList properties)])
  else
    results <- with_fallbacks properties_apoc_query properties_fallback_query
                 properties_simple_query ;;
    ret (VDict
           [(py "database_type", VStr (py "PostgreSQL"));
            (py "storage_type", VStr (py "Neo4j"));
            (py "schema_type", VStr (py "properties"));
            (py "purpose", VStr (py "PostgreSQL entity properties for SQL generation"));
            (py "postgresql_entity_properties", VList results)]).

(** The two queries of [_get_sample_data] for a given limit. *)
Definition sample_queries (limit : pyval) : list (pystr * pystr) :=
  [(py "sample_nodes",
    py "MATCH (n) RETURN labels(n) as labels, keys(n) as properties LIMIT "
       ++ py_str rt limit);
   (py "sample_relationships",
    py "MATCH (a)-[r]->(b) RETURN labels(a) as from_labels, type(r) as relationship_type, labels(b) as to_labels LIMIT "
       ++ py_str rt limit)].

Fixpoint sample_loop (queries : list (pystr * pystr)) (results : pydict)
  : M event pydict :=
  match queries with
  | [] => ret results
  | (key, query) :: more =>
      results <- try_except
                   (rows <- _execute_query query ;;
                    ret (dict_set key (VList rows) results))
                   (fun e => ret (dict_set key (VList []) results)) ;;
      sample_loop more results
  end.

Definition _get_sample_data (limit : pyval) : M event pyval :=
  results <- sample_loop (sample_queries limit) [] ;;
  sample_nodes <- lift (py_subscript (VDict results) (py "sample_nodes")) ;;
  sample_relationships <- lift (py_subscript (VDict results) (py "sample_relationships")) ;;
  ret (VDict
         [(py "database_type", VStr (py "PostgreSQL"));
          (py "storage_type", VStr (py "Neo4j"));
          (py "schema_type", VStr (py "sample_data"));
          (py "purpose",
           VStr (py "Sample PostgreSQL schema elements for understanding structure"));
          (py "sample_postgresql_entities", sample_nodes);
          (py "sample_postgresql_relationships", sample_relationships)]).

Definition execute (params : pyval) : M event pyval :=
  schema_type <- lift (py_get params (py "schema_type") VNone) ;;
  node_label <- lift (py_get params (py "node_label") VNone) ;;
  limit <- lift (py_get params (py "limit") (VInt 100)) ;;
  if negb (truthy schema_type)
  then raise ValueError (py "schema_type parameter is required")
  else
    try_except
      (if py_eq_str schema_type (py "overview") then _get_database_overview
       else if py_eq_str schema_type (py "nodes") then _get_node_labels
       else if py_eq_str schema_type (py "relationships") then _get_relationship_types
       else if py_eq_str schema_type (py "properties") then _get_node_properties node_label
       else if py_eq_str schema_type (py "sample_data") then _get_sample_data limit
       else raise ValueError (py "Unknown schema_type: " ++ py_str rt schema_type))
      (fun e => raise ValueError (py "Schema exploration failed: " ++ exn_str e)).

End Tool.

End SchemaTool.

(** ** The protocol engine, the registry and the dispatcher ([mcp_server.py]) *)

Module Server.

(** *** Request and response envelopes *)

Record JSONRPCRequest := {
  jsonrpc : pyval;
  method : pyval;
  params : pyval;
  id : pyval
}.

Definition from_dict (data : pyval) : result JSONRPCRequest :=
  match py_get data (py "jsonrpc") (VStr (py "2.0")) with
  | Raise e => Raise e
  | Ok jsonrpc =>
  match py_subscript data (py "method") with
  | Raise e => Raise e
  | Ok method =>
  match py_get data (py "params") VNone with
  | Raise e => Raise e
  | Ok params =>
  match py_get data (py "id") VNone with
  | Raise e => Raise e
  | Ok id => Ok {| jsonrpc := jsonrpc; method := method; params := params; id := id |}
  end end end end.

Definition is_notification (request : JSONRPCRequest) : bool := is_none (id request).

(** The response object; the defaults of the dataclass are [response_of]. *)
Record JSONRPCResponse := {
  r_jsonrpc : pyval;
  r_result : pyval;
  r_error : pyval;
  r_id : pyval
}.

Definition response_of (result error id : pyval) : JSONRPCResponse :=
  {| r_jsonrpc := VStr (py "2.0"); r_result := result; r_error := error; r_id := id |}.

Definition to_dict (self : JSONRPCResponse) : pydict :=
  let response := [(py "jsonrpc", r_jsonrpc self)] in
  let response :=
    if truthy (r_error self)
    then dict_set (py "error") (r_error self) response
    else dict_set (py "result") (r_result self) response in
  let response :=
    if negb (is_none (r_id self))
    then dict_set (py "id") (r_id self) response
    else response in
  response.

(** [resp["error"]["code"]] of a serialized response, when it is there. *)
Definition error_code (resp : pydict) : option pyval :=
  match dict_lookup (py "error") resp with
  | Some (VDict error) => dict_lookup (py "code") error
  | _ => None
  end.

(** *** Tools *)

(** One entry of a tool's [parameters]: the dict literal handed to the base
    constructor, with the three keys [get_schema] reads by subscript and the
    two it reads with [get]. *)
Record param_def := {
  p_name : pystr;
  p_type : pyval;
  p_description : pyval;
  p_enum : option pyval;
  p_required : option pyval
}.

(** A tool behind the capability interface: its descriptor and what a call
    of [execute] on given arguments yields. *)
Record MCPTool := {
  name : pystr;
  description : pystr;
  parameters : list param_def;
  execute : pyval -> result pyval
}.

(** [param.get(key)] and [param.get(key, False)] read for their truth. *)
Definition get_truthy (field : option pyval) : bool :=
  match field with Some v => truthy v | None => false end.

(** One turn of the loop of [get_schema] on the two accumulators. *)
Definition schema_step (acc : pydict * list pyval) (param : param_def)
  : pydict * list pyval :=
  let (properties, required) := acc in
  let param_name := p_name param in
  let entry := [(py "type", p_type param); (py "description", p_description param)] in
  let entry :=
    match p_enum param with
    | Some e => if truthy e then dict_set (py "enum") e entry else entry
    | None => entry
    end in
  let properties := dict_set param_name (VDict entry) properties in
  let required :=
    if get_truthy (p_required param)
    then required ++ [VStr param_name]
    else required in
  (properties, required).

Definition get_schema (self : MCPTool) : pyval :=
  let (properties, required) := fold_left schema_step (parameters self) ([], []) in
  VDict [(py "name", VStr (name self));
         (py "description", VStr (description self));
         (py "inputSchema",
          VDict [(py "type", VStr (py "object"));
                 (py "properties", VDict properties);
                 (py "required", VList required)])].

(** *** The server *)

(** [self.tools] *)
Definition registry := list (pystr * MCPTool).

(** The call that leaves the dispatcher: [tool.execute(tool_params)]. *)
Inductive event := Executed (tool_name : pyval) (arguments : pyval).

Definition server_info : pydict :=
  [(py "name", VStr (py "Neo4j Schema MCP Server"));
   (py "version", VStr (py "1.0.0"));
   (py "description",
    VStr (py "Neo4j database schema exposure for Cypher/text-to-SQL generation"))].

Definition register_tool (tool : MCPTool) (tools : registry) : registry :=
  dict_set (name tool) tool tools.

Definition list_tools (tools : registry) : list pyval :=
  map (fun entry => get_schema (snd entry)) tools.

Definition get_server_info (tools : registry) : pydict :=
  dict_set (py "capabilities")
    (VDict [(py "tools", VBool true); (py "resources", VBool false);
            (py "prompts", VBool false)])
    (dict_set (py "tools_count") (VInt (Z.of_nat (List.length tools))) server_info).

(** [key in d] and [d[key]] for a mapping with string keys and an arbitrary
    object as the key: hashing comes first, and no other object equals a
    string. *)
Definition key_in (V : Type) (key : pyval) (d : list (pystr * V)) : result bool :=
  match key with
  | VStr s => Ok (dict_has s d)
  | VList _ | VDict _ => Raise (unhashable key)
  | _ => Ok false
  end.

Section Engine.
Variable rt : runtime.
Variable self_tools : registry.

Definition key_get (V : Type) (key : pyval) (d : list (pystr * V)) : result V :=
  match key with
  | VStr s => match dict_lookup s d with
              | Some v => Ok v
              | None => Raise (key_error s)
              end
  | VList _ | VDict _ => Raise (unhashable key)
  | _ => Raise (mkExn KeyError (py_str rt key))
  end.

Definition _create_error_response (code : Z) (message : pystr) (data : pyval) : pydict :=
  let error := [(py "code", VInt code); (py "message", VStr message)] in
  let error := if truthy data then dict_set (py "data") data error else error in
  to_dict (response_of VNone (VDict error) VNone).

Definition _handle_initialize (params : pyval) : M event pyval :=
  version <- lift (py_get params (py "protocolVersion") (VStr (py "2024-11-05"))) ;;
  ret (VDict [(py "protocolVersion", version);
              (py "capabilities", VDict [(py "tools", VDict [])]);
              (py "serverInfo", VDict server_info)]).

Definition _handle_list_tools (params : pyval) : M event pyval :=
  ret (VDict [(py "tools", VList (list_tools self_tools))]).

Definition _handle_call_tool (params : pyval) : M event pyval :=
  has_name <- lift (py_in (py "name") params) ;;
  if negb has_name
  then raise ValueError (py "Missing required parameter: name")
  else
    tool_name <- lift (py_subscript params (py "name")) ;;
    tool_params <- lift (py_get params (py "arguments") (VDict [])) ;;
    registered <- lift (key_in tool_name self_tools) ;;
    if negb registered
    then raise ValueError (py "Tool not found: " ++ py_str rt tool_name)
    else
      try_except
        (tool <- lift (key_get tool_name self_tools) ;;
         emit (Executed tool_name tool_params) ;;;
         result <- lift (execute tool tool_params) ;;
         text <- lift (json_dumps rt result) ;;
         ret (VDict [(py "content",
                      VList [VDict [(py "type", VStr (py "text"));
                                    (py "text", VStr text)]])]))
        (fun e => raise Exception_ (py "Tool execution failed: " ++ exn_str e)).

Definition _handle_server_info (params : pyval) : M event pyval :=
  ret (VDict (get_server_info self_tools)).

Definition method_handlers : list (pystr * (pyval -> M event pyval)) :=
  [(py "initialize", _handle_initialize);
   (py "tools/list", _handle_list_tools);
   (py "tools/call", _handle_call_tool);
   (py "server/info", _handle_server_info)].

Definition _dispatch_method (request : JSONRPCRequest) : M event JSONRPCResponse :=
  known <- lift (key_in (method request) method_handlers) ;;
  if negb known
  then ret (response_of VNone
              (VDict [(py "code", VInt (-32601));
                      (py "message",
                       VStr (py "Method not found: " ++ py_str rt (method request)))])
              (id request))
  else
    try_except
      (handler <- lift (key_get (method request) method_handlers) ;;
       result <- handler (if truthy (params request) then params request else VDict []) ;;
       ret (response_of result VNone (id request)))
      (fun e =>
         ret (response_of VNone
                (VDict [(py "code", VInt (-32603));
                        (py "message",
                         VStr (py "Error executing " ++ py_str rt (method request)));
                        (py "data", VStr (exn_str e))])
                (id request))).

(** The step "Parse request": text is decoded, anything else is taken as
    it comes. *)
Definition load_request (request_data : pyval) : result pyval :=
  match request_data with
  | VStr text => json_loads rt text
  | _ => Ok request_data
  end.

(** [handle_request]: [None] is the absent response of a notification. *)
Definition handle_request (request_data : pyval) : M event (option pydict) :=
  try_except
    (match load_request request_data with
     | Raise e =>
         match exn_cls e with
         | JSONDecodeError =>
             ret (Some (_create_error_response (-32700) (py "Parse error") (VStr (exn_str e))))
         | _ => lift (Raise e)
         end
     | Ok request_dict =>
         match from_dict request_dict with
         | Raise e =>
             match exn_cls e with
             | KeyError =>
                 ret (Some (_create_error_response (-32600) (py "Invalid Request")
                              (VStr (py "Missing field: " ++ exn_str e))))
             | _ => lift (Raise e)
             end
         | Ok request =>
             response <- _dispatch_method request ;;
             if is_notification request
             then ret None
             else ret (Some (to_dict response))
         end
     end)
    (fun e =>
       ret (Some (_create_error_response (-32603) (py "Internal error") (VStr (exn_str e))))).

End Engine.

End Server.

(** ** The query tool as a registered tool ([app.py]) *)

Module App.
Import Server.

(** What [Neo4jQueryTool.__init__] passes to the base constructor, with the
    tool's [execute] behind the capability interface. Character 34 is the
    double quote of the example in the first description. *)
Definition neo4j_query_tool (rt : runtime) (self_driver : QueryTool.driver) : MCPTool := {|
  name := py "neo4j_query";
  description :=
    py "Execute raw Cypher queries to explore PostgreSQL schema (stored in Neo4j) for PostgreSQL SQL generation. Query PostgreSQL tables, columns, constraints, and relationships to understand database structure and generate accurate SQL queries. READ-ONLY queries only.";
  parameters :=
    [ {| p_name := py "cypher_query";
         p_type := VStr (py "string");
         p_description :=
           VStr (py "Cypher query to explore PostgreSQL schema. Use to find tables, columns, relationships, constraints. Examples: MATCH (t:Table) RETURN t.table_name; MATCH (t:Table)-[:HAS_COLUMN]->(c:Column) WHERE t.table_name = "
                 ++ [34%N] ++ py "customer" ++ [34%N]
                 ++ py " RETURN c.column_name, c.data_type");
         p_enum := None;
         p_required := Some (VBool true) |};
      {| p_name := py "limit";
         p_type := VStr (py "integer");
         p_description :=
           VStr (py "Maximum number of results to return (default: 100, max: 1000)");
         p_enum := None;
         p_required := Some (VBool false) |};
      {| p_name := py "include_query_plan";
         p_type := VStr (py "boolean");
         p_description :=
           VStr (py "Include query execution plan for optimization (default: false)");
         p_enum := None;
         p_required := Some (VBool false) |} ];
  execute := fun params => outcome (QueryTool.execute rt self_driver params)
|}.

(** What [Neo4jSchemaTool.__init__] passes to the base constructor, with the
    tool's [execute] behind the capability interface. *)
Definition neo4j_schema_tool (rt : runtime) (unicode_lower : pystr -> pystr)
           (self_driver : QueryTool.driver) : MCPTool := {|
  name := py "neo4j_schema";
  description :=
    py "Get comprehensive PostgreSQL database schema information (stored in Neo4j) for PostgreSQL SQL query generation. This tool exposes PostgreSQL tables, columns, constraints, and relationships from the Pagila database to help generate accurate PostgreSQL SQL queries.";
  parameters :=
    [ {| p_name := py "schema_type";
         p_type := VStr (py "string");
         p_description :=
           VStr (py "Type of PostgreSQL schema information to retrieve for SQL generation");
         p_enum := Some (VList [VStr (py "overview"); VStr (py "nodes");
                                VStr (py "relationships"); VStr (py "properties");
                                VStr (py "sample_data")]);
         p_required := Some (VBool true) |};
      {| p_name := py "node_label";
         p_type := VStr (py "string");
         p_description :=
           VStr (py "Specific PostgreSQL entity type to analyze: Table, Column, Constraint, or Index");
         p_enum := None;
         p_required := Some (VBool false) |};
      {| p_name := py "limit";
         p_type := VStr (py "integer");
         p_description :=
           VStr (py "Maximum number of results for sample PostgreSQL schema data");
         p_enum := None;
         p_required := Some (VBool false) |} ];
  execute := fun params =>
               outcome (SchemaTool.execute rt unicode_lower self_driver params)
|}.

(** [initialize_tools] on the fresh server: the schema tool, then the query
    tool, each with the connection its constructor made. *)
Definition initialize_tools (rt : runtime) (unicode_lower : pystr -> pystr)
           (schema_driver query_driver : QueryTool.driver) : registry :=
  register_tool (neo4j_query_tool rt query_driver)
    (register_tool (neo4j_schema_tool rt unicode_lower schema_driver) []).

(** What a route returns: the body handed to [jsonify] ([None] for the
    empty body) and the status code. *)
Definition http_response : Type := option pydict * Z.

(** The route [POST /mcp]. Of the HTTP request the route reads
    [request.is_json] and [request.get_json()], which yields the decoded
    body or raises. *)
Definition mcp_endpoint (rt : runtime) (tools : registry)
           (is_json : bool) (get_json : result pyval) : M event http_response :=
  try_except
    (if negb is_json
     then ret (Some [(py "jsonrpc", VStr (py "2.0"));
                     (py "error",
                      VDict [(py "code", VInt (-32700));
                             (py "message", VStr (py "Parse error"));
                             (py "data",
                              VStr (py "Content-Type must be application/json"))])],
               400%Z)
     else
       request_data <- lift get_json ;;
       lift (py_get request_data (py "method") (VStr (py "unknown"))) ;;;
       response <- handle_request rt tools request_data ;;
       match response with
       | None => ret (None, 204%Z)
       | Some body => ret (Some body, 200%Z)
       end)
    (fun e =>
       ret (Some [(py "jsonrpc", VStr (py "2.0"));
                  (py "error",
                   VDict [(py "code", VInt (-32603));
                          (py "message", VStr (py "Internal error"));
                          (py "data", VStr (exn_str e))])],
            500%Z)).

End App.

(** ** Vocabulary of the statements and stores for closed examples *)

Module Fixtures.

(** The parameters a handler is called with: [request.params or {}]. *)
Definition effective (request_params : pyval) : pyval :=
  if truthy request_params then request_params else VDict [].

(** A driver that answers every query with one row and fails on every
    [EXPLAIN]. *)
Definition no_plan_driver (text : pystr) : result (list pyval) :=
  if startswith (py "EXPLAIN") text
  then Raise (mkExn RuntimeError (py "no plan"))
  else Ok [VDict [(py "count(n)", VInt 5)]].

(** A store without the APOC plugin: texts that call it fail, the others
    are answered with one row. *)
Definition plain_store (text : pystr) : result (list pyval) :=
  if contains (py "apoc.") text
  then Raise (mkExn RuntimeError (py "Unknown procedure"))
  else Ok [VDict [(py "label", VStr (py "Table")); (py "count", VInt 3)]].

(** A store that fails on every text. *)
Definition failing_store (text : pystr) : result (list pyval) :=
  Raise (mkExn RuntimeError (py "unavailable")).

(** A stand-in for the lowering of a string with a code point above 127,
    which leaves it as it is; ASCII text never consults it. *)
Definition ascii_lower (s : pystr) : pystr := s.

(** The three listings of the schema tool: the [schema_type] that selects
    one, its three queries in the order they are tried, and the payload
    built from the rows. *)
Definition listings : list (pystr * (pystr * pystr * pystr) * (list pyval -> pyval)) :=
  [(py "nodes",
    (SchemaTool.labels_apoc_query, SchemaTool.labels_fallback_query,
     SchemaTool.labels_simple_query),
    fun rows =>
      VDict [(py "database_type", VStr (py "PostgreSQL"));
             (py "storage_type", VStr (py "Neo4j"));
             (py "schema_type", VStr (py "nodes"));
             (py "purpose", VStr (py "Identify PostgreSQL entities for SQL generation"));
             (py "postgresql_entities", VList rows)]);
   (py "relationships",
    (SchemaTool.types_apoc_query, SchemaTool.types_fallback_query,
     SchemaTool.types_simple_query),
    fun rows =>
      VDict [(py "database_type", VStr (py "PostgreSQL"));
             (py "storage_type", VStr (py "Neo4j"));
             (py "schema_type", VStr (py "relationships"));
             (py "purpose",
              VStr (py "Understand PostgreSQL relationships for JOIN operations"));
             (py "postgresql_relationships", VList rows)]);
   (py "properties",
    (SchemaTool.properties_apoc_query, SchemaTool.properties_fallback_query,
     SchemaTool.properties_simple_query),
    fun rows =>
      VDict [(py "database_type", VStr (py "PostgreSQL"));
             (py "storage_type", VStr (py "Neo4j"));
             (py "schema_type", VStr (py "properties"));
             (py "purpose", VStr (py "PostgreSQL entity properties for SQL generation"));
             (py "postgresql_entity_properties", VList rows)])].

(** The payload of the overview for the four values collected. *)
Definition overview_payload (node_count relationship_count labels relationship_types
                             entity_type_count relationship_type_count : pyval) : pyval :=
  VDict
    [(py "database_type", VStr (py "PostgreSQL"));
     (py "storage_type", VStr (py "Neo4j"));
     (py "source_database", VStr (py "Pagila PostgreSQL Database"));
     (py "schema_type", VStr (py "overview"));
     (py "purpose", VStr (py "PostgreSQL SQL query generation"));
     (py "overview",
      VDict [(py "total_postgresql_entities", node_count);
             (py "total_relationships", relationship_count);
             (py "postgresql_entity_types", labels);
             (py "relationship_types", relationship_types);
             (py "entity_type_count", entity_type_count);
             (py "relationship_type_count", relationship_type_count)])].

(** The rows a store gives for a text, or none when it fails or when there
    is no connection. *)
Definition rows_or_none (drv : QueryTool.driver) (text : pystr) : list pyval :=
  match drv with
  | Some run => match run text with Ok rows => rows | Raise _ => [] end
  | None => []
  end.

(** A store that answers the overview's queries with one row each, under
    the column names the queries declare. *)
Definition overview_store (text : pystr) : result (list pyval) :=
  if contains (py "relationshipTypes") text
  then Ok [VDict [(py "types", VList [VStr (py "HAS_COLUMN"); VStr (py "REFERENCES")])]]
  else if contains (py "db.labels") text
  then Ok [VDict [(py "labels", VList [VStr (py "Table"); VStr (py "Column")])]]
  else Ok [VDict [(py "count", VInt 42)]].

(** The events of a run of queries: one each when there is a connection,
    none without. *)
Definition sent (drv : QueryTool.driver) (queries : list pystr) : list QueryTool.event :=
  match drv with
  | Some _ => map QueryTool.Ran queries
  | None => []
  end.

(** The value the overview keeps for one of its queries: the field of the
    first row, the default when there is no row, and null when the query
    or the field fails. *)
Definition collected (drv : QueryTool.driver) (key query : pystr) : pyval :=
  match drv with
  | None => VNone
  | Some run =>
      match run query with
      | Raise _ => VNone
      | Ok rows =>
          match (if existsb (str_eqb key) [py "node_count"; py "relationship_count"]
                 then SchemaTool.first_record_field rows (py "count") (VInt 0)
                 else SchemaTool.first_record_field rows
                        (SchemaTool.before_underscore key) (VList [])) with
          | Ok v => v
          | Raise _ => VNone
          end
      end
  end.

End Fixtures.

(** * Properties *)

(** ** Facts about strings *)

Module StrFacts.

Lemma str_eqb_eq (a b : pystr) : str_eqb a b = true <-> a = b.
Proof.
  unfold str_eqb. destruct (list_eq_dec N.eq_dec a b); split; congruence.
Qed.

Lemma str_eqb_refl (a : pystr) : str_eqb a a = true.
Proof. now apply str_eqb_eq. Qed.

Lemma str_eqb_neq (a b : pystr) : str_eqb a b = false <-> a <> b.
Proof.
  unfold str_eqb. destruct (list_eq_dec N.eq_dec a b); split; congruence.
Qed.

Lemma startswith_app (p t : pystr) : startswith p (p ++ t) = true.
Proof.
  induction p as [|a p IH]; simpl; [reflexivity|].
  now rewrite N.eqb_refl, IH.
Qed.

Lemma startswith_spec (p s : pystr) :
  startswith p s = true <-> exists t, s = p ++ t.
Proof.
  split.
  - revert s. induction p as [|a p IH]; intros s H.
    + now exists s.
    + destruct s as [|b s]; simpl in H; [discriminate|].
      apply andb_true_iff in H. destruct H as [Hab Hps].
      apply N.eqb_eq in Hab. subst b.
      destruct (IH _ Hps) as [t ->]. now exists t.
  - intros [t ->]. apply startswith_app.
Qed.

Lemma startswith_contains (p s : pystr) :
  startswith p s = true -> contains p s = true.
Proof.
  intros H. destruct s; simpl; rewrite H; reflexivity.
Qed.

Lemma contains_spec (p s : pystr) :
  contains p s = true <-> exists a b, s = a ++ p ++ b.
Proof.
  split.
  - induction s as [|c s IH]; simpl; intros H.
    + rewrite orb_false_r in H. apply startswith_spec in H.
      destruct H as [t Ht]. now exists [], t.
    + apply orb_true_iff in H. destruct H as [H|H].
      * apply startswith_spec in H. destruct H as [t Ht]. now exists [], t.
      * destruct (IH H) as (a & b & ->). now exists (c :: a), b.
  - intros (a & b & ->). induction a as [|c a IH].
    + cbn [app]. apply startswith_contains, startswith_app.
    + cbn [app contains]. rewrite IH. apply orb_true_r.
Qed.

Lemma contains_app_r (p a : pystr) : contains p (a ++ p) = true.
Proof.
  apply contains_spec. exists a, []. now rewrite app_nil_r.
Qed.

Lemma contains_middle (p a b : pystr) : contains p (a ++ p ++ b) = true.
Proof. apply contains_spec. now exists a, b. Qed.

Lemma upper_app (rt : runtime) (a b : pystr) :
  upper rt (a ++ b) = upper rt a ++ upper rt b.
Proof. unfold upper. apply flat_map_app. Qed.

End StrFacts.

(** ** Facts about computations *)

Module MonadFacts.

Lemma bind_ok E A B (t : list E) (a : A) (f : A -> M E B) :
  bind (t, Ok a) f = (t ++ trace (f a), outcome (f a)).
Proof. unfold bind, trace, outcome. now destruct (f a). Qed.

Lemma bind_raise E A B (t : list E) (e : exn) (f : A -> M E B) :
  bind (t, Raise e) f = (t, Raise e).
Proof. reflexivity. Qed.

Lemma bind_lift_ok E A B (a : A) (f : A -> M E B) :
  bind (lift (Ok a)) f = f a.
Proof. unfold lift. rewrite bind_ok. cbn [app]. unfold trace, outcome. now destruct (f a). Qed.

Lemma bind_lift_raise E A B (e : exn) (f : A -> M E B) :
  bind (lift (Raise e)) f = ([], Raise e).
Proof. reflexivity. Qed.

(** A handler that returns makes the whole [try] return. *)
Lemma try_except_returns E A (m : M E A) (h : exn -> A) :
  exists a, try_except m (fun e => ret (h e)) = (trace m, Ok a).
Proof.
  destruct m as [t [a|e]]; cbn.
  - now exists a.
  - exists (h e). now rewrite app_nil_r.
Qed.

Lemma trace_bind E A B (m : M E A) (f : A -> M E B) :
  trace (bind m f)
  = trace m ++ match outcome m with Ok a => trace (f a) | Raise _ => [] end.
Proof.
  destruct m as [t [a|e]]; unfold bind, trace, outcome; cbn [fst snd].
  - now destruct (f a).
  - now rewrite app_nil_r.
Qed.

Lemma trace_try_except E A (m : M E A) (h : exn -> M E A) :
  trace (try_except m h)
  = trace m ++ match outcome m with Ok _ => [] | Raise e => trace (h e) end.
Proof.
  destruct m as [t [a|e]]; unfold try_except, trace, outcome; cbn [fst snd].
  - now rewrite app_nil_r.
  - now destruct (h e).
Qed.

Lemma dict_lookup_app V (k k' : pystr) (v : V) (d : list (pystr * V)) :
  dict_lookup k (d ++ [(k', v)])
  = match dict_lookup k d with
    | Some x => Some x
    | None => if str_eqb k k' then Some v else None
    end.
Proof.
  induction d as [|[k0 v0] d IH]; cbn [app dict_lookup]; [reflexivity|].
  now destruct (str_eqb k k0).
Qed.

End MonadFacts.

(** ** The safety gate *)

Module GateFacts.
Import QueryTool StrFacts.

(** The loop over the deny-list passes exactly when no keyword occurs. *)
Lemma check_keywords_ok (keywords : list pystr) (q : pystr) :
  check_keywords keywords q = Ok tt <->
  forall k, In k keywords -> contains k q = false.
Proof.
  induction keywords as [|k0 ks IH]; simpl.
  - split; [intros _ k [] | reflexivity].
  - destruct (contains k0 q) eqn:E.
    + split; [discriminate|]. intros H. specialize (H k0 (or_introl eq_refl)). congruence.
    + rewrite IH. split.
      * intros H k [<-|Hk]; auto.
      * intros H k Hk. apply H. now right.
Qed.

(** When a keyword occurs, the loop raises at the first one, in list order,
    and names it. *)
Lemma check_keywords_first (keywords : list pystr) (q k : pystr) :
  In k keywords -> contains k q = true ->
  exists before first after,
    keywords = before ++ first :: after /\
    (forall k', In k' before -> contains k' q = false) /\
    contains first q = true /\
    check_keywords keywords q = Raise (mkExn ValueError (dangerous_message first)).
Proof.
  induction keywords as [|k0 ks IH]; simpl; [intros []|].
  intros Hin Hk. destruct (contains k0 q) eqn:E.
  - exists [], k0, ks. repeat split; auto. intros k' [].
  - destruct Hin as [->|Hin]; [congruence|].
    destruct (IH Hin Hk) as (before & first & after & -> & Hb & Hf & Hc).
    exists (k0 :: before), first, after. repeat split; auto.
    intros k' [<-|Hk']; auto.
Qed.

Lemma check_keywords_outcome (keywords : list pystr) (q : pystr) :
  check_keywords keywords q = Ok tt \/
  exists k, In k keywords /\
            check_keywords keywords q = Raise (mkExn ValueError (dangerous_message k)).
Proof.
  induction keywords as [|k0 ks IH]; simpl; [now left|].
  destruct (contains k0 q).
  - right. exists k0. auto.
  - destruct IH as [IH|(k & Hk & IH)]; [now left|].
    right. exists k. auto.
Qed.

Lemma match_comment_other (c : N) (s : pystr) :
  c <> 47%N -> match_comment (c :: s) = None.
Proof.
  intros H. unfold match_comment.
  destruct c as [|p]; [reflexivity|].
  do 6 (destruct p as [p|p|]; try reflexivity). congruence.
Qed.

(** Characters that open no comment are kept where they stand. *)
Lemma sub_comments_keeps (w rest : pystr) :
  (forall c, In c w -> c <> 47%N) ->
  sub_comments (w ++ rest) = w ++ sub_comments rest.
Proof.
  unfold sub_comments. induction w as [|c w IH]; intros H; [reflexivity|].
  change ((c :: w) ++ rest) with (c :: (w ++ rest)).
  cbn [sub_comments_from]. rewrite match_comment_other by (apply H; now left).
  cbn [app]. f_equal. apply IH. intros c' Hc'. apply H. now right.
Qed.

Lemma split_from_word (w cur rest : pystr) :
  (forall c, In c w -> isspace c = false) ->
  split_from cur (w ++ rest) = split_from (rev w ++ cur) rest.
Proof.
  revert cur. induction w as [|c w IH]; intros cur H; [reflexivity|].
  cbn [app split_from]. rewrite (H c (or_introl eq_refl)).
  rewrite IH by (intros c' Hc'; apply H; now right).
  cbn [rev]. now rewrite <- app_assoc.
Qed.

Lemma split_from_open (cur rest : pystr) :
  cur <> [] ->
  exists more words, split_from cur rest = (rev cur ++ more) :: words.
Proof.
  revert cur. induction rest as [|c t IH]; intros cur Hcur.
  - exists [], []. destruct cur; [congruence|]. cbn [split_from]. now rewrite app_nil_r.
  - cbn [split_from]. destruct (isspace c).
    + exists [], (split_from [] t). destruct cur; [congruence|]. now rewrite app_nil_r.
    + destruct (IH (c :: cur)) as (more & words & E); [discriminate|].
      exists (c :: more), words. rewrite E. cbn [rev]. now rewrite <- app_assoc.
Qed.

Lemma join_head (sep w more : pystr) (words : list pystr) :
  exists tail, join sep ((w ++ more) :: words) = w ++ tail.
Proof.
  destruct words as [|w' ws]; cbn [join].
  - now exists more.
  - exists (more ++ sep ++ join sep (w' :: ws)). now rewrite <- app_assoc.
Qed.

(** A query that opens with a word free of slashes and whitespace has a
    normalized text that opens with that word, uppercased. *)
Lemma normalize_prefix (rt : runtime) (w rest : pystr) :
  w <> [] ->
  (forall c, In c w -> c <> 47%N /\ isspace c = false) ->
  startswith (upper rt w) (normalize rt (w ++ rest)) = true.
Proof.
  intros Hne H. unfold normalize.
  rewrite sub_comments_keeps by (intros c Hc; now apply H).
  unfold split. rewrite split_from_word by (intros c Hc; now apply H).
  destruct (split_from_open (sub_comments rest) (cur := rev w ++ [])) as (more & words & ->).
  { rewrite app_nil_r. intros E. apply (f_equal (@rev N)) in E.
    rewrite rev_involutive in E. now apply Hne. }
  rewrite app_nil_r, rev_involutive.
  destruct (join_head (py " ") w more words) as (tail & ->).
  rewrite upper_app. apply startswith_app.
Qed.

End GateFacts.

Module Gate.
Import QueryTool StrFacts GateFacts.

(** C1. Whenever the normalized text of a query contains a
    keyword of the deny-list, validation raises a [ValueError] whose
    message names a deny-listed keyword that occurs in the text: the first
    one, in the order of the list. For ["MATCH (n) DETACH DELETE n"] that
    keyword is [DELETE], which stands before [DETACH DELETE] in the list. *)
Theorem validate_rejects_dangerous (rt : runtime) :
  (forall query keyword,
      In keyword dangerous_keywords ->
      contains keyword (normalize rt query) = true ->
      exists before first after,
        dangerous_keywords = before ++ first :: after /\
        (forall k, In k before -> contains k (normalize rt query) = false) /\
        contains first (normalize rt query) = true /\
        _validate_query rt query = Raise (mkExn ValueError (dangerous_message first)) /\
        contains first (dangerous_message first) = true) /\
  _validate_query rt (py "MATCH (n) DETACH DELETE n")
  = Raise (mkExn ValueError (dangerous_message (py "DELETE"))).
Proof.
  split; [|reflexivity].
  intros query keyword Hin Hk.
  destruct (check_keywords_first dangerous_keywords _ _ Hin Hk)
    as (before & first & after & E & Hb & Hf & Hc).
  exists before, first, after. repeat split; auto.
  - unfold _validate_query. now rewrite Hc.
  - apply contains_middle.
Qed.

Lemma validate_rejects_dangerous_witness :
  In (py "SET") dangerous_keywords /\
  contains (py "SET") (normalize ascii_runtime (py "MATCH (n) SET n.x = 1")) = true /\
  exists before first after,
    dangerous_keywords = before ++ first :: after /\
    (forall k, In k before ->
               contains k (normalize ascii_runtime (py "MATCH (n) SET n.x = 1")) = false) /\
    contains first (normalize ascii_runtime (py "MATCH (n) SET n.x = 1")) = true /\
    _validate_query ascii_runtime (py "MATCH (n) SET n.x = 1")
    = Raise (mkExn ValueError (dangerous_message first)) /\
    contains first (dangerous_message first) = true.
Proof.
  assert (Hin : In (py "SET") dangerous_keywords) by (vm_compute; tauto).
  assert (Hk : contains (py "SET") (normalize ascii_runtime (py "MATCH (n) SET n.x = 1")) = true)
    by reflexivity.
  exact (conj Hin (conj Hk (proj1 (validate_rejects_dangerous ascii_runtime) _ _ Hin Hk))).
Defined.

(** The message for ["MATCH (n) DETACH DELETE n"] names [DELETE] and does
    not contain [DETACH DELETE]. *)
Lemma detach_delete_message_names_delete :
  _validate_query ascii_runtime (py "MATCH (n) DETACH DELETE n")
  = Raise (mkExn ValueError
             (py "Query contains dangerous keyword: DELETE. Only read-only queries are allowed."))
  /\ contains (py "DETACH DELETE")
       (py "Query contains dangerous keyword: DELETE. Only read-only queries are allowed.")
     = false.
Proof. split; reflexivity. Qed.

Lemma plain_word (w : pystr) :
  forallb (fun c => negb (c =? 47)%N && negb (isspace c)) w = true ->
  forall c, In c w -> c <> 47%N /\ isspace c = false.
Proof.
  intros H c Hc. rewrite forallb_forall in H. specialize (H c Hc).
  apply andb_true_iff in H. destruct H as [H1 H2].
  apply negb_true_iff in H1, H2. apply N.eqb_neq in H1. auto.
Qed.

(** C2. Validation accepts a query exactly when its normalized text
    contains no deny-listed keyword and starts with an allowed leading
    clause, and raises a [ValueError] otherwise. A query that begins with
    [MATCH] and whose normalized text has no deny-listed keyword is
    accepted, so are ["RETURN 1"] and ["PROFILE MATCH (n) RETURN n"], and a
    query that begins with ["CREATE (n)"] is rejected. *)
Theorem validate_accepts_iff (rt : runtime) :
  (forall query,
      _validate_query rt query = Ok tt <->
      (forall k, In k dangerous_keywords -> contains k (normalize rt query) = false) /\
      (exists start, In start allowed_starts /\
                     startswith start (normalize rt query) = true)) /\
  (forall query,
      _validate_query rt query = Ok tt \/
      exists msg, _validate_query rt query = Raise (mkExn ValueError msg)) /\
  (forall rest,
      (forall k, In k dangerous_keywords ->
                 contains k (normalize rt (py "MATCH" ++ rest)) = false) ->
      _validate_query rt (py "MATCH" ++ rest) = Ok tt) /\
  _validate_query rt (py "RETURN 1") = Ok tt /\
  _validate_query rt (py "PROFILE MATCH (n) RETURN n") = Ok tt /\
  (forall rest,
      exists msg, _validate_query rt (py "CREATE (n)" ++ rest) = Raise (mkExn ValueError msg)).
Proof.
  assert (Hiff : forall query,
      _validate_query rt query = Ok tt <->
      (forall k, In k dangerous_keywords -> contains k (normalize rt query) = false) /\
      (exists start, In start allowed_starts /\
                     startswith start (normalize rt query) = true)).
  { intros query. unfold _validate_query.
    destruct (check_keywords dangerous_keywords (normalize rt query)) as [[]|e] eqn:E.
    - pose proof (proj1 (check_keywords_ok _ _) E) as Hnone.
      destruct (existsb _ allowed_starts) eqn:Ex; cbn [negb].
      + split; [intros _|reflexivity]. split; [exact Hnone|].
        apply existsb_exists in Ex. exact Ex.
      + split; [discriminate|]. intros [_ Hs].
        apply existsb_exists in Hs. congruence.
    - split; [discriminate|]. intros [Hk _].
      apply (proj2 (check_keywords_ok _ _)) in Hk. congruence. }
  split; [exact Hiff|]. split; [|split; [|split; [|split]]].
  - intros query. unfold _validate_query.
    destruct (check_keywords_outcome dangerous_keywords (normalize rt query))
      as [->|(k & _ & ->)].
    + destruct (existsb _ allowed_starts); cbn [negb]; [now left|right; eauto].
    + right; eauto.
  - intros rest Hk. apply Hiff. split; [exact Hk|].
    exists (py "MATCH"). split; [vm_compute; tauto|].
    apply (normalize_prefix rt (w := py "MATCH")); [discriminate|].
    now apply plain_word.
  - reflexivity.
  - reflexivity.
  - intros rest. exists (dangerous_message (py "CREATE")).
    assert (Hs : startswith (py "CREATE") (normalize rt (py "CREATE" ++ (py " (n)" ++ rest))) = true).
    { apply (normalize_prefix rt (w := py "CREATE")); [discriminate|].
      now apply plain_word. }
    apply startswith_contains in Hs.
    change (py "CREATE (n)" ++ rest) with (py "CREATE" ++ (py " (n)" ++ rest)).
    unfold _validate_query.
    change dangerous_keywords with (py "CREATE" :: tl dangerous_keywords).
    cbn [check_keywords]. now rewrite Hs.
Qed.

Lemma validate_accepts_iff_witness :
  (forall k, In k dangerous_keywords ->
             contains k (normalize ascii_runtime (py "MATCH" ++ py " (t:Table) RETURN t")) = false) /\
  _validate_query ascii_runtime (py "MATCH" ++ py " (t:Table) RETURN t") = Ok tt.
Proof.
  assert (H : forall k, In k dangerous_keywords ->
                contains k (normalize ascii_runtime (py "MATCH" ++ py " (t:Table) RETURN t"))
                = false).
  { intros k Hk. vm_compute in Hk.
    repeat (destruct Hk as [<-|Hk]; [reflexivity|]). contradiction. }
  exact (conj H (proj1 (proj2 (proj2 (validate_accepts_iff ascii_runtime))) _ H)).
Defined.

End Gate.

(** ** Limits of the query tool *)

Module LimitFacts.
Import QueryTool StrFacts MonadFacts.

(** [dropwhile] cuts off a run of characters that satisfy the test and
    stops at the first one that does not. *)
Lemma dropwhile_split (f : N -> bool) (s : pystr) :
  exists run,
    s = run ++ dropwhile f s /\
    Forall (fun c => f c = true) run /\
    (forall c t, dropwhile f s = c :: t -> f c = false).
Proof.
  induction s as [|c s (run & E & Hrun & Hstop)]; cbn [dropwhile].
  - exists []. repeat split; auto. discriminate.
  - destruct (f c) eqn:Fc.
    + exists (c :: run). repeat split; auto.
      cbn [app]. now f_equal.
    + exists []. repeat split; auto.
      intros c' t' [= <- _]. exact Fc.
Qed.

(** [rstrip_by f s] is [s] without its longest tail of characters that
    satisfy [f]. *)
Lemma rstrip_by_spec (f : N -> bool) (s : pystr) :
  exists tail,
    s = rstrip_by f s ++ tail /\
    Forall (fun c => f c = true) tail /\
    (forall body c, rstrip_by f s = body ++ [c] -> f c = false).
Proof.
  unfold rstrip_by.
  destruct (dropwhile_split f (rev s)) as (run & E & Hrun & Hstop).
  exists (rev run). repeat split.
  - rewrite <- rev_app_distr, <- E. now rewrite rev_involutive.
  - apply Forall_rev. exact Hrun.
  - intros body c Hb. apply (f_equal (@rev N)) in Hb.
    rewrite rev_involutive, rev_app_distr in Hb. cbn in Hb.
    eapply Hstop. exact Hb.
Qed.

(** With a connection, [_execute_query] hands exactly one text to the
    driver: the one [apply_limit] computes. *)
Lemma execute_query_trace (rt : runtime) (run : pystr -> result (list pyval))
      (query : pystr) (limit : pyval) :
  trace (_execute_query rt (Some run) query limit) = [Ran (apply_limit rt query limit)].
Proof.
  unfold _execute_query, trace, bind, emit.
  destruct (run (apply_limit rt query limit)); reflexivity.
Qed.

(** The test on the limit, for a limit that is truthy. *)
Lemma limit_rejected_truthy (limit : pyval) :
  truthy limit = true ->
  (limit_rejected limit = false <->
   isinstance_int limit = true /\ (1 <= int_value limit <= 1000)%Z).
Proof.
  intros Ht. unfold limit_rejected. rewrite Ht. cbn [andb].
  rewrite !orb_false_iff, negb_false_iff, Z.leb_gt, Z.ltb_ge. split.
  - intros [[Hi Hlo] Hhi]. split; [exact Hi|lia].
  - intros [Hi [Hlo Hhi]]. repeat split; [exact Hi|lia|lia].
Qed.

(** What the outer [except] of [execute] raises is never the limit error. *)
Lemma wrapped_failure_is_not_limit_error (m : M event pyval) :
  outcome (try_except m
             (fun e => raise ValueError (py "Query execution failed: " ++ exn_str e)))
  <> Raise (mkExn ValueError limit_message).
Proof.
  destruct m as [t [a|e]]; cbn; [discriminate|].
  intros H. injection H as H. vm_compute in H. discriminate.
Qed.

(** [execute] up to the validation of the limit, for a call that carries a
    query text which is not blank. *)
Lemma execute_with_query (rt : runtime) (drv : driver) (d : pydict) (q : pystr) :
  dict_lookup (py "cypher_query") d = Some (VStr q) ->
  strip q <> [] ->
  exists rest,
    execute rt drv (VDict d)
    = (if limit_rejected (match dict_lookup (py "limit") d with
                          | Some v => v
                          | None => VInt 100
                          end)
       then raise ValueError limit_message
       else try_except rest
              (fun e => raise ValueError (py "Query execution failed: " ++ exn_str e))).
Proof.
  intros Hq Hs. unfold execute. cbn [py_get]. rewrite Hq. cbn [py_strip].
  rewrite !bind_lift_ok.
  destruct (strip q) as [|c cq] eqn:Es; [congruence|]. cbn [truthy negb].
  eexists. reflexivity.
Qed.

End LimitFacts.

Module Limits.
Import QueryTool StrFacts MonadFacts LimitFacts.

(** C7. A call whose [limit] is [0] is not
    rejected by the limit validation: the test on the limit is false, the
    query text goes to the driver as it stands, without any [LIMIT], and the
    call does not end in the limit error. *)
Theorem execute_accepts_limit_zero (rt : runtime) (run : pystr -> result (list pyval)) :
  limit_rejected (VInt 0) = false /\
  trace (execute rt (Some run)
           (VDict [(py "cypher_query", VStr (py "MATCH (n) RETURN n"));
                   (py "limit", VInt 0)]))
  = [Ran (py "MATCH (n) RETURN n")] /\
  outcome (execute rt (Some run)
             (VDict [(py "cypher_query", VStr (py "MATCH (n) RETURN n"));
                     (py "limit", VInt 0)]))
  <> Raise (mkExn ValueError limit_message).
Proof.
  split; [reflexivity|].
  vm_compute.
  match goal with |- context [run ?q] => destruct (run q) as [records|e] end;
    (split; [reflexivity|discriminate]).
Qed.

(** C8. A limit of [0] passes the test on the limit, and [_execute_query]
    then hands every query to the driver as it stands: no [LIMIT] is added,
    also when the query has none, so the text sent is never the query
    without its trailing semicolons followed by [" LIMIT 0"]. *)
Theorem limit_zero_leaves_query_uncapped
        (rt : runtime) (run : pystr -> result (list pyval)) (query : pystr) :
  limit_rejected (VInt 0) = false /\
  trace (_execute_query rt (Some run) query (VInt 0)) = [Ran query] /\
  query <> rstrip_by (N.eqb 59) query ++ py " LIMIT " ++ str_of_int 0.
Proof.
  split; [reflexivity|]. split.
  - rewrite execute_query_trace. reflexivity.
  - destruct (rstrip_by_spec (N.eqb 59) query) as (tail & E & Htail & _).
    intros H. rewrite E in H at 1. apply app_inv_head in H.
    rewrite H in Htail. inversion Htail as [|c rest Hc _]. discriminate Hc.
Qed.

(** With a connection and a limit that is a non-zero integer, so with
    every limit from 1 to 1000: when the uppercased query text does not
    contain [LIMIT], the text handed to the driver is the query without its
    trailing semicolons, followed by [" LIMIT "] and the limit in decimal;
    when it contains [LIMIT] anywhere, the text is handed over unchanged. *)
Theorem limit_clause_when_supplied
        (rt : runtime) (run : pystr -> result (list pyval)) (query : pystr) (limit : Z) :
  limit <> 0%Z ->
  (contains (py "LIMIT") (upper rt query) = false ->
   exists semicolons,
     query = rstrip_by (N.eqb 59) query ++ semicolons /\
     Forall (fun c => c = 59%N) semicolons /\
     (forall body c, rstrip_by (N.eqb 59) query = body ++ [c] -> c <> 59%N) /\
     trace (_execute_query rt (Some run) query (VInt limit))
     = [Ran (rstrip_by (N.eqb 59) query ++ py " LIMIT " ++ str_of_int limit)]) /\
  (contains (py "LIMIT") (upper rt query) = true ->
   trace (_execute_query rt (Some run) query (VInt limit)) = [Ran query]).
Proof.
  intros Hlimit. rewrite execute_query_trace. unfold apply_limit.
  assert (Ht : truthy (VInt limit) = true).
  { cbn. apply negb_true_iff. now apply Z.eqb_neq. }
  rewrite Ht. split; intros Hc; rewrite Hc; cbn [negb andb]; [|reflexivity].
  destruct (rstrip_by_spec (N.eqb 59) query) as (tail & E & Htail & Hstop).
  exists tail. repeat split; auto.
  - eapply Forall_impl; [|exact Htail]. intros c Hcq. apply N.eqb_eq in Hcq. congruence.
  - intros body c Hb ->. apply Hstop in Hb. discriminate.
Qed.

Lemma limit_clause_when_supplied_witness :
  (5 <> 0)%Z /\
  (contains (py "LIMIT") (upper ascii_runtime (py "MATCH (n) RETURN n;")) = false ->
   exists semicolons,
     py "MATCH (n) RETURN n;" = rstrip_by (N.eqb 59) (py "MATCH (n) RETURN n;") ++ semicolons /\
     Forall (fun c => c = 59%N) semicolons /\
     (forall body c,
         rstrip_by (N.eqb 59) (py "MATCH (n) RETURN n;") = body ++ [c] -> c <> 59%N) /\
     trace (_execute_query ascii_runtime (Some (fun _ => Ok [])) (py "MATCH (n) RETURN n;")
              (VInt 5))
     = [Ran (rstrip_by (N.eqb 59) (py "MATCH (n) RETURN n;") ++ py " LIMIT " ++ str_of_int 5)]) /\
  (contains (py "LIMIT") (upper ascii_runtime (py "MATCH (n) RETURN n;")) = true ->
   trace (_execute_query ascii_runtime (Some (fun _ => Ok [])) (py "MATCH (n) RETURN n;")
            (VInt 5))
   = [Ran (py "MATCH (n) RETURN n;")]).
Proof.
  assert (H : (5 <> 0)%Z) by discriminate.
  exact (conj H (limit_clause_when_supplied ascii_runtime (fun _ => Ok [])
                   (py "MATCH (n) RETURN n;") H)).
Defined.

(** The validation of a limit that is truthy (any value but [None], [False],
    zero and the empty string, list and dict): the call ends in the limit
    error exactly when the limit is not an [int] between 1 and 1000, and
    then nothing was sent to the driver. *)
Theorem limit_validation_when_truthy
        (rt : runtime) (drv : driver) (d : pydict) (q : pystr) (limit : pyval) :
  dict_lookup (py "cypher_query") d = Some (VStr q) ->
  strip q <> [] ->
  dict_lookup (py "limit") d = Some limit ->
  truthy limit = true ->
  (outcome (execute rt drv (VDict d)) = Raise (mkExn ValueError limit_message)
   <-> ~ (isinstance_int limit = true /\ (1 <= int_value limit <= 1000)%Z)) /\
  (~ (isinstance_int limit = true /\ (1 <= int_value limit <= 1000)%Z) ->
   trace (execute rt drv (VDict d)) = []).
Proof.
  intros Hq Hs Hl Ht.
  destruct (execute_with_query rt drv d Hq Hs) as [rest ->]. rewrite Hl.
  pose proof (limit_rejected_truthy limit Ht) as Hr.
  destruct (limit_rejected limit).
  - assert (Hbad : ~ (isinstance_int limit = true /\ (1 <= int_value limit <= 1000)%Z)).
    { intros Hv. apply Hr in Hv. discriminate. }
    split; [split; [intros _; exact Hbad | reflexivity] | reflexivity].
  - assert (Hgood : isinstance_int limit = true /\ (1 <= int_value limit <= 1000)%Z)
      by (now apply Hr).
    split; [split|]; intros H.
    + exfalso. exact (wrapped_failure_is_not_limit_error _ H).
    + contradiction.
    + contradiction.
Qed.

Lemma limit_validation_when_truthy_witness :
  (outcome (execute ascii_runtime None
              (VDict [(py "cypher_query", VStr (py "RETURN 1")); (py "limit", VInt 1001)]))
   = Raise (mkExn ValueError limit_message)
   <-> ~ (isinstance_int (VInt 1001) = true /\ (1 <= int_value (VInt 1001) <= 1000)%Z)) /\
  (~ (isinstance_int (VInt 1001) = true /\ (1 <= int_value (VInt 1001) <= 1000)%Z) ->
   trace (execute ascii_runtime None
            (VDict [(py "cypher_query", VStr (py "RETURN 1")); (py "limit", VInt 1001)]))
   = []).
Proof.
  apply (@limit_validation_when_truthy ascii_runtime None
           [(py "cypher_query", VStr (py "RETURN 1")); (py "limit", VInt 1001)]
           (py "RETURN 1") (VInt 1001)).
  - reflexivity.
  - discriminate.
  - reflexivity.
  - reflexivity.
Defined.

(** A call without [limit] behaves as the same call with a limit of 100,
    which passes the validation. *)
Theorem omitted_limit_is_100 (rt : runtime) (drv : driver) (d : pydict) :
  dict_lookup (py "limit") d = None ->
  execute rt drv (VDict d) = execute rt drv (VDict (d ++ [(py "limit", VInt 100)])) /\
  limit_rejected (VInt 100) = false.
Proof.
  intros Hl. split; [|reflexivity].
  unfold execute. cbn [py_get]. rewrite !dict_lookup_app, Hl.
  change (str_eqb (py "cypher_query") (py "limit")) with false.
  change (str_eqb (py "limit") (py "limit")) with true.
  change (str_eqb (py "include_query_plan") (py "limit")) with false.
  destruct (dict_lookup (py "cypher_query") d), (dict_lookup (py "include_query_plan") d);
    reflexivity.
Qed.

Lemma omitted_limit_is_100_witness :
  execute ascii_runtime None (VDict [(py "cypher_query", VStr (py "RETURN 1"))])
  = execute ascii_runtime None
      (VDict ([(py "cypher_query", VStr (py "RETURN 1"))] ++ [(py "limit", VInt 100)])) /\
  limit_rejected (VInt 100) = false.
Proof.
  apply (@omitted_limit_is_100 ascii_runtime None
           [(py "cypher_query", VStr (py "RETURN 1"))]).
  reflexivity.
Defined.

End Limits.

(** ** The protocol engine *)

Module EngineFacts.
Import Server StrFacts MonadFacts.

Lemma from_dict_dict (d : pydict) :
  from_dict (VDict d) =
  match dict_lookup (py "method") d with
  | Some m =>
      Ok {| jsonrpc := match dict_lookup (py "jsonrpc") d with
                       | Some v => v
                       | None => VStr (py "2.0")
                       end;
            method := m;
            params := match dict_lookup (py "params") d with Some v => v | None => VNone end;
            id := match dict_lookup (py "id") d with Some v => v | None => VNone end |}
  | None => Raise (key_error (py "method"))
  end.
Proof.
  unfold from_dict. cbn [py_get py_subscript].
  now destruct (dict_lookup (py "method") d).
Qed.

Section Engine.
Variable rt : runtime.
Variable tools : registry.

(** Dispatch of a request whose method can be hashed always returns a
    response object. *)
Lemma dispatch_returns (request : JSONRPCRequest) :
  hashable (method request) = true ->
  exists response,
    _dispatch_method rt tools request
    = (trace (_dispatch_method rt tools request), Ok response).
Proof.
  intros Hh. unfold _dispatch_method.
  assert (Hk : exists known, key_in (method request) (method_handlers rt tools) = Ok known).
  { destruct (method request); cbn in Hh |- *; try discriminate; eauto. }
  destruct Hk as [known ->]. rewrite bind_lift_ok.
  destruct known; cbn [negb].
  - match goal with |- context [try_except ?m (fun e => ret (@?h e))] =>
      destruct (try_except_returns m h) as [a Ha]
    end.
    exists a. rewrite Ha. reflexivity.
  - eexists. reflexivity.
Qed.

(** Every response that [handle_request] hands back was serialized by
    [to_dict]. *)
Lemma handle_request_serialized (request_data : pyval) (resp : pydict) :
  outcome (handle_request rt tools request_data) = Ok (Some resp) ->
  exists response, resp = to_dict response.
Proof.
  unfold handle_request.
  match goal with |- context [try_except ?m ?h] => destruct m as [t [[r|]|e]] eqn:Em end;
    cbn [try_except outcome snd ret]; intros H; try discriminate.
  - injection H as <-.
    destruct (load_request rt request_data) as [request_dict|e].
    + destruct (from_dict request_dict) as [request|e].
      * destruct (_dispatch_method rt tools request) as [t' [response|e]];
          cbn [bind] in Em.
        -- destruct (is_notification request); cbn [ret] in Em;
             inversion Em; subst. now exists response.
        -- discriminate.
      * destruct (exn_cls e); cbn [ret lift] in Em; inversion Em.
        unfold _create_error_response. eauto.
    + destruct (exn_cls e); cbn [ret lift] in Em; inversion Em.
      unfold _create_error_response. eauto.
  - injection H as <-. unfold _create_error_response. eauto.
Qed.

End Engine.

Lemma unknown_method_not_handled (rt : runtime) (tools : registry) (m : pystr) :
  ~ In m (map py ["initialize"; "tools/list"; "tools/call"; "server/info"]%string) ->
  dict_has m (method_handlers rt tools) = false.
Proof.
  intros Hnot. unfold dict_has, method_handlers. cbn [dict_lookup].
  repeat match goal with
         | |- context [str_eqb m ?k] =>
             let E := fresh "E" in
             destruct (str_eqb m k) eqn:E;
             [apply str_eqb_eq in E; exfalso; apply Hnot; subst m; cbn [map In]; tauto|]
         end.
  reflexivity.
Qed.

End EngineFacts.

Module Protocol.
Import Server StrFacts MonadFacts EngineFacts.

(** C3. A request that is, or decodes to, a mapping with a
    [method] that can be hashed and with no [id] (absent or null) gets no
    response, whatever the dispatched method does. On the two structural
    paths a response is returned all the same: when the text does not
    decode, and when the mapping has no [method]. *)
Theorem notification_gets_no_response (rt : runtime) (tools : registry) :
  (forall request_data d m,
      load_request rt request_data = Ok (VDict d) ->
      dict_lookup (py "method") d = Some m ->
      hashable m = true ->
      dict_lookup (py "id") d = None \/ dict_lookup (py "id") d = Some VNone ->
      outcome (handle_request rt tools request_data) = Ok None) /\
  (forall text e,
      json_loads rt text = Raise e ->
      exn_cls e = JSONDecodeError ->
      exists resp, outcome (handle_request rt tools (VStr text)) = Ok (Some resp)) /\
  (forall request_data d,
      load_request rt request_data = Ok (VDict d) ->
      dict_lookup (py "method") d = None ->
      exists resp, outcome (handle_request rt tools request_data) = Ok (Some resp)).
Proof.
  split; [|split].
  - intros request_data d m Hload Hm Hh Hid.
    unfold handle_request. rewrite Hload, from_dict_dict, Hm.
    match goal with |- context [_dispatch_method rt tools ?r] => set (request := r) end.
    destruct (dispatch_returns rt tools request Hh) as [response E].
    rewrite E, bind_ok.
    assert (Hn : is_notification request = true).
    { unfold is_notification, request. cbn [id].
      destruct Hid as [->| ->]; reflexivity. }
    rewrite Hn. reflexivity.
  - intros text e Hl He. unfold handle_request. cbn [load_request].
    rewrite Hl, He. cbn. eauto.
  - intros request_data d Hload Hm. unfold handle_request.
    rewrite Hload, from_dict_dict, Hm. cbn. eauto.
Qed.

Lemma notification_gets_no_response_witness :
  load_request ascii_runtime
    (VDict [(py "jsonrpc", VStr (py "2.0")); (py "method", VStr (py "tools/list"))])
  = Ok (VDict [(py "jsonrpc", VStr (py "2.0")); (py "method", VStr (py "tools/list"))]) /\
  outcome (handle_request ascii_runtime []
             (VDict [(py "jsonrpc", VStr (py "2.0")); (py "method", VStr (py "tools/list"))]))
  = Ok None.
Proof.
  split; [reflexivity|].
  apply (proj1 (notification_gets_no_response ascii_runtime [])
               (VDict [(py "jsonrpc", VStr (py "2.0")); (py "method", VStr (py "tools/list"))])
               [(py "jsonrpc", VStr (py "2.0")); (py "method", VStr (py "tools/list"))]
               (VStr (py "tools/list"))).
  - reflexivity.
  - reflexivity.
  - reflexivity.
  - left. reflexivity.
Defined.

(** A request without [id] is answered when it has no [method], and also
    when its [method] is a list, which cannot be looked up in the table of
    handlers. *)
Lemma request_without_id_is_answered :
  dict_lookup (py "id") [(py "jsonrpc", VStr (py "2.0"))] = None /\
  outcome (handle_request ascii_runtime [] (VDict [(py "jsonrpc", VStr (py "2.0"))]))
  = Ok (Some [(py "jsonrpc", VStr (py "2.0"));
              (py "error",
               VDict [(py "code", VInt (-32600));
                      (py "message", VStr (py "Invalid Request"));
                      (py "data", VStr (py "Missing field: 'method'"))])]) /\
  dict_lookup (py "id") [(py "method", VList [])] = None /\
  outcome (handle_request ascii_runtime [] (VDict [(py "method", VList [])]))
  = Ok (Some [(py "jsonrpc", VStr (py "2.0"));
              (py "error",
               VDict [(py "code", VInt (-32603));
                      (py "message", VStr (py "Internal error"));
                      (py "data", VStr (py "unhashable type: 'list'"))])]).
Proof. repeat split; reflexivity. Qed.

(** C4. A request with an [id] whose method is not one of the four
    supported names. When the method can be hashed (a string, a number, a
    boolean, null), the response is the error with code [-32601], a message
    that ends in the method as [str] prints it, and the request's [id].
    When it cannot (a list, a mapping), the lookup in the table of handlers
    fails outside the dispatcher's own handler, and the response is the
    error [-32603] of the outer handler, without [id]. *)
Theorem unknown_method_error
        (rt : runtime) (tools : registry) (request_data : pyval) (d : pydict)
        (m i : pyval) :
  load_request rt request_data = Ok (VDict d) ->
  dict_lookup (py "method") d = Some m ->
  (forall s, In s (map py ["initialize"; "tools/list"; "tools/call"; "server/info"]%string) ->
             m <> VStr s) ->
  dict_lookup (py "id") d = Some i ->
  i <> VNone ->
  (hashable m = true ->
   handle_request rt tools request_data
   = ([], Ok (Some [(py "jsonrpc", VStr (py "2.0"));
                    (py "error",
                     VDict [(py "code", VInt (-32601));
                            (py "message",
                             VStr (py "Method not found: " ++ py_str rt m))]);
                    (py "id", i)])) /\
   contains (py_str rt m) (py "Method not found: " ++ py_str rt m) = true) /\
  (hashable m = false ->
   handle_request rt tools request_data
   = ([], Ok (Some [(py "jsonrpc", VStr (py "2.0"));
                    (py "error",
                     VDict [(py "code", VInt (-32603));
                            (py "message", VStr (py "Internal error"));
                            (py "data",
                             VStr (py "unhashable type: '" ++ type_name m
                                      ++ py "'"))])]))).
Proof.
  intros Hload Hm Hnot Hid Hi.
  assert (Hn : is_none i = false) by (destruct i; congruence || reflexivity).
  split; intros Hh.
  - split; [|apply contains_app_r].
    assert (Hk : key_in m (method_handlers rt tools) = Ok false).
    { destruct m as [| | | |s| |]; try reflexivity; try discriminate Hh.
      cbn [key_in]. f_equal. apply unknown_method_not_handled.
      intros Hin. exact (Hnot s Hin eq_refl). }
    unfold handle_request. rewrite Hload, from_dict_dict, Hm, Hid.
    unfold _dispatch_method. cbn [method]. rewrite Hk.
    rewrite bind_lift_ok. cbn [negb ret bind app id is_notification].
    unfold is_notification. cbn [id]. rewrite Hn. cbn [try_except ret app].
    unfold to_dict, response_of. cbn [r_error r_id r_jsonrpc r_result truthy].
    rewrite Hn. reflexivity.
  - assert (Hk : key_in m (method_handlers rt tools) = Raise (unhashable m)).
    { destruct m; try discriminate Hh; reflexivity. }
    unfold handle_request. rewrite Hload, from_dict_dict, Hm, Hid.
    unfold _dispatch_method. cbn [method]. rewrite Hk.
    rewrite bind_lift_raise, bind_raise.
    destruct m; try discriminate Hh; reflexivity.
Qed.

Lemma unknown_method_error_witness :
  handle_request ascii_runtime []
    (VDict [(py "jsonrpc", VStr (py "2.0")); (py "method", VStr (py "resources/list"));
            (py "id", VInt 7)])
  = ([], Ok (Some [(py "jsonrpc", VStr (py "2.0"));
                   (py "error",
                    VDict [(py "code", VInt (-32601));
                           (py "message",
                            VStr (py "Method not found: " ++ py "resources/list"))]);
                   (py "id", VInt 7)])) /\
  contains (py "resources/list") (py "Method not found: " ++ py "resources/list") = true.
Proof.
  apply (proj1 (@unknown_method_error ascii_runtime []
                  (VDict [(py "jsonrpc", VStr (py "2.0"));
                          (py "method", VStr (py "resources/list"));
                          (py "id", VInt 7)])
                  [(py "jsonrpc", VStr (py "2.0")); (py "method", VStr (py "resources/list"));
                   (py "id", VInt 7)]
                  (VStr (py "resources/list")) (VInt 7)
                  eq_refl eq_refl
                  ltac:(vm_compute; intros s H;
                        repeat (destruct H as [H|H]; [subst s; discriminate|]);
                        destruct H)
                  eq_refl ltac:(discriminate))).
  reflexivity.
Defined.

(** A request with an [id] whose method is a list: the response is not the
    error [-32601] and does not carry the [id]. *)
Lemma list_method_is_internal_error :
  handle_request ascii_runtime []
    (VDict [(py "jsonrpc", VStr (py "2.0")); (py "method", VList []); (py "id", VInt 1)])
  = ([], Ok (Some [(py "jsonrpc", VStr (py "2.0"));
                   (py "error",
                    VDict [(py "code", VInt (-32603));
                           (py "message", VStr (py "Internal error"));
                           (py "data", VStr (py "unhashable type: 'list'"))])])).
Proof. reflexivity. Qed.

(** C5. A serialized response holds exactly one of the keys [result] and
    [error], whatever the response object holds in the two fields: [error]
    when the error field is truthy, [result] otherwise. This covers every
    response that [handle_request] hands back. *)
Theorem response_has_result_xor_error :
  (forall self : JSONRPCResponse,
      dict_has (py "error") (to_dict self) = truthy (r_error self) /\
      dict_has (py "result") (to_dict self) = negb (truthy (r_error self))) /\
  (forall rt tools request_data resp,
      outcome (handle_request rt tools request_data) = Ok (Some resp) ->
      dict_has (py "result") resp = negb (dict_has (py "error") resp)).
Proof.
  assert (H : forall self : JSONRPCResponse,
             dict_has (py "error") (to_dict self) = truthy (r_error self) /\
             dict_has (py "result") (to_dict self) = negb (truthy (r_error self))).
  { intros self. unfold to_dict.
    destruct (truthy (r_error self)), (is_none (r_id self)); split; reflexivity. }
  split; [exact H|].
  intros rt tools request_data resp Hr.
  destruct (handle_request_serialized _ _ _ Hr) as [response ->].
  destruct (H response) as [-> ->]. reflexivity.
Qed.

Lemma response_has_result_xor_error_witness :
  outcome (handle_request ascii_runtime []
             (VDict [(py "method", VStr (py "server/info")); (py "id", VInt 3)]))
  = Ok (Some [(py "jsonrpc", VStr (py "2.0"));
              (py "result", VDict (get_server_info []));
              (py "id", VInt 3)]) /\
  dict_has (py "result")
    [(py "jsonrpc", VStr (py "2.0")); (py "result", VDict (get_server_info []));
     (py "id", VInt 3)]
  = negb (dict_has (py "error")
            [(py "jsonrpc", VStr (py "2.0")); (py "result", VDict (get_server_info []));
             (py "id", VInt 3)]).
Proof.
  assert (H : outcome (handle_request ascii_runtime []
                         (VDict [(py "method", VStr (py "server/info")); (py "id", VInt 3)]))
              = Ok (Some [(py "jsonrpc", VStr (py "2.0"));
                          (py "result", VDict (get_server_info []));
                          (py "id", VInt 3)])) by reflexivity.
  exact (conj H (proj2 response_has_result_xor_error ascii_runtime [] _ _ H)).
Defined.

(** C10. The responses of the two structural paths carry no [id] key: the
    parse error (code [-32700]) of a text that does not decode, and the
    invalid request (code [-32600]) of a mapping without [method], whether
    or not that mapping holds an [id]. *)
Theorem structural_errors_carry_no_id (rt : runtime) (tools : registry) :
  (forall text e,
      json_loads rt text = Raise e ->
      exn_cls e = JSONDecodeError ->
      exists resp,
        handle_request rt tools (VStr text) = ([], Ok (Some resp)) /\
        error_code resp = Some (VInt (-32700)) /\
        dict_has (py "id") resp = false) /\
  (forall request_data d,
      load_request rt request_data = Ok (VDict d) ->
      dict_lookup (py "method") d = None ->
      exists resp,
        handle_request rt tools request_data = ([], Ok (Some resp)) /\
        error_code resp = Some (VInt (-32600)) /\
        dict_has (py "id") resp = false).
Proof.
  split.
  - intros text e Hl He. unfold handle_request. cbn [load_request].
    rewrite Hl, He. cbn [ret try_except].
    eexists. split; [reflexivity|].
    unfold _create_error_response. destruct (truthy (VStr (exn_str e))); split; reflexivity.
  - intros request_data d Hload Hm. unfold handle_request.
    rewrite Hload, from_dict_dict, Hm. cbn [key_error exn_cls ret try_except].
    eexists. split; [reflexivity|]. split; reflexivity.
Qed.

Lemma structural_errors_carry_no_id_witness :
  exists resp,
    handle_request ascii_runtime []
      (VDict [(py "jsonrpc", VStr (py "2.0")); (py "id", VInt 7)])
    = ([], Ok (Some resp)) /\
    error_code resp = Some (VInt (-32600)) /\
    dict_has (py "id") resp = false.
Proof.
  apply (proj2 (structural_errors_carry_no_id ascii_runtime [])
               (VDict [(py "jsonrpc", VStr (py "2.0")); (py "id", VInt 7)])
               [(py "jsonrpc", VStr (py "2.0")); (py "id", VInt 7)]).
  - reflexivity.
  - reflexivity.
Defined.

End Protocol.

(** ** The registry and the dispatcher *)

Module RegistryFacts.
Import Server StrFacts MonadFacts EngineFacts.

Lemma key_in_true V (key : pyval) (d : list (pystr * V)) :
  key_in key d = Ok true -> exists s, key = VStr s /\ dict_has s d = true.
Proof.
  destruct key; cbn; intros H; try discriminate.
  injection H as H. eauto.
Qed.

Section Dispatcher.
Variable rt : runtime.
Variable tools : registry.

(** [_handle_call_tool] calls [execute] at most once, and only under a
    name that is a key of the registry. *)
Lemma call_tool_trace (params : pyval) :
  trace (_handle_call_tool rt tools params) = [] \/
  exists s arguments,
    trace (_handle_call_tool rt tools params) = [Executed (VStr s) arguments] /\
    dict_has s tools = true.
Proof.
  unfold _handle_call_tool.
  destruct (py_in (py "name") params) as [[|]|e]; [|now left|now left].
  rewrite bind_lift_ok. cbn [negb].
  destruct (py_subscript params (py "name")) as [tool_name|e]; [|now left].
  rewrite bind_lift_ok.
  destruct (py_get params (py "arguments") (VDict [])) as [tool_params|e]; [|now left].
  rewrite bind_lift_ok.
  destruct (key_in tool_name tools) as [[|]|e] eqn:Ek; [|now left|now left].
  rewrite bind_lift_ok. cbn [negb].
  destruct (key_in_true _ _ Ek) as (s & -> & Hs).
  rewrite trace_try_except.
  destruct (key_get rt (VStr s) tools) as [tool|e]; [|now left].
  rewrite bind_lift_ok. unfold emit. rewrite bind_ok. cbn [app trace fst outcome snd].
  right. exists s, tool_params. split; [|exact Hs].
  destruct (execute tool tool_params) as [result|e]; [|reflexivity].
  rewrite bind_lift_ok.
  destruct (json_dumps rt result); reflexivity.
Qed.

Lemma dispatch_trace (request : JSONRPCRequest) :
  trace (_dispatch_method rt tools request) = [] \/
  exists s arguments,
    trace (_dispatch_method rt tools request) = [Executed (VStr s) arguments] /\
    dict_has s tools = true.
Proof.
  unfold _dispatch_method.
  destruct (key_in (method request) (method_handlers rt tools)) as [[|]|e] eqn:Ek;
    [|now left|now left].
  rewrite bind_lift_ok. cbn [negb].
  destruct (key_in_true _ _ Ek) as (m & Hm & _). rewrite Hm.
  rewrite trace_try_except.
  match goal with |- context [outcome ?b] => set (body := b) end.
  assert (Hb : trace body = [] \/
               exists s arguments,
                 trace body = [Executed (VStr s) arguments] /\ dict_has s tools = true).
  { subst body. cbn [key_get]. unfold method_handlers. cbn [dict_lookup].
    repeat match goal with
           | |- context [if ?c then _ else _] => destruct c
           end;
      rewrite ?bind_lift_ok; try (now left);
      rewrite trace_bind.
    - unfold _handle_initialize.
      match goal with |- context [py_get ?p ?k ?v] => destruct (py_get p k v) end;
        now left.
    - match goal with |- context [_handle_call_tool rt tools ?p] =>
        destruct (call_tool_trace p) as [E|(s & a & E & Hs)];
        rewrite E; destruct (outcome (_handle_call_tool rt tools p))
      end; cbn [app]; eauto. }
  destruct (outcome body); cbn [ret trace fst]; rewrite app_nil_r; exact Hb.
Qed.

Lemma handle_request_trace (request_data : pyval) :
  trace (handle_request rt tools request_data) = [] \/
  exists s arguments,
    trace (handle_request rt tools request_data) = [Executed (VStr s) arguments] /\
    dict_has s tools = true.
Proof.
  unfold handle_request. rewrite trace_try_except.
  match goal with |- context [outcome ?b] => set (body := b) end.
  assert (Hb : trace body = [] \/
               exists s arguments,
                 trace body = [Executed (VStr s) arguments] /\ dict_has s tools = true).
  { subst body.
    destruct (load_request rt request_data) as [request_dict|e];
      [|destruct (exn_cls e); now left].
    destruct (from_dict request_dict) as [request|e];
      [|destruct (exn_cls e); now left].
    rewrite trace_bind.
    destruct (dispatch_trace request) as [E|(s & a & E & Hs)]; rewrite E;
      destruct (outcome (_dispatch_method rt tools request));
      try destruct (is_notification request); cbn [app ret trace fst]; eauto. }
  destruct (outcome body); cbn [ret trace fst]; rewrite app_nil_r; exact Hb.
Qed.

(** Dispatch of [tools/call]: the handler's value becomes the result, its
    failure the [-32603] error. *)
Lemma dispatch_call_tool (version request_params request_id : pyval) :
  _dispatch_method rt tools
    {| jsonrpc := version; method := VStr (py "tools/call");
       params := request_params; id := request_id |}
  = (trace (_handle_call_tool rt tools
              (if truthy request_params then request_params else VDict [])),
     Ok (match outcome (_handle_call_tool rt tools
                          (if truthy request_params then request_params else VDict [])) with
         | Ok value => response_of value VNone request_id
         | Raise e =>
             response_of VNone
               (VDict [(py "code", VInt (-32603));
                       (py "message", VStr (py "Error executing tools/call"));
                       (py "data", VStr (exn_str e))])
               request_id
         end)).
Proof.
  unfold _dispatch_method. cbn [method params id].
  change (key_in (VStr (py "tools/call")) (method_handlers rt tools)) with (@Ok bool true).
  rewrite bind_lift_ok. cbn [negb].
  change (key_get rt (VStr (py "tools/call")) (method_handlers rt tools))
    with (Ok (_handle_call_tool rt tools)).
  rewrite bind_lift_ok.
  destruct (_handle_call_tool rt tools
              (if truthy request_params then request_params else VDict []))
    as [t [value|e]]; cbn; now rewrite !app_nil_r.
Qed.

(** The handler on parameters that do not name a key of the registry: it
    raises before any tool is looked up. *)
Lemma call_tool_refused (p : pyval) :
  (forall d s, p = VDict d -> dict_lookup (py "name") d = Some (VStr s) ->
               dict_has s tools = false) ->
  exists e, _handle_call_tool rt tools p = ([], Raise e).
Proof.
  intros Hp. unfold _handle_call_tool.
  destruct p as [| | | |s|l|d]; cbn [py_in]; try (eexists; reflexivity).
  - rewrite bind_lift_ok. destruct (contains (py "name") s); eexists; reflexivity.
  - rewrite bind_lift_ok.
    destruct (existsb _ l); eexists; reflexivity.
  - rewrite bind_lift_ok. unfold dict_has. cbn [py_subscript py_get].
    destruct (dict_lookup (py "name") d) as [n|] eqn:En; cbn [negb];
      [|eexists; reflexivity].
    rewrite !bind_lift_ok.
    destruct n as [| | | |s| |]; cbn [key_in]; try (eexists; reflexivity).
    rewrite (Hp d s eq_refl En). eexists. reflexivity.
Qed.

End Dispatcher.

(** The loop of [get_schema] appends to [required], in order, the names of
    the parameters whose [required] entry is truthy. *)
Lemma schema_loop_required (params : list param_def) (properties : pydict)
      (required : list pyval) :
  snd (fold_left schema_step params (properties, required))
  = required ++ map (fun p => VStr (p_name p))
                    (filter (fun p => get_truthy (p_required p)) params).
Proof.
  revert properties required.
  induction params as [|p ps IH]; intros properties required; cbn [fold_left filter map].
  - now rewrite app_nil_r.
  - unfold schema_step at 2. cbn iota. rewrite IH.
    destruct (get_truthy (p_required p)); cbn [map].
    + now rewrite <- app_assoc.
    + reflexivity.
Qed.

(** Assignment to a key: the key then maps to the value, the other keys
    are untouched, and the keys stay as they were but for a new one at the
    end. *)
Lemma dict_lookup_set_eq V (k : pystr) (v : V) (d : list (pystr * V)) :
  dict_lookup k (dict_set k v d) = Some v.
Proof.
  induction d as [|[k0 v0] d IH]; cbn [dict_set dict_lookup].
  - now rewrite str_eqb_refl.
  - destruct (str_eqb k k0) eqn:E; cbn [dict_lookup].
    + now rewrite str_eqb_refl.
    + now rewrite E.
Qed.

Lemma dict_lookup_set_ne V (k k' : pystr) (v : V) (d : list (pystr * V)) :
  k' <> k -> dict_lookup k' (dict_set k v d) = dict_lookup k' d.
Proof.
  intros Hne. apply str_eqb_neq in Hne.
  induction d as [|[k0 v0] d IH]; cbn [dict_set dict_lookup].
  - now rewrite Hne.
  - destruct (str_eqb k k0) eqn:E; cbn [dict_lookup].
    + apply str_eqb_eq in E. subst k0. now rewrite Hne.
    + now rewrite IH.
Qed.

Lemma dict_set_keys V (k : pystr) (v : V) (d : list (pystr * V)) :
  map fst (dict_set k v d)
  = if dict_has k d then map fst d else map fst d ++ [k].
Proof.
  unfold dict_has.
  induction d as [|[k0 v0] d IH]; cbn [dict_set dict_lookup map fst app]; [reflexivity|].
  destruct (str_eqb k k0) eqn:E; cbn [map fst].
  - apply str_eqb_eq in E. now subst k0.
  - rewrite IH. now destruct (dict_lookup k d).
Qed.

Lemma dict_has_keys V (k : pystr) (d : list (pystr * V)) :
  dict_has k d = true <-> In k (map fst d).
Proof.
  unfold dict_has.
  induction d as [|[k0 v0] d IH]; cbn [dict_lookup map fst In].
  - split; [discriminate|contradiction].
  - destruct (str_eqb k k0) eqn:E.
    + apply str_eqb_eq in E. split; auto.
    + apply str_eqb_neq in E. rewrite IH. split; [auto|].
      intros [H|H]; [congruence|exact H].
Qed.

End RegistryFacts.

Module Registry.
Import Server StrFacts MonadFacts EngineFacts RegistryFacts.

(** C6. Whatever the request, [execute] is called only under a name that
    is a string and a key of the registry. Every other [tools/call] runs no
    tool and is answered with code [-32603]. The [data] of the error says
    that the parameter is missing when [params] is falsy or does not
    contain [name], and that the tool was not found when the name is a
    hashable value that is not a key. When the name cannot be hashed, or
    [params] is a truthy value that is not a mapping and lets the test for
    [name] through or fail, the [data] is the text of the [TypeError]. *)
Theorem call_tool_fails_closed (rt : runtime) (tools : registry) :
  (forall request_data tool_name arguments,
      In (Executed tool_name arguments) (trace (handle_request rt tools request_data)) ->
      exists s, tool_name = VStr s /\ dict_has s tools = true) /\
  (forall version request_params request_id,
      (forall d s, request_params = VDict d ->
                   dict_lookup (py "name") d = Some (VStr s) ->
                   dict_has s tools = false) ->
      exists data,
        _dispatch_method rt tools
          {| jsonrpc := version; method := VStr (py "tools/call");
             params := request_params; id := request_id |}
        = ([], Ok (response_of VNone
                     (VDict [(py "code", VInt (-32603));
                             (py "message", VStr (py "Error executing tools/call"));
                             (py "data", VStr data)])
                     request_id))) /\
  (forall version request_params request_id,
      truthy request_params = false \/ py_in (py "name") request_params = Ok false ->
      _dispatch_method rt tools
        {| jsonrpc := version; method := VStr (py "tools/call");
           params := request_params; id := request_id |}
      = ([], Ok (response_of VNone
                   (VDict [(py "code", VInt (-32603));
                           (py "message", VStr (py "Error executing tools/call"));
                           (py "data", VStr (py "Missing required parameter: name"))])
                   request_id))) /\
  (forall version d n request_id,
      dict_lookup (py "name") d = Some n ->
      hashable n = true ->
      (forall s, n = VStr s -> dict_has s tools = false) ->
      _dispatch_method rt tools
        {| jsonrpc := version; method := VStr (py "tools/call");
           params := VDict d; id := request_id |}
      = ([], Ok (response_of VNone
                   (VDict [(py "code", VInt (-32603));
                           (py "message", VStr (py "Error executing tools/call"));
                           (py "data", VStr (py "Tool not found: " ++ py_str rt n))])
                   request_id))) /\
  (forall version d n request_id,
      dict_lookup (py "name") d = Some n ->
      hashable n = false ->
      _dispatch_method rt tools
        {| jsonrpc := version; method := VStr (py "tools/call");
           params := VDict d; id := request_id |}
      = ([], Ok (response_of VNone
                   (VDict [(py "code", VInt (-32603));
                           (py "message", VStr (py "Error executing tools/call"));
                           (py "data",
                            VStr (py "unhashable type: '" ++ type_name n ++ py "'"))])
                   request_id))) /\
  (forall version request_params request_id,
      truthy request_params = true ->
      (forall d, request_params <> VDict d) ->
      py_in (py "name") request_params <> Ok false ->
      exists e,
        exn_cls e = TypeError /\
        (py_in (py "name") request_params = Raise e \/
         py_subscript request_params (py "name") = Raise e) /\
        _dispatch_method rt tools
          {| jsonrpc := version; method := VStr (py "tools/call");
             params := request_params; id := request_id |}
        = ([], Ok (response_of VNone
                     (VDict [(py "code", VInt (-32603));
                             (py "message", VStr (py "Error executing tools/call"));
                             (py "data", VStr (exn_str e))])
                     request_id))).
Proof.
  split; [|split; [|split; [|split; [|split]]]].
  - intros request_data tool_name arguments Hin.
    destruct (handle_request_trace rt tools request_data) as [E|(s & a & E & Hs)];
      rewrite E in Hin; cbn [In] in Hin.
    + contradiction.
    + destruct Hin as [[= <- _]|[]]. eauto.
  - intros version request_params request_id Hp.
    rewrite dispatch_call_tool.
    destruct (@call_tool_refused rt tools
                (if truthy request_params then request_params else VDict []))
      as [e ->].
    + intros d s Hd Hs.
      destruct (truthy request_params).
      * exact (Hp d s Hd Hs).
      * injection Hd as <-. discriminate Hs.
    + exists (exn_str e). reflexivity.
  - intros version request_params request_id Hp.
    rewrite dispatch_call_tool.
    assert (Hcall : _handle_call_tool rt tools
                      (if truthy request_params then request_params else VDict [])
                    = raise ValueError (py "Missing required parameter: name")).
    { unfold _handle_call_tool.
      destruct (truthy request_params) eqn:Et.
      - destruct Hp as [Hp|Hp]; [discriminate|]. rewrite Hp. reflexivity.
      - reflexivity. }
    rewrite Hcall. reflexivity.
  - intros version d n request_id Hd Hh Hs.
    rewrite dispatch_call_tool.
    assert (Hcall : _handle_call_tool rt tools (if truthy (VDict d) then VDict d else VDict [])
                    = raise ValueError (py "Tool not found: " ++ py_str rt n)).
    { destruct d as [|kv d']; [discriminate|]. cbn [truthy].
      unfold _handle_call_tool. cbn [py_in py_subscript py_get]. unfold dict_has.
      rewrite Hd. rewrite !bind_lift_ok. cbn [negb].
      destruct n as [| | | |s| |]; try discriminate Hh; cbn [key_in];
        rewrite ?(Hs _ eq_refl); reflexivity. }
    rewrite Hcall. reflexivity.
  - intros version d n request_id Hd Hh.
    rewrite dispatch_call_tool.
    assert (Hcall : _handle_call_tool rt tools (if truthy (VDict d) then VDict d else VDict [])
                    = lift (Raise (unhashable n))).
    { destruct d as [|kv d']; [discriminate|]. cbn [truthy].
      unfold _handle_call_tool. cbn [py_in py_subscript py_get]. unfold dict_has.
      rewrite Hd. rewrite !bind_lift_ok. cbn [negb].
      destruct n; try discriminate Hh; reflexivity. }
    rewrite Hcall. reflexivity.
  - intros version request_params request_id Ht Hd Hin.
    rewrite dispatch_call_tool, Ht. unfold _handle_call_tool.
    destruct request_params as [|b|z|f|s|l|d]; cbn [py_in] in Hin |- *;
      try (eexists; split; [|split; [left; reflexivity|reflexivity]]; reflexivity).
    + destruct (contains (py "name") s); [|congruence].
      eexists. split; [|split; [right; reflexivity|reflexivity]]. reflexivity.
    + destruct (existsb _ l); [|congruence].
      eexists. split; [|split; [right; reflexivity|reflexivity]]. reflexivity.
    + exfalso. exact (Hd d eq_refl).
Qed.

Lemma call_tool_fails_closed_witness :
  dict_lookup (py "name") [(py "name", VStr (py "nonexistent_tool"))]
  = Some (VStr (py "nonexistent_tool")) /\
  dict_has (py "nonexistent_tool") (@nil (pystr * MCPTool)) = false /\
  _dispatch_method ascii_runtime []
    {| jsonrpc := VStr (py "2.0"); method := VStr (py "tools/call");
       params := VDict [(py "name", VStr (py "nonexistent_tool"))]; id := VInt 1 |}
  = ([], Ok (response_of VNone
               (VDict [(py "code", VInt (-32603));
                       (py "message", VStr (py "Error executing tools/call"));
                       (py "data", VStr (py "Tool not found: " ++ py "nonexistent_tool"))])
               (VInt 1))).
Proof.
  assert (H1 : dict_lookup (py "name") [(py "name", VStr (py "nonexistent_tool"))]
               = Some (VStr (py "nonexistent_tool"))) by reflexivity.
  assert (H2 : dict_has (py "nonexistent_tool") (@nil (pystr * MCPTool)) = false)
    by reflexivity.
  exact (conj H1 (conj H2
          (proj1 (proj2 (proj2 (proj2 (call_tool_fails_closed ascii_runtime []))))
                 (VStr (py "2.0")) _ _ (VInt 1) H1 eq_refl (fun _ _ => eq_refl)))).
Defined.

(** Two [tools/call] requests that run no tool and whose error names
    neither a tool that was not found nor a missing parameter: a name that
    is a list, and parameters that are a string containing "name". *)
Lemma tools_call_type_errors :
  handle_request ascii_runtime []
    (VDict [(py "jsonrpc", VStr (py "2.0")); (py "method", VStr (py "tools/call"));
            (py "params", VDict [(py "name", VList [])]); (py "id", VInt 1)])
  = ([], Ok (Some [(py "jsonrpc", VStr (py "2.0"));
                   (py "error",
                    VDict [(py "code", VInt (-32603));
                           (py "message", VStr (py "Error executing tools/call"));
                           (py "data", VStr (py "unhashable type: 'list'"))]);
                   (py "id", VInt 1)])) /\
  handle_request ascii_runtime []
    (VDict [(py "jsonrpc", VStr (py "2.0")); (py "method", VStr (py "tools/call"));
            (py "params", VStr (py "my name")); (py "id", VInt 1)])
  = ([], Ok (Some [(py "jsonrpc", VStr (py "2.0"));
                   (py "error",
                    VDict [(py "code", VInt (-32603));
                           (py "message", VStr (py "Error executing tools/call"));
                           (py "data",
                            VStr (py "string indices must be integers, not 'str'"))]);
                   (py "id", VInt 1)])).
Proof. split; reflexivity. Qed.

(** C9. The result of [tools/list] holds one descriptor per entry of the
    registry, in the registry's order, and the [required] list of each
    descriptor holds exactly the names of the tool's parameters whose
    [required] entry is present and true; a parameter without the entry, or
    with [False] there, adds nothing. *)
Theorem tools_list_describes_registry (rt : runtime) (tools : registry) :
  (forall version request_params request_id,
      exists descriptors,
        _dispatch_method rt tools
          {| jsonrpc := version; method := VStr (py "tools/list");
             params := request_params; id := request_id |}
        = ([], Ok (response_of (VDict [(py "tools", VList descriptors)]) VNone request_id)) /\
        List.length descriptors = List.length tools /\
        forall i key tool,
          nth_error tools i = Some (key, tool) ->
          exists properties required,
            nth_error descriptors i
            = Some (VDict [(py "name", VStr (name tool));
                           (py "description", VStr (description tool));
                           (py "inputSchema",
                            VDict [(py "type", VStr (py "object"));
                                   (py "properties", VDict properties);
                                   (py "required", VList required)])]) /\
            required = map (fun p => VStr (p_name p))
                           (filter (fun p => get_truthy (p_required p)) (parameters tool)) /\
            forall n, In (VStr n) required <->
                      exists p v, In p (parameters tool) /\ p_name p = n /\
                                  p_required p = Some v /\ truthy v = true) /\
  get_truthy None = false /\
  get_truthy (Some (VBool false)) = false /\
  get_truthy (Some (VBool true)) = true.
Proof.
  split; [|repeat split].
  intros version request_params request_id. exists (list_tools tools).
  split; [|split].
  - unfold _dispatch_method. cbn [method params id].
    change (key_in (VStr (py "tools/list")) (method_handlers rt tools)) with (@Ok bool true).
    rewrite bind_lift_ok. cbn [negb].
    change (key_get rt (VStr (py "tools/list")) (method_handlers rt tools))
      with (Ok (_handle_list_tools tools)).
    rewrite bind_lift_ok. reflexivity.
  - unfold list_tools. apply length_map.
  - intros i key tool Hi. unfold list_tools.
    rewrite nth_error_map, Hi. cbn [option_map snd].
    unfold get_schema.
    destruct (fold_left schema_step (parameters tool) ([], []))
      as [properties required] eqn:Ef.
    assert (Hreq : required
                   = map (fun p => VStr (p_name p))
                         (filter (fun p => get_truthy (p_required p)) (parameters tool)))
      by exact (eq_trans (f_equal snd (eq_sym Ef)) (schema_loop_required _ [] [])).
    exists properties, required.
    split; [reflexivity|]. split; [exact Hreq|].
    intros n. rewrite Hreq, in_map_iff. split.
    + intros (p & [= <-] & Hp). apply filter_In in Hp. destruct Hp as [Hp Ht].
      unfold get_truthy in Ht. destruct (p_required p) as [v|] eqn:Ev; [|discriminate].
      exists p, v. auto.
    + intros (p & v & Hp & <- & Ev & Ht). exists p. split; [reflexivity|].
      apply filter_In. split; [exact Hp|]. unfold get_truthy. now rewrite Ev.
Qed.

Lemma tools_list_describes_registry_witness :
  exists descriptors properties,
    _dispatch_method ascii_runtime
      (register_tool (App.neo4j_query_tool ascii_runtime None) [])
      {| jsonrpc := VStr (py "2.0"); method := VStr (py "tools/list");
         params := VNone; id := VInt 2 |}
    = ([], Ok (response_of (VDict [(py "tools", VList descriptors)]) VNone (VInt 2))) /\
    List.length descriptors = 1 /\
    nth_error descriptors 0
    = Some (VDict [(py "name", VStr (py "neo4j_query"));
                   (py "description",
                    VStr (description (App.neo4j_query_tool ascii_runtime None)));
                   (py "inputSchema",
                    VDict [(py "type", VStr (py "object"));
                           (py "properties", VDict properties);
                           (py "required", VList [VStr (py "cypher_query")])])]).
Proof.
  destruct (proj1 (tools_list_describes_registry ascii_runtime
                     (register_tool (App.neo4j_query_tool ascii_runtime None) []))
                  (VStr (py "2.0")) VNone (VInt 2))
    as (descriptors & Hd & Hlen & Hnth).
  destruct (Hnth 0 (py "neo4j_query") (App.neo4j_query_tool ascii_runtime None) eq_refl)
    as (properties & required & Hn & Hreq & _).
  exists descriptors, properties. split; [exact Hd|]. split; [exact Hlen|].
  rewrite Hn, Hreq. reflexivity.
Defined.

(** Registering a second tool under the name of a first one keeps the
    keys of the registry as they were, unique if they were unique, and
    leaves the second tool under the name; on an empty registry [tools/list]
    then describes the second tool only. *)
Theorem register_same_name_keeps_one (first second : MCPTool) (tools : registry) :
  name first = name second ->
  dict_lookup (name second) (register_tool second (register_tool first tools))
  = Some second /\
  map fst (register_tool second (register_tool first tools))
  = map fst (register_tool first tools) /\
  (NoDup (map fst tools) ->
   NoDup (map fst (register_tool second (register_tool first tools)))) /\
  list_tools (register_tool second (register_tool first [])) = [get_schema second].
Proof.
  intros Hname. unfold register_tool.
  assert (Hkeys : map fst (dict_set (name second) second (dict_set (name first) first tools))
                  = map fst (dict_set (name first) first tools)).
  { rewrite dict_set_keys.
    assert (H : dict_has (name second) (dict_set (name first) first tools) = true).
    { unfold dict_has. now rewrite <- Hname, dict_lookup_set_eq. }
    now rewrite H. }
  split; [apply dict_lookup_set_eq|]. split; [exact Hkeys|]. split.
  - intros Hnd. rewrite Hkeys, dict_set_keys.
    destruct (dict_has (name first) tools) eqn:Eh; [exact Hnd|].
    apply NoDup_app; [exact Hnd|repeat constructor; intros []|].
    intros k Hk [<-|[]]. apply dict_has_keys in Hk. congruence.
  - cbn [dict_set]. rewrite <- Hname, str_eqb_refl. reflexivity.
Qed.

Lemma register_same_name_keeps_one_witness :
  dict_lookup (py "neo4j_query")
    (register_tool (App.neo4j_query_tool ascii_runtime (Some (fun _ => Ok [])))
       (register_tool (App.neo4j_query_tool ascii_runtime None) []))
  = Some (App.neo4j_query_tool ascii_runtime (Some (fun _ => Ok []))) /\
  List.length
    (register_tool (App.neo4j_query_tool ascii_runtime (Some (fun _ => Ok [])))
       (register_tool (App.neo4j_query_tool ascii_runtime None) []))
  = 1.
Proof.
  split; [|reflexivity].
  exact (proj1 (@register_same_name_keeps_one
                  (App.neo4j_query_tool ascii_runtime None)
                  (App.neo4j_query_tool ascii_runtime (Some (fun _ => Ok [])))
                  [] eq_refl)).
Defined.

End Registry.

(** ** Calls of a registered tool, end to end *)

Module Scenarios.
Import Server StrFacts MonadFacts EngineFacts RegistryFacts.

(** A [tools/call] under a registered name runs that tool once, on
    [params.arguments], and wraps what it yields: the serialized result as
    one text block, or the failure as the [data] of a [-32603] error. *)
Lemma call_registered_tool
      (rt : runtime) (tools : registry) (version : pyval) (d : pydict) (s : pystr)
      (tool : MCPTool) (request_id : pyval) :
  dict_lookup (py "name") d = Some (VStr s) ->
  dict_lookup s tools = Some tool ->
  _dispatch_method rt tools
    {| jsonrpc := version; method := VStr (py "tools/call");
       params := VDict d; id := request_id |}
  = ([Executed (VStr s)
        (match dict_lookup (py "arguments") d with Some v => v | None => VDict [] end)],
     Ok (match
            match execute tool
                    (match dict_lookup (py "arguments") d with
                     | Some v => v
                     | None => VDict []
                     end) with
            | Ok result => json_dumps rt result
            | Raise e => Raise e
            end
          with
          | Ok text =>
              response_of
                (VDict [(py "content",
                         VList [VDict [(py "type", VStr (py "text"));
                                       (py "text", VStr text)]])])
                VNone request_id
          | Raise e =>
              response_of VNone
                (VDict [(py "code", VInt (-32603));
                        (py "message", VStr (py "Error executing tools/call"));
                        (py "data", VStr (py "Tool execution failed: " ++ exn_str e))])
                request_id
          end)).
Proof.
  intros Hn Ht.
  assert (Hcall :
            _handle_call_tool rt tools (if truthy (VDict d) then VDict d else VDict [])
            = ([Executed (VStr s)
                  (match dict_lookup (py "arguments") d with Some v => v | None => VDict [] end)],
               match
                 match execute tool
                         (match dict_lookup (py "arguments") d with
                          | Some v => v
                          | None => VDict []
                          end) with
                 | Ok result => json_dumps rt result
                 | Raise e => Raise e
                 end
               with
               | Ok text =>
                   Ok (VDict [(py "content",
                               VList [VDict [(py "type", VStr (py "text"));
                                             (py "text", VStr text)]])])
               | Raise e =>
                   Raise (mkExn Exception_ (py "Tool execution failed: " ++ exn_str e))
               end)).
  { destruct d as [|kv d']; [discriminate|]. cbn [truthy].
    unfold _handle_call_tool. cbn [py_in py_subscript py_get]. unfold dict_has.
    rewrite Hn, !bind_lift_ok. cbn [negb key_in]. unfold dict_has. rewrite Ht.
    rewrite bind_lift_ok. cbn [negb key_get]. rewrite Ht, bind_lift_ok.
    unfold emit. rewrite bind_ok. cbn [app].
    destruct (execute tool _) as [result|e]; [|reflexivity].
    rewrite bind_lift_ok. destruct (json_dumps rt result); reflexivity. }
  unfold _dispatch_method. cbn [method params id].
  change (key_in (VStr (py "tools/call")) (method_handlers rt tools)) with (@Ok bool true).
  rewrite bind_lift_ok. cbn [negb].
  change (key_get rt (VStr (py "tools/call")) (method_handlers rt tools))
    with (Ok (_handle_call_tool rt tools)).
  rewrite bind_lift_ok, Hcall.
  destruct (execute tool _) as [result|e]; [|reflexivity].
  destruct (json_dumps rt result); reflexivity.
Qed.

End Scenarios.

(** ** The query tool, path by path *)

Module ToolFacts.
Import QueryTool StrFacts MonadFacts GateFacts LimitFacts.

Lemma dropwhile_all (f : N -> bool) (s : pystr) :
  dropwhile f s = [] <-> forallb f s = true.
Proof.
  induction s as [|c s IH]; cbn [dropwhile forallb]; [tauto|].
  destruct (f c); cbn [andb]; [exact IH|]. split; discriminate.
Qed.

(** A string strips to nothing exactly when it is made of whitespace. *)
Lemma strip_blank (s : pystr) : strip s = [] <-> forallb isspace s = true.
Proof.
  unfold strip, rstrip_by. split.
  - intros H. apply dropwhile_all.
    destruct (dropwhile_split isspace s) as (run & _ & _ & Hstop).
    destruct (dropwhile isspace s) as [|c t] eqn:Ed; [reflexivity|].
    exfalso. specialize (Hstop c t eq_refl).
    apply (f_equal (@rev N)) in H. rewrite rev_involutive in H. cbn [rev] in H.
    apply dropwhile_all in H. rewrite forallb_forall in H.
    assert (Hin : In c (rev (c :: t))) by (apply in_rev; rewrite rev_involutive; now left).
    apply H in Hin. congruence.
  - intros H. apply dropwhile_all in H. now rewrite H.
Qed.

Lemma truthy_str (s : pystr) : s <> [] -> truthy (VStr s) = true.
Proof. destruct s; [congruence|reflexivity]. Qed.

Section Paths.
Variable rt : runtime.
Variable drv : driver.
Variable d : pydict.
Variable q : pystr.
Hypothesis Hquery : dict_lookup (py "cypher_query") d = Some (VStr q).
Hypothesis Hfilled : strip q <> [].

(** The limit and the plan flag the call works with. *)
Let limit := match dict_lookup (py "limit") d with Some v => v | None => VInt 100 end.
Let plan := match dict_lookup (py "include_query_plan") d with
            | Some v => v
            | None => VBool false
            end.

Hypothesis Hlimit : limit_rejected limit = false.

(** A query that the gate refuses: nothing else happens. *)
Lemma execute_refused (e : exn) :
  _validate_query rt (strip q) = Raise e ->
  execute rt drv (VDict d)
  = ([], Raise (mkExn ValueError (py "Query execution failed: " ++ exn_str e))).
Proof.
  intros Hv. unfold execute. cbn [py_get]. rewrite Hquery. cbn [py_strip].
  rewrite !bind_lift_ok, (truthy_str Hfilled). cbn [negb].
  fold limit. rewrite Hlimit, Hv. reflexivity.
Qed.

Hypothesis Hvalid : _validate_query rt (strip q) = Ok tt.

(** Without a connection the query is not sent. *)
Lemma execute_disconnected :
  drv = None ->
  execute rt drv (VDict d)
  = ([], Raise (mkExn ValueError (py "Query execution failed: " ++ not_connected_message))).
Proof.
  intros ->. unfold execute. cbn [py_get]. rewrite Hquery. cbn [py_strip].
  rewrite !bind_lift_ok, (truthy_str Hfilled). cbn [negb].
  fold limit. rewrite Hlimit, Hvalid. reflexivity.
Qed.

(** The driver fails on the query. *)
Lemma execute_driver_failure (run : pystr -> result (list pyval)) (e : exn) :
  drv = Some run ->
  run (apply_limit rt (strip q) limit) = Raise e ->
  execute rt drv (VDict d)
  = ([Ran (apply_limit rt (strip q) limit)],
     Raise (mkExn ValueError
              (py "Query execution failed: " ++ py "Query execution failed: " ++ exn_str e))).
Proof.
  intros -> Hrun. unfold execute. cbn [py_get]. rewrite Hquery. cbn [py_strip].
  rewrite !bind_lift_ok, (truthy_str Hfilled). cbn [negb].
  fold limit. rewrite Hlimit, Hvalid. unfold _execute_query.
  rewrite Hrun. reflexivity.
Qed.

(** The driver answers the query. *)
Lemma execute_driver_success (run : pystr -> result (list pyval)) (rows : list pyval) :
  drv = Some run ->
  run (apply_limit rt (strip q) limit) = Ok rows ->
  execute rt drv (VDict d)
  = (Ran (apply_limit rt (strip q) limit)
       :: (if truthy plan then [Ran (py "EXPLAIN " ++ strip q)] else []),
     Ok (VDict
           ([(py "database_type", VStr (py "PostgreSQL"));
             (py "storage_type", VStr (py "Neo4j"));
             (py "purpose", VStr (py "PostgreSQL schema exploration for SQL generation"));
             (py "query", VStr (strip q));
             (py "result_count", VInt (Z.of_nat (List.length rows)));
             (py "results", VList rows);
             (py "guidance", guidance)]
            ++ (if truthy plan
                then [match run (py "EXPLAIN " ++ strip q) with
                      | Ok plan_rows => (py "query_plan", VList plan_rows)
                      | Raise e =>
                          (py "query_plan_error",
                           VStr (py "Query execution failed: " ++ exn_str e))
                      end]
                else [])))).
Proof.
  intros -> Hrun. unfold execute. cbn [py_get]. rewrite Hquery. cbn [py_strip].
  rewrite !bind_lift_ok, (truthy_str Hfilled). cbn [negb].
  fold limit plan. rewrite Hlimit, Hvalid. unfold _execute_query.
  rewrite Hrun. destruct (truthy plan).
  - change (apply_limit rt (py "EXPLAIN " ++ strip q) VNone)
      with (py "EXPLAIN " ++ strip q).
    destruct (run (py "EXPLAIN " ++ strip q)); reflexivity.
  - reflexivity.
Qed.

End Paths.

End ToolFacts.

Module ToolBehaviour.
Import QueryTool StrFacts MonadFacts GateFacts LimitFacts ToolFacts Fixtures.

(** A call without [cypher_query], or with one made of whitespace only, is
    refused with the "required" error before anything else is looked at:
    whatever the limit, nothing is validated and nothing is sent. *)
Theorem blank_query_is_required_error (rt : runtime) (drv : driver) (d : pydict) :
  dict_lookup (py "cypher_query") d = None \/
  (exists q, dict_lookup (py "cypher_query") d = Some (VStr q) /\
             forallb isspace q = true) ->
  execute rt drv (VDict d)
  = ([], Raise (mkExn ValueError (py "cypher_query parameter is required"))).
Proof.
  intros H. unfold execute. cbn [py_get].
  destruct H as [->|(q & -> & Hq)]; cbn [py_strip].
  - reflexivity.
  - apply strip_blank in Hq. rewrite Hq. reflexivity.
Qed.

Lemma blank_query_is_required_error_witness :
  execute ascii_runtime None
    (VDict [(py "cypher_query", VStr (py "   ")); (py "limit", VInt 5000)])
  = ([], Raise (mkExn ValueError (py "cypher_query parameter is required"))).
Proof.
  apply blank_query_is_required_error. right. exists (py "   ").
  split; reflexivity.
Defined.

(** A query that the gate refuses never reaches the driver: the call ends
    in a [ValueError] that carries the gate's message, with an empty trace.
    In particular, when the normalized text of the stripped query contains a
    deny-listed keyword, the message names such a keyword. *)
Theorem refused_query_never_reaches_driver
        (rt : runtime) (drv : driver) (d : pydict) (q : pystr) :
  dict_lookup (py "cypher_query") d = Some (VStr q) ->
  limit_rejected (match dict_lookup (py "limit") d with
                  | Some v => v
                  | None => VInt 100
                  end) = false ->
  (forall e,
      strip q <> [] ->
      _validate_query rt (strip q) = Raise e ->
      execute rt drv (VDict d)
      = ([], Raise (mkExn ValueError (py "Query execution failed: " ++ exn_str e)))) /\
  (forall keyword,
      In keyword dangerous_keywords ->
      contains keyword (normalize rt (strip q)) = true ->
      exists first,
        In first dangerous_keywords /\
        contains first (normalize rt (strip q)) = true /\
        execute rt drv (VDict d)
        = ([], Raise (mkExn ValueError
                        (py "Query execution failed: " ++ dangerous_message first)))).
Proof.
  intros Hq Hl. split.
  - intros e Hs Hv. eapply execute_refused; eassumption.
  - intros keyword Hin Hk.
    assert (Hs : strip q <> []).
    { intros E. rewrite E in Hk. vm_compute in Hin.
      repeat (destruct Hin as [<-|Hin]; [discriminate Hk|]). contradiction. }
    destruct (check_keywords_first dangerous_keywords _ _ Hin Hk)
      as (before & first & after & E & _ & Hf & Hc).
    exists first. split; [rewrite E; apply in_elt|]. split; [exact Hf|].
    change (dangerous_message first)
      with (exn_str (mkExn ValueError (dangerous_message first))).
    eapply execute_refused; try eassumption.
    unfold _validate_query. now rewrite Hc.
Qed.

Lemma refused_query_never_reaches_driver_witness :
  exists first,
    In first dangerous_keywords /\
    contains first (normalize ascii_runtime (strip (py " MATCH (n) SET n.x = 1 "))) = true /\
    execute ascii_runtime (Some (fun _ => Ok []))
      (VDict [(py "cypher_query", VStr (py " MATCH (n) SET n.x = 1 "))])
    = ([], Raise (mkExn ValueError
                    (py "Query execution failed: " ++ dangerous_message first))).
Proof.
  apply (proj2 (@refused_query_never_reaches_driver ascii_runtime (Some (fun _ => Ok []))
                  [(py "cypher_query", VStr (py " MATCH (n) SET n.x = 1 "))]
                  (py " MATCH (n) SET n.x = 1 ") eq_refl eq_refl)
               (py "SET")).
  - vm_compute. tauto.
  - reflexivity.
Defined.

(** A validated query that cannot be run: without a connection nothing is
    sent; when the driver raises, the text was sent once. Either way the
    call ends in a [ValueError] whose message wraps the cause, with the
    prefix of [_execute_query] inside the prefix of [execute]. *)
Theorem execution_failure_is_wrapped
        (rt : runtime) (drv : driver) (d : pydict) (q : pystr) :
  dict_lookup (py "cypher_query") d = Some (VStr q) ->
  strip q <> [] ->
  limit_rejected (match dict_lookup (py "limit") d with
                  | Some v => v
                  | None => VInt 100
                  end) = false ->
  _validate_query rt (strip q) = Ok tt ->
  (drv = None ->
   execute rt drv (VDict d)
   = ([], Raise (mkExn ValueError
                   (py "Query execution failed: " ++ not_connected_message)))) /\
  (forall run e,
      drv = Some run ->
      run (apply_limit rt (strip q)
             (match dict_lookup (py "limit") d with
              | Some v => v
              | None => VInt 100
              end)) = Raise e ->
      execute rt drv (VDict d)
      = ([Ran (apply_limit rt (strip q)
                 (match dict_lookup (py "limit") d with
                  | Some v => v
                  | None => VInt 100
                  end))],
         Raise (mkExn ValueError
                  (py "Query execution failed: " ++ py "Query execution failed: "
                      ++ exn_str e)))).
Proof.
  intros Hq Hs Hl Hv. split.
  - intros Hd. eapply execute_disconnected; eassumption.
  - intros run e Hd Hr. eapply execute_driver_failure; eassumption.
Qed.

Lemma execution_failure_is_wrapped_witness :
  execute ascii_runtime None (VDict [(py "cypher_query", VStr (py "RETURN 1"))])
  = ([], Raise (mkExn ValueError
                  (py "Query execution failed: " ++ not_connected_message))).
Proof.
  apply (proj1 (@execution_failure_is_wrapped ascii_runtime None
                  [(py "cypher_query", VStr (py "RETURN 1"))] (py "RETURN 1")
                  eq_refl ltac:(discriminate) eq_refl eq_refl)).
  reflexivity.
Defined.

(** A validated query that the driver answers: the text sent carries the
    limit; the payload echoes the stripped query, counts the rows and holds
    them. With [include_query_plan] truthy a second text, [EXPLAIN] and the
    stripped query without any limit, is sent; its rows are added as
    [query_plan], and its failure is not fatal: the payload then holds
    [query_plan_error] instead. *)
Theorem answered_query_payload
        (rt : runtime) (run : pystr -> result (list pyval)) (d : pydict)
        (q : pystr) (rows : list pyval) :
  dict_lookup (py "cypher_query") d = Some (VStr q) ->
  strip q <> [] ->
  limit_rejected (match dict_lookup (py "limit") d with
                  | Some v => v
                  | None => VInt 100
                  end) = false ->
  _validate_query rt (strip q) = Ok tt ->
  run (apply_limit rt (strip q)
         (match dict_lookup (py "limit") d with
          | Some v => v
          | None => VInt 100
          end)) = Ok rows ->
  execute rt (Some run) (VDict d)
  = (Ran (apply_limit rt (strip q)
            (match dict_lookup (py "limit") d with
             | Some v => v
             | None => VInt 100
             end))
       :: (if truthy (match dict_lookup (py "include_query_plan") d with
                      | Some v => v
                      | None => VBool false
                      end)
           then [Ran (py "EXPLAIN " ++ strip q)]
           else []),
     Ok (VDict
           ([(py "database_type", VStr (py "PostgreSQL"));
             (py "storage_type", VStr (py "Neo4j"));
             (py "purpose", VStr (py "PostgreSQL schema exploration for SQL generation"));
             (py "query", VStr (strip q));
             (py "result_count", VInt (Z.of_nat (List.length rows)));
             (py "results", VList rows);
             (py "guidance", guidance)]
            ++ (if truthy (match dict_lookup (py "include_query_plan") d with
                           | Some v => v
                           | None => VBool false
                           end)
                then [match run (py "EXPLAIN " ++ strip q) with
                      | Ok plan_rows => (py "query_plan", VList plan_rows)
                      | Raise e =>
                          (py "query_plan_error",
                           VStr (py "Query execution failed: " ++ exn_str e))
                      end]
                else [])))).
Proof.
  intros Hq Hs Hl Hv Hr. eapply execute_driver_success; try eassumption. reflexivity.
Qed.

Lemma answered_query_payload_witness :
  execute ascii_runtime (Some no_plan_driver)
    (VDict [(py "cypher_query", VStr (py "MATCH (n) RETURN count(n);"));
            (py "include_query_plan", VBool true)])
  = ([Ran (py "MATCH (n) RETURN count(n) LIMIT 100");
      Ran (py "EXPLAIN MATCH (n) RETURN count(n);")],
     Ok (VDict
           [(py "database_type", VStr (py "PostgreSQL"));
            (py "storage_type", VStr (py "Neo4j"));
            (py "purpose", VStr (py "PostgreSQL schema exploration for SQL generation"));
            (py "query", VStr (py "MATCH (n) RETURN count(n);"));
            (py "result_count", VInt 1);
            (py "results", VList [VDict [(py "count(n)", VInt 5)]]);
            (py "guidance", guidance);
            (py "query_plan_error", VStr (py "Query execution failed: no plan"))])).
Proof.
  exact (@answered_query_payload ascii_runtime no_plan_driver
           [(py "cypher_query", VStr (py "MATCH (n) RETURN count(n);"));
            (py "include_query_plan", VBool true)]
           (py "MATCH (n) RETURN count(n);") [VDict [(py "count(n)", VInt 5)]]
           eq_refl ltac:(discriminate) eq_refl eq_refl eq_refl).
Defined.

(** The ways a call with a query string can end. *)
Lemma execute_dict_cases (rt : runtime) (drv : driver) (d : pydict) (q : pystr) :
  dict_lookup (py "cypher_query") d = Some (VStr q) ->
  (exists msg, execute rt drv (VDict d) = ([], Raise (mkExn ValueError msg))) \/
  (_validate_query rt (strip q) = Ok tt /\
   exists main,
     main = apply_limit rt (strip q)
              (match dict_lookup (py "limit") d with
               | Some v => v
               | None => VInt 100
               end) /\
     ((exists msg, execute rt drv (VDict d) = ([Ran main], Raise (mkExn ValueError msg))) \/
      (exists payload,
          execute rt drv (VDict d) = ([Ran main], Ok (VDict payload)) \/
          execute rt drv (VDict d)
          = ([Ran main; Ran (py "EXPLAIN " ++ strip q)], Ok (VDict payload))))).
Proof.
  intros Hq.
  destruct (list_eq_dec N.eq_dec (strip q) []) as [Hs|Hs].
  { left. eexists. unfold execute. cbn [py_get]. rewrite Hq. cbn [py_strip].
    rewrite Hs. reflexivity. }
  destruct (limit_rejected (match dict_lookup (py "limit") d with
                            | Some v => v
                            | None => VInt 100
                            end)) eqn:Hl.
  { left. eexists. destruct (execute_with_query rt drv d Hq Hs) as [rest ->].
    rewrite Hl. reflexivity. }
  destruct (_validate_query rt (strip q)) as [[]|e] eqn:Hv.
  2:{ left. eexists. eapply execute_refused; eassumption. }
  destruct drv as [run|].
  2:{ left. eexists. eapply execute_disconnected; try eassumption. reflexivity. }
  right. split; [reflexivity|]. eexists. split; [reflexivity|].
  destruct (run (apply_limit rt (strip q)
                   (match dict_lookup (py "limit") d with
                    | Some v => v
                    | None => VInt 100
                    end))) as [rows|e] eqn:Hr.
  - right. rewrite (@execute_driver_success rt (Some run) d q Hq Hs Hl Hv run rows eq_refl Hr).
    destruct (truthy _); eexists; [right|left]; reflexivity.
  - left. eexists. eapply execute_driver_failure; try eassumption. reflexivity.
Qed.

(** With a mapping for parameters and a string (or nothing) for the query,
    a call that fails fails with a [ValueError]: the driver's errors and
    the gate's are all turned into the caller-input error. *)
Theorem execute_fails_only_with_value_error
        (rt : runtime) (drv : driver) (d : pydict) :
  dict_lookup (py "cypher_query") d = None \/
  (exists q, dict_lookup (py "cypher_query") d = Some (VStr q)) ->
  forall e, outcome (execute rt drv (VDict d)) = Raise e -> exn_cls e = ValueError.
Proof.
  intros [Hn|(q & Hq)] e.
  - unfold execute. cbn [py_get]. rewrite Hn. cbn. now intros [= <-].
  - destruct (execute_dict_cases rt drv d Hq)
      as [(msg & ->)|(_ & main & _ & [(msg & ->)|(payload & [-> | ->])])];
      cbn; intros [= <-] || discriminate; reflexivity.
Qed.

Lemma execute_fails_only_with_value_error_witness :
  outcome (execute ascii_runtime (Some failing_store)
             (VDict [(py "cypher_query", VStr (py "RETURN 1"))]))
  = Raise (mkExn ValueError
             (py "Query execution failed: " ++ py "Query execution failed: "
                 ++ py "unavailable")) /\
  exn_cls (mkExn ValueError
             (py "Query execution failed: " ++ py "Query execution failed: "
                 ++ py "unavailable"))
  = ValueError.
Proof.
  assert (H : outcome (execute ascii_runtime (Some failing_store)
                         (VDict [(py "cypher_query", VStr (py "RETURN 1"))]))
              = Raise (mkExn ValueError
                         (py "Query execution failed: " ++ py "Query execution failed: "
                             ++ py "unavailable"))) by reflexivity.
  refine (conj H (@execute_fails_only_with_value_error ascii_runtime (Some failing_store)
                    [(py "cypher_query", VStr (py "RETURN 1"))] _ _ H)).
  right. exists (py "RETURN 1"). reflexivity.
Defined.

(** Whatever the parameters, every text the tool sends to the driver comes
    from a query string that passed the gate: it is that query, stripped,
    with the limit applied, or [EXPLAIN] followed by that query. *)
Theorem driver_sees_only_validated_queries
        (rt : runtime) (drv : driver) (params : pyval) (sent : pystr) :
  In (Ran sent) (trace (execute rt drv params)) ->
  exists d q,
    params = VDict d /\
    dict_lookup (py "cypher_query") d = Some (VStr q) /\
    _validate_query rt (strip q) = Ok tt /\
    (sent = apply_limit rt (strip q)
              (match dict_lookup (py "limit") d with
               | Some v => v
               | None => VInt 100
               end) \/
     sent = py "EXPLAIN " ++ strip q).
Proof.
  intros Hin.
  destruct params as [| | | | |l|d]; try (cbn in Hin; contradiction).
  destruct (dict_lookup (py "cypher_query") d) as [v|] eqn:Hq.
  2:{ unfold execute in Hin. cbn [py_get] in Hin. rewrite Hq in Hin.
      cbn in Hin. contradiction. }
  destruct v as [| | | |q| |];
    try (unfold execute in Hin; cbn [py_get] in Hin; rewrite Hq in Hin;
         cbn in Hin; contradiction).
  exists d, q. split; [reflexivity|]. split; [exact Hq|].
  destruct (execute_dict_cases rt drv d Hq)
    as [(msg & E)|(Hv & main & -> & [(msg & E)|(payload & [E|E])])];
    rewrite E in Hin; cbn [trace fst In] in Hin.
  - contradiction.
  - destruct Hin as [[= <-]|[]]. auto.
  - destruct Hin as [[= <-]|[]]. auto.
  - destruct Hin as [[= <-]|[[= <-]|[]]]; auto.
Qed.

Lemma driver_sees_only_validated_queries_witness :
  exists d q,
    VDict [(py "cypher_query", VStr (py "RETURN 1")); (py "limit", VInt 5)] = VDict d /\
    dict_lookup (py "cypher_query") d = Some (VStr q) /\
    _validate_query ascii_runtime (strip q) = Ok tt /\
    (py "RETURN 1 LIMIT 5"
     = apply_limit ascii_runtime (strip q)
         (match dict_lookup (py "limit") d with
          | Some v => v
          | None => VInt 100
          end) \/
     py "RETURN 1 LIMIT 5" = py "EXPLAIN " ++ strip q).
Proof.
  apply (@driver_sees_only_validated_queries ascii_runtime (Some no_plan_driver)
           (VDict [(py "cypher_query", VStr (py "RETURN 1")); (py "limit", VInt 5)])
           (py "RETURN 1 LIMIT 5")).
  left. reflexivity.
Defined.

(** With a truthy limit the text handed to the driver always contains
    [LIMIT] once uppercased, and applying the limit a second time changes
    nothing. *)
Theorem limit_clause_is_ensured (rt : runtime) (query : pystr) (limit : pyval) :
  truthy limit = true ->
  contains (py "LIMIT") (upper rt (apply_limit rt query limit)) = true /\
  apply_limit rt (apply_limit rt query limit) limit = apply_limit rt query limit.
Proof.
  intros Ht.
  assert (H : contains (py "LIMIT") (upper rt (apply_limit rt query limit)) = true).
  { unfold apply_limit. rewrite Ht.
    destruct (contains (py "LIMIT") (upper rt query)) eqn:E; cbn [andb negb]; [exact E|].
    rewrite !upper_app. apply contains_spec.
    exists (upper rt (rstrip_by (N.eqb 59) query) ++ [32%N]),
           ([32%N] ++ upper rt (py_str rt limit)).
    rewrite <- !app_assoc. reflexivity. }
  split; [exact H|].
  unfold apply_limit at 1. now rewrite H, andb_false_r.
Qed.

Lemma limit_clause_is_ensured_witness :
  contains (py "LIMIT")
    (upper ascii_runtime (apply_limit ascii_runtime (py "MATCH (n) RETURN n;") (VInt 25)))
  = true /\
  apply_limit ascii_runtime (apply_limit ascii_runtime (py "MATCH (n) RETURN n;") (VInt 25))
    (VInt 25)
  = apply_limit ascii_runtime (py "MATCH (n) RETURN n;") (VInt 25).
Proof.
  apply limit_clause_is_ensured. reflexivity.
Defined.

End ToolBehaviour.

(** ** Comments in a query *)

Module Comments.
Import QueryTool StrFacts GateFacts.

Lemma end_of_first_newline (c b : pystr) :
  (forall x, In x c -> x <> 10%N) ->
  end_of_first [10%N] (c ++ 10%N :: b) = Some (S (List.length c)).
Proof.
  induction c as [|x c IH]; intros H; [reflexivity|].
  cbn [app end_of_first startswith List.length].
  assert (Hx : (10 =? x)%N = false) by (apply N.eqb_neq; intros E; apply (H x); [now left|auto]).
  rewrite Hx. cbn [andb]. rewrite IH by (intros y Hy; apply H; now right).
  reflexivity.
Qed.

Lemma end_of_first_close (c b : pystr) :
  contains [42%N; 47%N] c = false ->
  end_of_first [42%N; 47%N] (c ++ 42%N :: 47%N :: b) = Some (List.length c + 2).
Proof.
  induction c as [|x c IH]; intros H; [reflexivity|].
  cbn [contains] in H. apply orb_false_iff in H. destruct H as [Hx Hc].
  cbn [app end_of_first List.length Nat.add].
  assert (Hs : startswith [42%N; 47%N] (x :: c ++ 42%N :: 47%N :: b) = false).
  { destruct c as [|y c']; cbn [app startswith] in *.
    - destruct (42 =? x)%N; reflexivity.
    - exact Hx. }
  rewrite Hs, (IH Hc). reflexivity.
Qed.

Lemma sub_comments_skip (dropped rest : pystr) :
  sub_comments_from (List.length dropped) (dropped ++ rest) = sub_comments_from 0 rest.
Proof.
  induction dropped as [|c t IH]; [reflexivity|]. exact IH.
Qed.

(** A line comment that ends in a newline and a block comment that is
    closed are removed, with their delimiters, when they follow text without
    a slash; text without a slash is left as it is. *)
Theorem terminated_comments_are_removed (before inside after : pystr) :
  (forall x, In x before -> x <> 47%N) ->
  ((forall x, In x inside -> x <> 10%N) ->
   sub_comments (before ++ py "//" ++ inside ++ [10%N] ++ after)
   = before ++ sub_comments after) /\
  (contains (py "*/") inside = false ->
   sub_comments (before ++ py "/*" ++ inside ++ py "*/" ++ after)
   = before ++ sub_comments after) /\
  sub_comments before = before.
Proof.
  intros Hb. split; [|split].
  - intros Hi. rewrite sub_comments_keeps by exact Hb. f_equal.
    change (py "//" ++ inside ++ [10%N] ++ after)
      with (47%N :: 47%N :: (inside ++ 10%N :: after)).
    unfold sub_comments. cbn [sub_comments_from match_comment].
    rewrite (@end_of_first_newline inside after Hi). cbn [Nat.add pred].
    replace (inside ++ 10%N :: after) with ((inside ++ [10%N]) ++ after)
      by (now rewrite <- app_assoc).
    replace (S (List.length inside)) with (List.length (inside ++ [10%N]))
      by (rewrite length_app; cbn; lia).
    apply sub_comments_skip.
  - intros Hi. rewrite sub_comments_keeps by exact Hb. f_equal.
    change (py "/*" ++ inside ++ py "*/" ++ after)
      with (47%N :: 42%N :: (inside ++ 42%N :: 47%N :: after)).
    unfold sub_comments. cbn [sub_comments_from match_comment].
    rewrite (@end_of_first_close inside after Hi). cbn [Nat.add pred].
    replace (inside ++ 42%N :: 47%N :: after) with ((inside ++ [42%N; 47%N]) ++ after)
      by (now rewrite <- app_assoc).
    replace (List.length inside + 2) with (List.length (inside ++ [42%N; 47%N]))
      by (rewrite length_app; cbn; lia).
    apply sub_comments_skip.
  - rewrite <- (app_nil_r before) at 1. rewrite sub_comments_keeps by exact Hb.
    exact (app_nil_r before).
Qed.

Lemma terminated_comments_are_removed_witness :
  sub_comments (py "MATCH (n) " ++ py "/*" ++ py " DROP it " ++ py "*/" ++ py "RETURN n")
  = py "MATCH (n) " ++ sub_comments (py "RETURN n").
Proof.
  assert (Hb : forall x, In x (py "MATCH (n) ") -> x <> 47%N).
  { intros x Hx. vm_compute in Hx.
    repeat (destruct Hx as [<-|Hx]; [discriminate|]). contradiction. }
  exact (proj1 (proj2 (@terminated_comments_are_removed
                         (py "MATCH (n) ") (py " DROP it ") (py "RETURN n") Hb))
               eq_refl).
Defined.

End Comments.

(** ** The engine, method by method *)

Module DispatchFacts.
Import Server StrFacts MonadFacts EngineFacts Fixtures.

Lemma is_none_false (v : pyval) : v <> VNone -> is_none v = false.
Proof. destruct v; congruence || reflexivity. Qed.

(** What [to_dict] writes under [jsonrpc] and [id]. *)
Lemma to_dict_envelope (response : JSONRPCResponse) :
  dict_lookup (py "jsonrpc") (to_dict response) = Some (r_jsonrpc response) /\
  (r_id response <> VNone ->
   dict_lookup (py "id") (to_dict response) = Some (r_id response)).
Proof.
  unfold to_dict. split.
  - destruct (truthy (r_error response)), (is_none (r_id response)); reflexivity.
  - intros Hid. rewrite (is_none_false Hid).
    destruct (truthy (r_error response)); reflexivity.
Qed.

Section Engine.
Variable rt : runtime.
Variable tools : registry.

(** Dispatch to a known method: the handler's value becomes the result,
    its failure the [-32603] error; the [id] is the request's. *)
Lemma dispatch_known (request : JSONRPCRequest) (m : pystr)
      (handler : pyval -> M event pyval) :
  method request = VStr m ->
  dict_lookup m (method_handlers rt tools) = Some handler ->
  _dispatch_method rt tools request
  = (trace (handler (effective (params request))),
     Ok (match outcome (handler (effective (params request))) with
         | Ok value => response_of value VNone (id request)
         | Raise e =>
             response_of VNone
               (VDict [(py "code", VInt (-32603));
                       (py "message", VStr (py "Error executing " ++ m));
                       (py "data", VStr (exn_str e))])
               (id request)
         end)).
Proof.
  intros Hm Hh. unfold _dispatch_method. rewrite Hm. cbn [key_in key_get py_str].
  unfold dict_has. rewrite Hh, !bind_lift_ok. cbn [negb].
  fold (effective (params request)).
  destruct (handler (effective (params request))) as [t [value|e]]; cbn.
  - now rewrite !app_nil_r.
  - now rewrite !app_nil_r.
Qed.

(** Every response object that dispatch returns is versioned "2.0" and
    carries the request's [id]. *)
Lemma dispatch_envelope (request : JSONRPCRequest) (t : list event)
      (response : JSONRPCResponse) :
  _dispatch_method rt tools request = (t, Ok response) ->
  r_jsonrpc response = VStr (py "2.0") /\ r_id response = id request.
Proof.
  unfold _dispatch_method.
  destruct (key_in (method request) (method_handlers rt tools)) as [[|]|e];
    [| |discriminate].
  - rewrite bind_lift_ok. cbn [negb].
    destruct (key_get rt (method request) (method_handlers rt tools)) as [handler|e].
    + rewrite bind_lift_ok.
      destruct (handler (if truthy (params request) then params request else VDict []))
        as [t' [value|e]]; cbn; intros [= _ <-]; split; reflexivity.
    + cbn. intros [= _ <-]. split; reflexivity.
  - rewrite bind_lift_ok. cbn. intros [= _ <-]. split; reflexivity.
Qed.

(** A request mapping with a [method] and an [id] that is not null: the
    response of dispatch, serialized, is what [handle_request] returns. *)
Lemma handle_dispatched (request_data : pyval) (d : pydict) (m i : pyval)
      (t : list event) (response : JSONRPCResponse) :
  load_request rt request_data = Ok (VDict d) ->
  dict_lookup (py "method") d = Some m ->
  dict_lookup (py "id") d = Some i ->
  i <> VNone ->
  _dispatch_method rt tools
    {| jsonrpc := match dict_lookup (py "jsonrpc") d with
                  | Some v => v
                  | None => VStr (py "2.0")
                  end;
       method := m;
       params := match dict_lookup (py "params") d with Some v => v | None => VNone end;
       id := i |}
  = (t, Ok response) ->
  handle_request rt tools request_data = (t, Ok (Some (to_dict response))).
Proof.
  intros Hload Hm Hid Hi Hd. unfold handle_request.
  rewrite Hload, from_dict_dict, Hm, Hid, Hd, bind_ok.
  unfold is_notification. cbn [id]. rewrite (is_none_false Hi). cbn.
  now rewrite !app_nil_r.
Qed.

End Engine.

End DispatchFacts.

Module EngineBehaviour.
Import Server StrFacts MonadFacts EngineFacts DispatchFacts Fixtures.

(** [handle_request] never lets an exception out: whatever it is given,
    text or object, well-formed or not, and whatever the tools do, it
    returns a response or the absent response. *)
Theorem handle_request_never_raises
        (rt : runtime) (tools : registry) (request_data : pyval) :
  exists response, outcome (handle_request rt tools request_data) = Ok response.
Proof.
  unfold handle_request.
  match goal with |- context [try_except ?m (fun e => ret (@?h e))] =>
    destruct (try_except_returns m h) as [a ->]
  end.
  now exists a.
Qed.

(** A request mapping with a hashable [method] and an [id] that is not null
    is always answered, with the version "2.0" (whatever version the request
    named) and with the request's [id], be the answer a result or an
    error. *)
Theorem dispatched_response_echoes_id
        (rt : runtime) (tools : registry) (request_data : pyval) (d : pydict)
        (m i : pyval) :
  load_request rt request_data = Ok (VDict d) ->
  dict_lookup (py "method") d = Some m ->
  hashable m = true ->
  dict_lookup (py "id") d = Some i ->
  i <> VNone ->
  exists resp,
    outcome (handle_request rt tools request_data) = Ok (Some resp) /\
    dict_lookup (py "jsonrpc") resp = Some (VStr (py "2.0")) /\
    dict_lookup (py "id") resp = Some i.
Proof.
  intros Hload Hm Hh Hid Hi.
  match goal with |- _ =>
    destruct (dispatch_returns rt tools
                {| jsonrpc := match dict_lookup (py "jsonrpc") d with
                              | Some v => v
                              | None => VStr (py "2.0")
                              end;
                   method := m;
                   params := match dict_lookup (py "params") d with
                             | Some v => v
                             | None => VNone
                             end;
                   id := i |} Hh) as [response Hd]
  end.
  destruct (dispatch_envelope _ _ _ Hd) as [Hv Hr]. cbn [id] in Hr.
  rewrite (@handle_dispatched rt tools request_data d m i _ _ Hload Hm Hid Hi Hd).
  exists (to_dict response). split; [reflexivity|].
  destruct (to_dict_envelope response) as [Hj Hk].
  rewrite Hj, Hv. split; [reflexivity|].
  rewrite <- Hr. apply Hk. now rewrite Hr.
Qed.

Lemma dispatched_response_echoes_id_witness :
  exists resp,
    outcome (handle_request ascii_runtime []
               (VDict [(py "jsonrpc", VStr (py "1.0")); (py "method", VInt 7);
                       (py "id", VStr (py "abc"))]))
    = Ok (Some resp) /\
    dict_lookup (py "jsonrpc") resp = Some (VStr (py "2.0")) /\
    dict_lookup (py "id") resp = Some (VStr (py "abc")).
Proof.
  apply (@dispatched_response_echoes_id ascii_runtime []
           (VDict [(py "jsonrpc", VStr (py "1.0")); (py "method", VInt 7);
                   (py "id", VStr (py "abc"))])
           [(py "jsonrpc", VStr (py "1.0")); (py "method", VInt 7);
            (py "id", VStr (py "abc"))]
           (VInt 7) (VStr (py "abc"))); try reflexivity.
  discriminate.
Defined.

(** [initialize] with parameters that are absent, null, empty or a mapping
    echoes the [protocolVersion] it is given, whatever that value is, and
    falls back to ["2024-11-05"]; it declares the [tools] capability and the
    server's identity, and runs no tool. *)
Theorem initialize_echoes_protocol_version
        (rt : runtime) (tools : registry) (request_data : pyval) (d pd : pydict)
        (i : pyval) :
  load_request rt request_data = Ok (VDict d) ->
  dict_lookup (py "method") d = Some (VStr (py "initialize")) ->
  dict_lookup (py "id") d = Some i ->
  i <> VNone ->
  effective (match dict_lookup (py "params") d with Some v => v | None => VNone end)
  = VDict pd ->
  handle_request rt tools request_data
  = ([], Ok (Some [(py "jsonrpc", VStr (py "2.0"));
                   (py "result",
                    VDict [(py "protocolVersion",
                            match dict_lookup (py "protocolVersion") pd with
                            | Some v => v
                            | None => VStr (py "2024-11-05")
                            end);
                           (py "capabilities", VDict [(py "tools", VDict [])]);
                           (py "serverInfo", VDict server_info)]);
                   (py "id", i)])).
Proof.
  intros Hload Hm Hid Hi Hp.
  pose proof (@dispatch_known rt tools
                {| jsonrpc := match dict_lookup (py "jsonrpc") d with
                              | Some v => v
                              | None => VStr (py "2.0")
                              end;
                   method := VStr (py "initialize");
                   params := match dict_lookup (py "params") d with
                             | Some v => v
                             | None => VNone
                             end;
                   id := i |}
                (py "initialize") (_handle_initialize) eq_refl eq_refl) as Hd.
  rewrite (@handle_dispatched rt tools request_data d _ i _ _ Hload Hm Hid Hi Hd).
  cbn [params id]. rewrite Hp. unfold _handle_initialize. cbn [py_get].
  rewrite bind_lift_ok. cbn [ret trace outcome fst snd].
  unfold to_dict, response_of. cbn [r_error r_id r_jsonrpc r_result truthy].
  rewrite (is_none_false Hi). reflexivity.
Qed.

Lemma initialize_echoes_protocol_version_witness :
  handle_request ascii_runtime []
    (VDict [(py "method", VStr (py "initialize"));
            (py "params", VDict [(py "protocolVersion", VStr (py "2025-03-26"))]);
            (py "id", VInt 1)])
  = ([], Ok (Some [(py "jsonrpc", VStr (py "2.0"));
                   (py "result",
                    VDict [(py "protocolVersion", VStr (py "2025-03-26"));
                           (py "capabilities", VDict [(py "tools", VDict [])]);
                           (py "serverInfo", VDict server_info)]);
                   (py "id", VInt 1)])).
Proof.
  apply (@initialize_echoes_protocol_version ascii_runtime []
           (VDict [(py "method", VStr (py "initialize"));
                   (py "params", VDict [(py "protocolVersion", VStr (py "2025-03-26"))]);
                   (py "id", VInt 1)])
           [(py "method", VStr (py "initialize"));
            (py "params", VDict [(py "protocolVersion", VStr (py "2025-03-26"))]);
            (py "id", VInt 1)]
           [(py "protocolVersion", VStr (py "2025-03-26"))] (VInt 1));
    try reflexivity.
  discriminate.
Defined.

(** [server/info] ignores its parameters: whatever they are, the result is
    the static identity of the server with the current size of the registry
    as [tools_count], and no tool runs. *)
Theorem server_info_counts_tools
        (rt : runtime) (tools : registry) (request_data : pyval) (d : pydict)
        (i : pyval) :
  load_request rt request_data = Ok (VDict d) ->
  dict_lookup (py "method") d = Some (VStr (py "server/info")) ->
  dict_lookup (py "id") d = Some i ->
  i <> VNone ->
  handle_request rt tools request_data
  = ([], Ok (Some [(py "jsonrpc", VStr (py "2.0"));
                   (py "result",
                    VDict (server_info
                           ++ [(py "tools_count", VInt (Z.of_nat (List.length tools)));
                               (py "capabilities",
                                VDict [(py "tools", VBool true);
                                       (py "resources", VBool false);
                                       (py "prompts", VBool false)])]));
                   (py "id", i)])).
Proof.
  intros Hload Hm Hid Hi.
  pose proof (@dispatch_known rt tools
                {| jsonrpc := match dict_lookup (py "jsonrpc") d with
                              | Some v => v
                              | None => VStr (py "2.0")
                              end;
                   method := VStr (py "server/info");
                   params := match dict_lookup (py "params") d with
                             | Some v => v
                             | None => VNone
                             end;
                   id := i |}
                (py "server/info") (_handle_server_info tools) eq_refl eq_refl) as Hd.
  rewrite (@handle_dispatched rt tools request_data d _ i _ _ Hload Hm Hid Hi Hd).
  cbn [params id]. unfold _handle_server_info. cbn [ret trace outcome fst snd].
  unfold to_dict, response_of. cbn [r_error r_id r_jsonrpc r_result truthy].
  rewrite (is_none_false Hi). reflexivity.
Qed.

Lemma server_info_counts_tools_witness :
  handle_request ascii_runtime
    (App.initialize_tools ascii_runtime ascii_lower None None)
    (VDict [(py "method", VStr (py "server/info")); (py "params", VInt 3);
            (py "id", VInt 1)])
  = ([], Ok (Some [(py "jsonrpc", VStr (py "2.0"));
                   (py "result",
                    VDict (server_info
                           ++ [(py "tools_count", VInt 2);
                               (py "capabilities",
                                VDict [(py "tools", VBool true);
                                       (py "resources", VBool false);
                                       (py "prompts", VBool false)])]));
                   (py "id", VInt 1)])).
Proof.
  apply (@server_info_counts_tools ascii_runtime
           (App.initialize_tools ascii_runtime ascii_lower None None)
           (VDict [(py "method", VStr (py "server/info")); (py "params", VInt 3);
                   (py "id", VInt 1)])
           [(py "method", VStr (py "server/info")); (py "params", VInt 3);
            (py "id", VInt 1)]
           (VInt 1)); try reflexivity.
  discriminate.
Defined.

(** A request that is not a mapping (a list, a number, a string, null) is
    answered with the internal error [-32603], without [id], and its [data]
    names the type that has no [get]. *)
Theorem non_mapping_request_is_internal_error
        (rt : runtime) (tools : registry) (request_data v : pyval) :
  load_request rt request_data = Ok v ->
  (forall d, v <> VDict d) ->
  handle_request rt tools request_data
  = ([], Ok (Some [(py "jsonrpc", VStr (py "2.0"));
                   (py "error",
                    VDict [(py "code", VInt (-32603));
                           (py "message", VStr (py "Internal error"));
                           (py "data",
                            VStr (py "'" ++ type_name v
                                     ++ py "' object has no attribute 'get'"))])])).
Proof.
  intros Hload Hv. unfold handle_request. rewrite Hload.
  destruct v; try reflexivity. exfalso. now apply (Hv d).
Qed.

Lemma non_mapping_request_is_internal_error_witness :
  handle_request ascii_runtime [] (VList [VInt 1; VInt 2])
  = ([], Ok (Some [(py "jsonrpc", VStr (py "2.0"));
                   (py "error",
                    VDict [(py "code", VInt (-32603));
                           (py "message", VStr (py "Internal error"));
                           (py "data",
                            VStr (py "'" ++ type_name (VList [VInt 1; VInt 2])
                                     ++ py "' object has no attribute 'get'"))])])).
Proof.
  apply (@non_mapping_request_is_internal_error ascii_runtime []
           (VList [VInt 1; VInt 2]) (VList [VInt 1; VInt 2])).
  - reflexivity.
  - discriminate.
Defined.

End EngineBehaviour.

Module RegistryBehaviour.
Import Server StrFacts MonadFacts EngineFacts RegistryFacts DispatchFacts Fixtures.

(** A [tools/call] under a registered name runs that tool exactly once, on
    [params.arguments] (an empty mapping when absent), and answers with the
    serialized result as one text block. When the tool raises, or its
    result cannot be serialized, the answer is the error [-32603] whose
    [data] is the failure's text behind "Tool execution failed: ": the class
    of the failure is not reported. *)
Theorem tools_call_runs_registered_tool
        (rt : runtime) (tools : registry) (request_data : pyval) (d pd : pydict)
        (s : pystr) (tool : MCPTool) (i : pyval) :
  load_request rt request_data = Ok (VDict d) ->
  dict_lookup (py "method") d = Some (VStr (py "tools/call")) ->
  dict_lookup (py "id") d = Some i ->
  i <> VNone ->
  dict_lookup (py "params") d = Some (VDict pd) ->
  dict_lookup (py "name") pd = Some (VStr s) ->
  dict_lookup s tools = Some tool ->
  handle_request rt tools request_data
  = ([Executed (VStr s)
        (match dict_lookup (py "arguments") pd with Some v => v | None => VDict [] end)],
     Ok (Some
           (match
               match execute tool
                       (match dict_lookup (py "arguments") pd with
                        | Some v => v
                        | None => VDict []
                        end) with
               | Ok result => json_dumps rt result
               | Raise e => Raise e
               end
             with
             | Ok text =>
                 [(py "jsonrpc", VStr (py "2.0"));
                  (py "result",
                   VDict [(py "content",
                           VList [VDict [(py "type", VStr (py "text"));
                                         (py "text", VStr text)]])]);
                  (py "id", i)]
             | Raise e =>
                 [(py "jsonrpc", VStr (py "2.0"));
                  (py "error",
                   VDict [(py "code", VInt (-32603));
                          (py "message", VStr (py "Error executing tools/call"));
                          (py "data", VStr (py "Tool execution failed: " ++ exn_str e))]);
                  (py "id", i)]
             end))).
Proof.
  intros Hload Hm Hid Hi Hp Hn Ht.
  pose proof (@Scenarios.call_registered_tool rt tools
                (match dict_lookup (py "jsonrpc") d with
                 | Some v => v
                 | None => VStr (py "2.0")
                 end) pd s tool i Hn Ht) as Hd.
  pose proof (fun t response =>
                @handle_dispatched rt tools request_data d (VStr (py "tools/call")) i
                                   t response Hload Hm Hid Hi) as Hd'.
  rewrite Hp in Hd'. rewrite (Hd' _ _ Hd).
  destruct (execute tool _) as [result|e].
  - destruct (json_dumps rt result) as [text|e];
      unfold to_dict, response_of; cbn [r_error r_id r_jsonrpc r_result truthy];
      rewrite (is_none_false Hi); reflexivity.
  - unfold to_dict, response_of. cbn [r_error r_id r_jsonrpc r_result truthy].
    rewrite (is_none_false Hi). reflexivity.
Qed.

Lemma tools_call_runs_registered_tool_witness :
  handle_request ascii_runtime
    (App.initialize_tools ascii_runtime ascii_lower None None)
    (VDict [(py "method", VStr (py "tools/call"));
            (py "params",
             VDict [(py "name", VStr (py "neo4j_query"));
                    (py "arguments",
                     VDict [(py "cypher_query", VStr (py "MATCH (n) SET n.x = 1"))])]);
            (py "id", VInt 1)])
  = ([Executed (VStr (py "neo4j_query"))
        (VDict [(py "cypher_query", VStr (py "MATCH (n) SET n.x = 1"))])],
     Ok (Some [(py "jsonrpc", VStr (py "2.0"));
               (py "error",
                VDict [(py "code", VInt (-32603));
                       (py "message", VStr (py "Error executing tools/call"));
                       (py "data",
                        VStr (py "Tool execution failed: Query execution failed: Query contains dangerous keyword: SET. Only read-only queries are allowed."))]);
               (py "id", VInt 1)])).
Proof.
  exact (@tools_call_runs_registered_tool ascii_runtime
           (App.initialize_tools ascii_runtime ascii_lower None None)
           (VDict [(py "method", VStr (py "tools/call"));
                   (py "params",
                    VDict [(py "name", VStr (py "neo4j_query"));
                           (py "arguments",
                            VDict [(py "cypher_query",
                                    VStr (py "MATCH (n) SET n.x = 1"))])]);
                   (py "id", VInt 1)])
           [(py "method", VStr (py "tools/call"));
            (py "params",
             VDict [(py "name", VStr (py "neo4j_query"));
                    (py "arguments",
                     VDict [(py "cypher_query", VStr (py "MATCH (n) SET n.x = 1"))])]);
            (py "id", VInt 1)]
           [(py "name", VStr (py "neo4j_query"));
            (py "arguments",
             VDict [(py "cypher_query", VStr (py "MATCH (n) SET n.x = 1"))])]
           (py "neo4j_query") (App.neo4j_query_tool ascii_runtime None) (VInt 1)
           eq_refl eq_refl eq_refl ltac:(discriminate) eq_refl eq_refl eq_refl).
Defined.

(** Registration and lookup: after [register_tool] the tool is found under
    its name and every other name maps to what it mapped to before; the
    registry grows by one entry exactly when the name is new, and a new
    name is listed last by [list_tools]. *)
Theorem register_then_lookup (tool : MCPTool) (tools : registry) :
  dict_lookup (name tool) (register_tool tool tools) = Some tool /\
  (forall other, other <> name tool ->
                 dict_lookup other (register_tool tool tools) = dict_lookup other tools) /\
  List.length (register_tool tool tools)
  = (if dict_has (name tool) tools then List.length tools else S (List.length tools)) /\
  (dict_has (name tool) tools = false ->
   list_tools (register_tool tool tools) = list_tools tools ++ [get_schema tool]).
Proof.
  unfold register_tool. split; [apply dict_lookup_set_eq|].
  split; [intros other Ho; now apply dict_lookup_set_ne|].
  assert (Hfresh : dict_has (name tool) tools = false ->
                   dict_set (name tool) tool tools = tools ++ [(name tool, tool)]).
  { unfold dict_has. induction tools as [|[k v] rest IH]; cbn [dict_set dict_lookup app];
      [reflexivity|].
    destruct (str_eqb (name tool) k); [discriminate|].
    intros H. now rewrite IH. }
  split.
  - rewrite <- (length_map fst), dict_set_keys.
    destruct (dict_has (name tool) tools); rewrite ?length_app, length_map; cbn; lia.
  - intros H. rewrite (Hfresh H). unfold list_tools. now rewrite map_app.
Qed.

(** For a tool whose parameters have distinct names, the [properties] of
    its schema list the parameters in order, each with its [type] and
    [description], and with [enum] exactly when the parameter has a truthy
    one. *)
Theorem schema_properties_follow_parameters (tool : MCPTool) :
  NoDup (map p_name (parameters tool)) ->
  get_schema tool
  = VDict [(py "name", VStr (name tool));
           (py "description", VStr (description tool));
           (py "inputSchema",
            VDict [(py "type", VStr (py "object"));
                   (py "properties",
                    VDict (map (fun p =>
                                  (p_name p,
                                   VDict ([(py "type", p_type p);
                                           (py "description", p_description p)]
                                          ++ match p_enum p with
                                             | Some e => if truthy e then [(py "enum", e)]
                                                         else []
                                             | None => []
                                             end)))
                               (parameters tool)));
                   (py "required",
                    VList (map (fun p => VStr (p_name p))
                               (filter (fun p => get_truthy (p_required p))
                                       (parameters tool))))])].
Proof.
  intros Hnd. unfold get_schema.
  assert (Hloop : forall ps properties required,
             NoDup (map p_name ps) ->
             (forall p, In p ps -> dict_has (p_name p) properties = false) ->
             fold_left schema_step ps (properties, required)
             = (properties
                ++ map (fun p =>
                          (p_name p,
                           VDict ([(py "type", p_type p);
                                   (py "description", p_description p)]
                                  ++ match p_enum p with
                                     | Some e => if truthy e then [(py "enum", e)] else []
                                     | None => []
                                     end))) ps,
                required ++ map (fun p => VStr (p_name p))
                                (filter (fun p => get_truthy (p_required p)) ps))).
  { induction ps as [|p ps IH]; intros properties required Hn Hfresh;
      cbn [fold_left map filter].
    - now rewrite !app_nil_r.
    - inversion Hn as [|? ? Hnotin Hn']; subst.
      unfold schema_step at 2. cbn iota.
      assert (Hset : forall v,
                 dict_set (p_name p) v properties = properties ++ [(p_name p, v)]).
      { intros v. specialize (Hfresh p (or_introl eq_refl)). revert Hfresh.
        unfold dict_has. clear.
        induction properties as [|[k x] rest IHr]; cbn [dict_set dict_lookup app];
          [reflexivity|].
        destruct (str_eqb (p_name p) k); [discriminate|].
        intros H. now rewrite IHr. }
      rewrite Hset, IH; [| exact Hn' |].
      + rewrite <- !app_assoc. f_equal.
        * cbn [app]. f_equal. f_equal. f_equal.
          destruct (p_enum p) as [e|]; [destruct (truthy e)|]; reflexivity.
        * destruct (get_truthy (p_required p)); cbn [map app]; [|reflexivity].
          now rewrite <- app_assoc.
      + intros p' Hp'. unfold dict_has. rewrite dict_lookup_app.
        specialize (Hfresh p' (or_intror Hp')). unfold dict_has in Hfresh.
        destruct (dict_lookup (p_name p') properties); [discriminate|].
        destruct (str_eqb (p_name p') (p_name p)) eqn:E; [|reflexivity].
        apply str_eqb_eq in E. exfalso. apply Hnotin. rewrite <- E.
        now apply in_map. }
  rewrite (Hloop (parameters tool) [] [] Hnd (fun _ _ => eq_refl)). reflexivity.
Qed.

Lemma schema_properties_follow_parameters_witness :
  exists schema,
    get_schema (App.neo4j_schema_tool ascii_runtime ascii_lower None)
    = VDict [(py "name", VStr (py "neo4j_schema"));
             (py "description",
              VStr (description (App.neo4j_schema_tool ascii_runtime ascii_lower None)));
             (py "inputSchema", VDict schema)] /\
    dict_lookup (py "required") schema = Some (VList [VStr (py "schema_type")]).
Proof.
  eexists. split.
  - apply (@schema_properties_follow_parameters
             (App.neo4j_schema_tool ascii_runtime ascii_lower None)).
    repeat constructor; cbn; intuition discriminate.
  - reflexivity.
Defined.

End RegistryBehaviour.

(** ** The schema tool *)

Module SchemaFacts.
Import SchemaTool StrFacts MonadFacts Fixtures.

Lemma execute_query_connected (run : pystr -> result (list pyval)) (query : pystr) :
  _execute_query (Some run) query
  = ([QueryTool.Ran query],
     match run query with
     | Ok rows => Ok rows
     | Raise e => Raise (mkExn RuntimeError (py "Query execution failed: " ++ exn_str e))
     end).
Proof. unfold _execute_query, emit, bind. destruct (run query); reflexivity. Qed.

(** The nested [try]: the queries are tried in order until one is
    answered. *)
Lemma with_fallbacks_connected (run : pystr -> result (list pyval)) (q1 q2 q3 : pystr) :
  with_fallbacks (Some run) q1 q2 q3
  = match run q1 with
    | Ok rows => ([QueryTool.Ran q1], Ok rows)
    | Raise _ =>
        match run q2 with
        | Ok rows => ([QueryTool.Ran q1; QueryTool.Ran q2], Ok rows)
        | Raise _ =>
            ([QueryTool.Ran q1; QueryTool.Ran q2; QueryTool.Ran q3],
             match run q3 with
             | Ok rows => Ok rows
             | Raise e =>
                 Raise (mkExn RuntimeError (py "Query execution failed: " ++ exn_str e))
             end)
        end
    end.
Proof.
  unfold with_fallbacks. rewrite !execute_query_connected.
  destruct (run q1); [reflexivity|]. destruct (run q2); [reflexivity|].
  destruct (run q3); reflexivity.
Qed.

(** One turn of the overview's loop always goes on to the next. *)
Lemma overview_step_collects (drv : QueryTool.driver) (results : pydict)
      (key query : pystr) :
  overview_step drv results key query
  = (sent drv [query], Ok (dict_set key (collected drv key query) results)).
Proof.
  unfold overview_step, collected, sent. destruct drv as [run|]; [|reflexivity].
  rewrite execute_query_connected. destruct (run query) as [rows|e]; [|reflexivity].
  rewrite bind_ok.
  destruct (existsb (str_eqb key) [py "node_count"; py "relationship_count"]).
  - destruct (first_record_field rows (py "count") (VInt 0)); reflexivity.
  - destruct (first_record_field rows (before_underscore key) (VList [])); reflexivity.
Qed.

Lemma sent_app (drv : QueryTool.driver) (a b : list pystr) :
  sent drv a ++ sent drv b = sent drv (a ++ b).
Proof. destruct drv; cbn; [now rewrite map_app|reflexivity]. Qed.

(** The overview, whatever the store does. *)
Lemma overview_collects (drv : QueryTool.driver) :
  _get_database_overview drv
  = (sent drv (map snd overview_queries),
     match len_or_zero (collected drv (py "labels")
                          (py "CALL db.labels() YIELD label RETURN collect(label) as labels"))
     with
     | Raise e => Raise e
     | Ok entity_type_count =>
         match len_or_zero
                 (collected drv (py "relationship_types")
                    (py "CALL db.relationshipTypes() YIELD relationshipType RETURN collect(relationshipType) as types"))
         with
         | Raise e => Raise e
         | Ok relationship_type_count =>
             Ok (overview_payload
                   (collected drv (py "node_count") (py "MATCH (n) RETURN count(n) as count"))
                   (collected drv (py "relationship_count")
                      (py "MATCH ()-[r]->() RETURN count(r) as count"))
                   (collected drv (py "labels")
                      (py "CALL db.labels() YIELD label RETURN collect(label) as labels"))
                   (collected drv (py "relationship_types")
                      (py "CALL db.relationshipTypes() YIELD relationshipType RETURN collect(relationshipType) as types"))
                   entity_type_count relationship_type_count)
         end
     end).
Proof.
  unfold _get_database_overview, overview_queries. cbn [overview_loop map snd].
  rewrite !overview_step_collects.
  repeat (rewrite bind_ok; cbn [overview_loop]; rewrite ?overview_step_collects).
  cbn [ret trace outcome fst snd]. rewrite bind_ok.
  set (c1 := collected drv (py "node_count") _).
  set (c2 := collected drv (py "relationship_count") _).
  set (c3 := collected drv (py "labels") _).
  set (c4 := collected drv (py "relationship_types") _).
  match goal with |- context [trace ?X] =>
    assert (HX : X = ([], match len_or_zero c3 with
                          | Raise e => Raise e
                          | Ok n1 =>
                              match len_or_zero c4 with
                              | Raise e => Raise e
                              | Ok n2 => Ok (overview_payload c1 c2 c3 c4 n1 n2)
                              end
                          end))
  end.
  { change (py_subscript (VDict _) (py "node_count")) with (Ok c1).
    rewrite bind_lift_ok.
    change (py_subscript (VDict _) (py "relationship_count")) with (Ok c2).
    rewrite bind_lift_ok.
    change (py_subscript (VDict _) (py "labels")) with (Ok c3).
    rewrite bind_lift_ok.
    change (py_subscript (VDict _) (py "relationship_types")) with (Ok c4).
    rewrite bind_lift_ok.
    destruct (len_or_zero c3) as [n1|e]; [|reflexivity]. rewrite bind_lift_ok.
    destruct (len_or_zero c4) as [n2|e]; reflexivity. }
  rewrite HX. cbn [trace outcome fst snd]. rewrite !app_nil_r, !sent_app.
  reflexivity.
Qed.

End SchemaFacts.

Module SchemaBehaviour.
Import SchemaTool StrFacts MonadFacts Fixtures SchemaFacts.

Ltac eval_schema_type :=
  repeat match goal with
         | |- context [py_eq_str (VStr (py ?a)) (py ?b)] =>
             let v := eval vm_compute in (py_eq_str (VStr (py a)) (py b)) in
             change (py_eq_str (VStr (py a)) (py b)) with v
         end;
  cbn iota.

(** A call without [schema_type], or with a falsy one (null, false, zero,
    the empty string), is refused before any query is sent. *)
Theorem schema_type_is_required
        (rt : runtime) (unicode_lower : pystr -> pystr) (drv : QueryTool.driver)
        (d : pydict) :
  dict_lookup (py "schema_type") d = None \/
  (exists v, dict_lookup (py "schema_type") d = Some v /\ truthy v = false) ->
  execute rt unicode_lower drv (VDict d)
  = ([], Raise (mkExn ValueError (py "schema_type parameter is required"))).
Proof.
  intros H. unfold execute. cbn [py_get]. rewrite !bind_lift_ok.
  destruct H as [->|(v & -> & ->)]; reflexivity.
Qed.

Lemma schema_type_is_required_witness :
  execute ascii_runtime ascii_lower (Some failing_store)
    (VDict [(py "schema_type", VStr []); (py "limit", VInt 5)])
  = ([], Raise (mkExn ValueError (py "schema_type parameter is required"))).
Proof.
  apply schema_type_is_required. right. exists (VStr []). split; reflexivity.
Defined.

(** A [schema_type] other than the five known strings (the comparison is
    exact, so case matters, and no other type of value qualifies) sends
    nothing to the store and fails with a [ValueError] that names the
    value. *)
Theorem unknown_schema_type_runs_nothing
        (rt : runtime) (unicode_lower : pystr -> pystr) (drv : QueryTool.driver)
        (d : pydict) (v : pyval) :
  dict_lookup (py "schema_type") d = Some v ->
  truthy v = true ->
  (forall s, In s (map py ["overview"; "nodes"; "relationships"; "properties";
                           "sample_data"]%string) -> v <> VStr s) ->
  execute rt unicode_lower drv (VDict d)
  = ([], Raise (mkExn ValueError
                  (py "Schema exploration failed: " ++ py "Unknown schema_type: "
                      ++ py_str rt v))).
Proof.
  intros Hv Ht Hnot. unfold execute. cbn [py_get]. rewrite Hv, !bind_lift_ok, Ht.
  cbn [negb].
  assert (Hne : forall s, In s (map py ["overview"; "nodes"; "relationships"; "properties";
                                        "sample_data"]%string) ->
                          py_eq_str v s = false).
  { intros s Hs. specialize (Hnot s Hs). destruct v; try reflexivity.
    cbn [py_eq_str]. apply str_eqb_neq. congruence. }
  rewrite !Hne by (cbn [map In]; tauto). reflexivity.
Qed.

Lemma unknown_schema_type_runs_nothing_witness :
  execute ascii_runtime ascii_lower (Some failing_store)
    (VDict [(py "schema_type", VStr (py "Overview"))])
  = ([], Raise (mkExn ValueError
                  (py "Schema exploration failed: " ++ py "Unknown schema_type: "
                      ++ py_str ascii_runtime (VStr (py "Overview"))))).
Proof.
  apply unknown_schema_type_runs_nothing.
  - reflexivity.
  - reflexivity.
  - intros s Hs. vm_compute in Hs.
    repeat (destruct Hs as [<-|Hs]; [discriminate|]). contradiction.
Defined.

(** The three listings ([nodes], [relationships], and [properties] without
    a label) try their three queries in order and stop at the first one the
    store answers: its rows are the payload, and the later queries are not
    sent. Only when all three fail does the call fail, with the third
    failure in its message. *)
Theorem listing_falls_back_in_order
        (rt : runtime) (unicode_lower : pystr -> pystr)
        (run : pystr -> result (list pyval)) (d : pydict)
        (kind q1 q2 q3 : pystr) (payload : list pyval -> pyval) :
  In (kind, (q1, q2, q3), payload) listings ->
  dict_lookup (py "schema_type") d = Some (VStr kind) ->
  (kind = py "properties" ->
   truthy (match dict_lookup (py "node_label") d with Some v => v | None => VNone end)
   = false) ->
  (forall rows,
      run q1 = Ok rows ->
      execute rt unicode_lower (Some run) (VDict d)
      = ([QueryTool.Ran q1], Ok (payload rows))) /\
  (forall e1 rows,
      run q1 = Raise e1 -> run q2 = Ok rows ->
      execute rt unicode_lower (Some run) (VDict d)
      = ([QueryTool.Ran q1; QueryTool.Ran q2], Ok (payload rows))) /\
  (forall e1 e2 rows,
      run q1 = Raise e1 -> run q2 = Raise e2 -> run q3 = Ok rows ->
      execute rt unicode_lower (Some run) (VDict d)
      = ([QueryTool.Ran q1; QueryTool.Ran q2; QueryTool.Ran q3], Ok (payload rows))) /\
  (forall e1 e2 e3,
      run q1 = Raise e1 -> run q2 = Raise e2 -> run q3 = Raise e3 ->
      execute rt unicode_lower (Some run) (VDict d)
      = ([QueryTool.Ran q1; QueryTool.Ran q2; QueryTool.Ran q3],
         Raise (mkExn ValueError
                  (py "Schema exploration failed: " ++ py "Query execution failed: "
                      ++ exn_str e3)))).
Proof.
  intros Hin Hk Hlabel.
  assert (Hexec :
            execute rt unicode_lower (Some run) (VDict d)
            = try_except
                (rows <- with_fallbacks (Some run) q1 q2 q3 ;; ret (payload rows))
                (fun e => raise ValueError (py "Schema exploration failed: " ++ exn_str e))).
  { unfold execute. cbn [py_get]. rewrite Hk, !bind_lift_ok.
    destruct Hin as [E|[E|[E|[]]]]; injection E as <- <- <- <- <-.
    - change (truthy (VStr (py "nodes"))) with true. cbn [negb]. eval_schema_type.
      reflexivity.
    - change (truthy (VStr (py "relationships"))) with true. cbn [negb].
      eval_schema_type. reflexivity.
    - change (truthy (VStr (py "properties"))) with true. cbn [negb].
      eval_schema_type. unfold _get_node_properties. rewrite (Hlabel eq_refl).
      reflexivity. }
  rewrite Hexec, with_fallbacks_connected. repeat split.
  - intros rows ->. reflexivity.
  - intros e1 rows -> ->. reflexivity.
  - intros e1 e2 rows -> -> ->. reflexivity.
  - intros e1 e2 e3 -> -> ->. reflexivity.
Qed.

Lemma listing_falls_back_in_order_witness :
  execute ascii_runtime ascii_lower (Some plain_store)
    (VDict [(py "schema_type", VStr (py "nodes"))])
  = ([QueryTool.Ran labels_apoc_query; QueryTool.Ran labels_fallback_query],
     Ok (VDict [(py "database_type", VStr (py "PostgreSQL"));
                (py "storage_type", VStr (py "Neo4j"));
                (py "schema_type", VStr (py "nodes"));
                (py "purpose", VStr (py "Identify PostgreSQL entities for SQL generation"));
                (py "postgresql_entities",
                 VList [VDict [(py "label", VStr (py "Table")); (py "count", VInt 3)]])])).
Proof.
  refine (proj1 (proj2 (@listing_falls_back_in_order ascii_runtime ascii_lower plain_store
                          [(py "schema_type", VStr (py "nodes"))]
                          (py "nodes") labels_apoc_query labels_fallback_query
                          labels_simple_query _ (or_introl eq_refl) eq_refl _))
                _ _ eq_refl eq_refl).
  discriminate.
Defined.

(** The overview for a call that asks for it. *)
Lemma execute_overview
      (rt : runtime) (unicode_lower : pystr -> pystr) (drv : QueryTool.driver)
      (d : pydict) :
  dict_lookup (py "schema_type") d = Some (VStr (py "overview")) ->
  execute rt unicode_lower drv (VDict d)
  = try_except (_get_database_overview drv)
      (fun e => raise ValueError (py "Schema exploration failed: " ++ exn_str e)).
Proof.
  intros Hk. unfold execute. cbn [py_get]. rewrite Hk, !bind_lift_ok.
  change (truthy (VStr (py "overview"))) with true. cbn [negb]. eval_schema_type.
  reflexivity.
Qed.

(** The overview does not fail when the store does: without a connection,
    or when each of its four queries fails, it still returns, with null for
    the four values and zero for the two counts. With a connection all four
    queries are sent, in order, whatever fails. *)
Theorem overview_survives_failing_queries
        (rt : runtime) (unicode_lower : pystr -> pystr) (drv : QueryTool.driver)
        (d : pydict) :
  dict_lookup (py "schema_type") d = Some (VStr (py "overview")) ->
  drv = None \/
  (exists run, drv = Some run /\
               forall q, In q (map snd overview_queries) -> exists e, run q = Raise e) ->
  execute rt unicode_lower drv (VDict d)
  = (sent drv (map snd overview_queries),
     Ok (overview_payload VNone VNone VNone VNone (VInt 0) (VInt 0))).
Proof.
  intros Hk Hfail. rewrite (execute_overview rt unicode_lower drv d Hk), overview_collects.
  assert (Hc : forall key q, In q (map snd overview_queries) -> collected drv key q = VNone).
  { intros key q Hq. unfold collected. destruct Hfail as [->|(run & -> & Hrun)]; [reflexivity|].
    destruct (Hrun q Hq) as [e ->]. reflexivity. }
  rewrite !Hc by (cbn [overview_queries map snd In]; tauto).
  reflexivity.
Qed.

Lemma overview_survives_failing_queries_witness :
  execute ascii_runtime ascii_lower (Some failing_store)
    (VDict [(py "schema_type", VStr (py "overview"))])
  = (sent (Some failing_store) (map snd overview_queries),
     Ok (overview_payload VNone VNone VNone VNone (VInt 0) (VInt 0))).
Proof.
  apply overview_survives_failing_queries.
  - reflexivity.
  - right. exists failing_store. split; [reflexivity|].
    intros q _. eexists. reflexivity.
Defined.

(** The overview reads the relationship types from a column named
    [relationship], the part of its key before the underscore, while its
    query names the column [types]. So when the store answers that query
    with a row that has no [relationship] column, the relationship types
    come out as null and their count as zero, whatever the row holds. *)
Theorem overview_loses_relationship_types
        (rt : runtime) (unicode_lower : pystr -> pystr)
        (run : pystr -> result (list pyval)) (d row : pydict) (more : list pyval) :
  dict_lookup (py "schema_type") d = Some (VStr (py "overview")) ->
  run (py "CALL db.relationshipTypes() YIELD relationshipType RETURN collect(relationshipType) as types")
  = Ok (VDict row :: more) ->
  dict_lookup (py "relationship") row = None ->
  before_underscore (py "relationship_types") = py "relationship" /\
  forall payload,
    outcome (execute rt unicode_lower (Some run) (VDict d)) = Ok payload ->
    exists node_count relationship_count labels entity_type_count,
      payload = overview_payload node_count relationship_count labels VNone
                  entity_type_count (VInt 0).
Proof.
  intros Hk Hrun Hrow. split; [reflexivity|]. intros payload.
  rewrite (execute_overview rt unicode_lower (Some run) d Hk), overview_collects.
  assert (Hc : collected (Some run) (py "relationship_types")
                 (py "CALL db.relationshipTypes() YIELD relationshipType RETURN collect(relationshipType) as types")
               = VNone).
  { unfold collected. rewrite Hrun.
    change (existsb _ _) with false. cbn iota.
    change (before_underscore (py "relationship_types")) with (py "relationship").
    cbn [first_record_field py_subscript]. now rewrite Hrow. }
  rewrite Hc.
  destruct (len_or_zero (collected (Some run) (py "labels") _)) as [n|e]; cbn.
  - intros [= <-]. eauto.
  - discriminate.
Qed.

Lemma overview_loses_relationship_types_witness :
  exists node_count relationship_count labels entity_type_count,
    outcome (execute ascii_runtime ascii_lower (Some overview_store)
               (VDict [(py "schema_type", VStr (py "overview"))]))
    = Ok (overview_payload node_count relationship_count labels VNone
            entity_type_count (VInt 0)) /\
    node_count = VInt 42 /\
    labels = VList [VStr (py "Table"); VStr (py "Column")] /\
    entity_type_count = VInt 2.
Proof.
  destruct (proj2 (@overview_loses_relationship_types ascii_runtime ascii_lower
                     overview_store [(py "schema_type", VStr (py "overview"))]
                     [(py "types", VList [VStr (py "HAS_COLUMN"); VStr (py "REFERENCES")])]
                     [] eq_refl eq_refl eq_refl)
                  (overview_payload (VInt 42) (VInt 42)
                     (VList [VStr (py "Table"); VStr (py "Column")]) VNone
                     (VInt 2) (VInt 0))
                  eq_refl)
    as (n & r & l & c & E).
  exists (VInt 42), (VInt 42), (VList [VStr (py "Table"); VStr (py "Column")]), (VInt 2).
  repeat split.
Defined.

(** The sample listing never fails and never checks its limit: both
    queries are sent with the limit's text after [LIMIT], whatever value it
    is, and a query that fails, or a missing connection, leaves an empty
    list in its place. *)
Theorem sample_data_never_fails
        (rt : runtime) (unicode_lower : pystr -> pystr) (drv : QueryTool.driver)
        (d : pydict) :
  dict_lookup (py "schema_type") d = Some (VStr (py "sample_data")) ->
  execute rt unicode_lower drv (VDict d)
  = (sent drv
       [py "MATCH (n) RETURN labels(n) as labels, keys(n) as properties LIMIT "
           ++ py_str rt (match dict_lookup (py "limit") d with
                         | Some v => v
                         | None => VInt 100
                         end);
        py "MATCH (a)-[r]->(b) RETURN labels(a) as from_labels, type(r) as relationship_type, labels(b) as to_labels LIMIT "
           ++ py_str rt (match dict_lookup (py "limit") d with
                         | Some v => v
                         | None => VInt 100
                         end)],
     Ok (VDict
           [(py "database_type", VStr (py "PostgreSQL"));
            (py "storage_type", VStr (py "Neo4j"));
            (py "schema_type", VStr (py "sample_data"));
            (py "purpose",
             VStr (py "Sample PostgreSQL schema elements for understanding structure"));
            (py "sample_postgresql_entities",
             VList (rows_or_none drv
                      (py "MATCH (n) RETURN labels(n) as labels, keys(n) as properties LIMIT "
                          ++ py_str rt (match dict_lookup (py "limit") d with
                                        | Some v => v
                                        | None => VInt 100
                                        end))));
            (py "sample_postgresql_relationships",
             VList (rows_or_none drv
                      (py "MATCH (a)-[r]->(b) RETURN labels(a) as from_labels, type(r) as relationship_type, labels(b) as to_labels LIMIT "
                          ++ py_str rt (match dict_lookup (py "limit") d with
                                        | Some v => v
                                        | None => VInt 100
                                        end))))])).
Proof.
  intros Hk. unfold execute. cbn [py_get]. rewrite Hk, !bind_lift_ok.
  change (truthy (VStr (py "sample_data"))) with true. cbn [negb]. eval_schema_type.
  unfold _get_sample_data, sample_queries. cbn [sample_loop].
  destruct drv as [run|].
  - rewrite !execute_query_connected. unfold rows_or_none, sent.
    destruct (run (py "MATCH (n) RETURN labels(n) as labels, keys(n) as properties LIMIT " ++ _));
      destruct (run (py "MATCH (a)-[r]->(b) RETURN labels(a) as from_labels, type(r) as relationship_type, labels(b) as to_labels LIMIT " ++ _));
      reflexivity.
  - reflexivity.
Qed.

Lemma sample_data_never_fails_witness :
  outcome (execute ascii_runtime ascii_lower (Some failing_store)
             (VDict [(py "schema_type", VStr (py "sample_data"));
                     (py "limit", VStr (py "1 UNION MATCH (m) RETURN m"))]))
  = Ok (VDict
          [(py "database_type", VStr (py "PostgreSQL"));
           (py "storage_type", VStr (py "Neo4j"));
           (py "schema_type", VStr (py "sample_data"));
           (py "purpose",
            VStr (py "Sample PostgreSQL schema elements for understanding structure"));
           (py "sample_postgresql_entities", VList []);
           (py "sample_postgresql_relationships", VList [])]).
Proof.
  exact (f_equal snd
           (@sample_data_never_fails ascii_runtime ascii_lower (Some failing_store)
              [(py "schema_type", VStr (py "sample_data"));
               (py "limit", VStr (py "1 UNION MATCH (m) RETURN m"))]
              eq_refl)).
Defined.

(** With a mapping for parameters, a call of the schema tool that fails
    fails with a [ValueError], whatever went wrong underneath. *)
Theorem schema_execute_fails_only_with_value_error
        (rt : runtime) (unicode_lower : pystr -> pystr) (drv : QueryTool.driver)
        (d : pydict) (e : exn) :
  outcome (execute rt unicode_lower drv (VDict d)) = Raise e ->
  exn_cls e = ValueError.
Proof.
  unfold execute. cbn [py_get]. rewrite !bind_lift_ok.
  destruct (truthy _); cbn [negb].
  - match goal with |- context [try_except ?m _] => destruct m as [t [a|e']] end;
      cbn; [discriminate|]. now intros [= <-].
  - cbn. now intros [= <-].
Qed.

Lemma schema_execute_fails_only_with_value_error_witness :
  outcome (execute ascii_runtime ascii_lower None
             (VDict [(py "schema_type", VStr (py "nodes"))]))
  = Raise (mkExn ValueError
             (py "Schema exploration failed: " ++ QueryTool.not_connected_message)) /\
  exn_cls (mkExn ValueError
             (py "Schema exploration failed: " ++ QueryTool.not_connected_message))
  = ValueError.
Proof.
  assert (H : outcome (execute ascii_runtime ascii_lower None
                         (VDict [(py "schema_type", VStr (py "nodes"))]))
              = Raise (mkExn ValueError
                         (py "Schema exploration failed: "
                             ++ QueryTool.not_connected_message))) by reflexivity.
  exact (conj H (schema_execute_fails_only_with_value_error _ _ _ _ H)).
Defined.

(** The properties of one label: the label, any truthy string, goes into
    the query text as it is; the rows' [property] column is the result, and
    the purpose names the label in lower case. *)
Theorem label_properties_are_listed
        (rt : runtime) (unicode_lower : pystr -> pystr)
        (run : pystr -> result (list pyval)) (d : pydict) (label : pystr)
        (rows properties : list pyval) :
  dict_lookup (py "schema_type") d = Some (VStr (py "properties")) ->
  dict_lookup (py "node_label") d = Some (VStr label) ->
  label <> [] ->
  run (label_properties_query rt (VStr label)) = Ok rows ->
  property_column rows = Ok properties ->
  label_properties_query rt (VStr label)
  = text ["";
          "            MATCH (n:"]%string
    ++ label
    ++ text [")";
             "            WITH keys(n) as props";
             "            UNWIND props as prop";
             "            RETURN DISTINCT prop as property";
             "            ORDER BY prop";
             "            LIMIT 100";
             "            "]%string /\
  execute rt unicode_lower (Some run) (VDict d)
  = ([QueryTool.Ran (label_properties_query rt (VStr label))],
     Ok (VDict
           [(py "database_type", VStr (py "PostgreSQL"));
            (py "storage_type", VStr (py "Neo4j"));
            (py "schema_type", VStr (py "properties"));
            (py "purpose",
             VStr (py "PostgreSQL " ++ lower unicode_lower label
                      ++ py " properties for SQL generation"));
            (py "postgresql_entity_type", VStr label);
            (py "properties", VList properties)])).
Proof.
  intros Hk Hl Hne Hrun Hcol. split; [reflexivity|].
  unfold execute. cbn [py_get]. rewrite Hk, Hl, !bind_lift_ok.
  change (truthy (VStr (py "properties"))) with true. cbn [negb]. eval_schema_type.
  unfold _get_node_properties.
  assert (Ht : truthy (VStr label) = true) by (destruct label; [congruence|reflexivity]).
  rewrite Ht, execute_query_connected, Hrun, bind_ok, Hcol, bind_lift_ok.
  cbn [py_lower]. rewrite bind_lift_ok. reflexivity.
Qed.

Lemma label_properties_are_listed_witness :
  execute ascii_runtime ascii_lower
    (Some (fun _ => Ok [VDict [(py "property", VStr (py "table_name"))]]))
    (VDict [(py "schema_type", VStr (py "properties"));
            (py "node_label", VStr (py "Table"))])
  = ([QueryTool.Ran (label_properties_query ascii_runtime (VStr (py "Table")))],
     Ok (VDict
           [(py "database_type", VStr (py "PostgreSQL"));
            (py "storage_type", VStr (py "Neo4j"));
            (py "schema_type", VStr (py "properties"));
            (py "purpose",
             VStr (py "PostgreSQL " ++ lower ascii_lower (py "Table")
                      ++ py " properties for SQL generation"));
            (py "postgresql_entity_type", VStr (py "Table"));
            (py "properties", VList [VStr (py "table_name")])])).
Proof.
  refine (proj2 (@label_properties_are_listed ascii_runtime ascii_lower
                   (fun _ => Ok [VDict [(py "property", VStr (py "table_name"))]])
                   [(py "schema_type", VStr (py "properties"));
                    (py "node_label", VStr (py "Table"))]
                   (py "Table") [VDict [(py "property", VStr (py "table_name"))]]
                   [VStr (py "table_name")] eq_refl eq_refl _ eq_refl eq_refl)).
  discriminate.
Defined.

End SchemaBehaviour.

(** ** The HTTP route *)

Module Endpoint.
Import Server StrFacts MonadFacts EngineFacts Fixtures App.

(** The route [POST /mcp] never fails and answers with one of four
    statuses. A request that is not JSON gets 400 with the parse error; a
    body that cannot be decoded, and a decoded body that is not a mapping
    (so also every JSON string), get 500 with the internal error, and
    [handle_request] is not called for them; a mapping gets what
    [handle_request] returns, with 200 for a response (a result or an error)
    and 204 with an empty body for the absent response. *)
Theorem endpoint_status_codes (rt : runtime) (tools : registry) :
  (forall get_json,
      mcp_endpoint rt tools false get_json
      = ([], Ok (Some [(py "jsonrpc", VStr (py "2.0"));
                       (py "error",
                        VDict [(py "code", VInt (-32700));
                               (py "message", VStr (py "Parse error"));
                               (py "data",
                                VStr (py "Content-Type must be application/json"))])],
                 400%Z))) /\
  (forall e,
      mcp_endpoint rt tools true (Raise e)
      = ([], Ok (Some [(py "jsonrpc", VStr (py "2.0"));
                       (py "error",
                        VDict [(py "code", VInt (-32603));
                               (py "message", VStr (py "Internal error"));
                               (py "data", VStr (exn_str e))])],
                 500%Z))) /\
  (forall v,
      (forall d, v <> VDict d) ->
      mcp_endpoint rt tools true (Ok v)
      = ([], Ok (Some [(py "jsonrpc", VStr (py "2.0"));
                       (py "error",
                        VDict [(py "code", VInt (-32603));
                               (py "message", VStr (py "Internal error"));
                               (py "data",
                                VStr (py "'" ++ type_name v
                                         ++ py "' object has no attribute 'get'"))])],
                 500%Z))) /\
  (forall d,
      exists response,
        handle_request rt tools (VDict d)
        = (trace (handle_request rt tools (VDict d)), Ok response) /\
        mcp_endpoint rt tools true (Ok (VDict d))
        = (trace (handle_request rt tools (VDict d)),
           Ok (match response with
               | Some body => (Some body, 200%Z)
               | None => (None, 204%Z)
               end))).
Proof.
  split; [|split; [|split]].
  - intros get_json. reflexivity.
  - intros e. reflexivity.
  - intros v Hv. destruct v; try reflexivity. exfalso. now apply (Hv d).
  - intros d.
    assert (Hh : exists response,
               outcome (handle_request rt tools (VDict d)) = Ok response).
    { unfold handle_request.
      match goal with |- context [try_except ?m (fun e => ret (@?h e))] =>
        destruct (try_except_returns m h) as [a ->]
      end.
      now exists a. }
    destruct Hh as [response Hh]. exists response.
    unfold mcp_endpoint. cbn [negb py_get]. rewrite !bind_lift_ok.
    destruct (handle_request rt tools (VDict d)) as [t r].
    cbn [outcome snd] in Hh. subst r. split; [reflexivity|].
    rewrite bind_ok. destruct response; cbn; now rewrite !app_nil_r.
Qed.

Lemma endpoint_status_codes_witness :
  mcp_endpoint ascii_runtime [] true
    (Ok (VDict [(py "method", VStr (py "tools/list"))]))
  = ([], Ok (None, 204%Z)).
Proof.
  destruct (proj2 (proj2 (proj2 (endpoint_status_codes ascii_runtime [])))
                  [(py "method", VStr (py "tools/list"))]) as (response & Hh & He).
  rewrite He. clear He.
  assert (Hr : response = None).
  { vm_compute in Hh. now injection Hh as <-. }
  rewrite Hr. reflexivity.
Defined.

End Endpoint.
